(** * Financial RAG agent: query decomposition and multi-step retrieval

    A shallow embedding of [src/query_decomposer.py],
    [src/multi_step_retriever.py], the search wrapper of
    [src/vector_store.py] and the entry point of [src/rag_assistant.py],
    followed by the properties the specification states about them.
    Further modules embed the collection management and the search with
    several queries of [src/vector_store.py], the set-up and reset of
    [src/rag_assistant.py], and the file names of [src/sec_extractor.py]
    as [src/document_chunker.py] reads them; their properties come last.

    Conventions of the embedding:
    - a Python [str] is a [string]; its characters are the code points
      below 256, and the character classes of [re] and [str.lower] are
      written out for that range;
    - a Python [int] is a [Z], a Python [float] is a primitive binary64
      [float];
    - [Optional[T]] is [option T]; a [dict] used as a map is a [gmap];
    - a call that may raise returns a [result], and [try]/[except] is
      [try_except]. *)

From Stdlib Require Import ZArith List String Ascii Bool Lia.
From Stdlib Require Import DecimalString Sorted Permutation.
From Stdlib Require Import PrimFloat SpecFloat FloatOps FloatAxioms.
From stdpp Require Import base option list gmap strings.

Import ListNotations.
Local Open Scope string_scope.
Local Open Scope Z_scope.

(** ** Python string primitives *)

Module PyStr.

Definition code (c : ascii) : Z := Z.of_N (N_of_ascii c).

Definition chr (z : Z) : ascii := ascii_of_N (Z.to_N z).

Definition between (lo hi : Z) (c : ascii) : bool :=
  (lo <=? code c) && (code c <=? hi).

(** [\d] of a [str] pattern: the decimal digits (category Nd). *)
Definition is_digit (c : ascii) : bool := between 48 57 c.

Definition is_upper_ascii (c : ascii) : bool := between 65 90 c.
Definition is_lower_ascii (c : ascii) : bool := between 97 122 c.

(** [str.isalnum] below 256: letters, digits and the numeric characters
    of Latin-1. *)
Definition is_alnum (c : ascii) : bool :=
  is_digit c || is_upper_ascii c || is_lower_ascii c
  || (code c =? 170) || (code c =? 178) || (code c =? 179)
  || (code c =? 181) || (code c =? 185) || (code c =? 186)
  || between 188 190 c || between 192 214 c || between 216 246 c
  || between 248 255 c.

(** [\w] of a [str] pattern: alphanumeric or underscore. *)
Definition is_word (c : ascii) : bool := is_alnum c || (code c =? 95).

(** [\s] of a [str] pattern and [str.isspace]. *)
Definition is_space (c : ascii) : bool :=
  between 9 13 c || between 28 32 c || (code c =? 133) || (code c =? 160).

(** [str.lower] on one character.  Below 256 the lower-case form of a
    character is one character, so [lower] keeps the length of a string;
    the one character whose lower-case form has two, U+0130, lies above
    that range. *)
Definition lower_char (c : ascii) : ascii :=
  if is_upper_ascii c || (between 192 222 c && negb (code c =? 215))
  then chr (code c + 32) else c.

Fixpoint lower (s : string) : string :=
  match s with
  | EmptyString => EmptyString
  | String c s' => String (lower_char c) (lower s')
  end.

(** [needle in hay] on strings. *)
Fixpoint contains (needle hay : string) : bool :=
  String.prefix needle hay
  || match hay with
     | EmptyString => false
     | String _ hay' => contains needle hay'
     end.

(** [any(k in s for k in keywords)]. *)
Definition any_in (keywords : list string) (s : string) : bool :=
  existsb (fun k => contains k s) keywords.

(** [x in l] on a list of strings. *)
Definition mem (x : string) (l : list string) : bool :=
  existsb (String.eqb x) l.

(** [str(n)] for an [int]. *)
Definition str_of_int (n : Z) : string :=
  NilZero.string_of_int (Z.to_int n).

(** [int(s)] for a string of decimal digits. *)
Fixpoint int_of_digits (acc : Z) (s : string) : Z :=
  match s with
  | EmptyString => acc
  | String c s' => int_of_digits (10 * acc + (code c - 48)) s'
  end.

(** [s[:n]]. *)
Fixpoint take (n : nat) (s : string) : string :=
  match n, s with
  | S n', String c s' => String c (take n' s')
  | _, _ => EmptyString
  end.

(** [s[n:]]. *)
Fixpoint drop (n : nat) (s : string) : string :=
  match n, s with
  | S n', String _ s' => drop n' s'
  | _, _ => s
  end.

Fixpoint lstrip (s : string) : string :=
  match s with
  | String c s' => if is_space c then lstrip s' else s
  | EmptyString => EmptyString
  end.

Fixpoint rstrip (s : string) : string :=
  match s with
  | EmptyString => EmptyString
  | String c s' =>
      match rstrip s' with
      | EmptyString => if is_space c then EmptyString else String c EmptyString
      | r => String c r
      end
  end.

(** [s.strip()]. *)
Definition strip (s : string) : string := rstrip (lstrip s).

(** [sep.join(parts)]. *)
Fixpoint join (sep : string) (parts : list string) : string :=
  match parts with
  | [] => EmptyString
  | [p] => p
  | p :: rest => p ++ sep ++ join sep rest
  end.

(** [s.replace(",", "")]. *)
Fixpoint remove_char (x : ascii) (s : string) : string :=
  match s with
  | EmptyString => EmptyString
  | String c s' =>
      if Ascii.eqb c x then remove_char x s' else String c (remove_char x s')
  end.

(** Truthiness of an [Optional[str]] and of an [Optional[int]]. *)
Definition truthy_str (o : option string) : bool :=
  match o with
  | Some s => negb (String.eqb s EmptyString)
  | None => false
  end.

Definition truthy_int (o : option Z) : bool :=
  match o with
  | Some n => negb (n =? 0)
  | None => false
  end.

End PyStr.

(** ** CPython's [set] of small non-negative integers

    [list(set(years))] iterates the hash table in slot order.  The table
    starts with 8 slots, the hash of a small non-negative [int] is the
    integer itself, a key goes to slot [hash & mask] and probes on a
    collision, and the table is rebuilt with more slots once five slots
    are filled ([set_add_entry] and [set_table_resize] of
    [Objects/setobject.c]). *)

Module PySet.

Record t := mk { mask : Z; table : list (option Z); fill : nat }.

Definition empty : t := mk 7 (repeat None 8) 0.

Definition slot (tb : list (option Z)) (i : Z) : option Z :=
  nth (Z.to_nat i) tb None.

Definition set_slot (tb : list (option Z)) (i : Z) (k : Z) : list (option Z) :=
  <[Z.to_nat i := Some k]> tb.

Definition LINEAR_PROBES : Z := 9.
Definition PERTURB_SHIFT : Z := 5.

Inductive probe_result := Unused (i : Z) | Active (i : Z) | Exhausted.

(** The slots [i, i+1, ..., i+probes] of one linear run. *)
Fixpoint linear_run (tb : list (option Z)) (key : Z) (i : Z) (probes : nat)
  : probe_result :=
  match slot tb i with
  | None => Unused i
  | Some k =>
      if k =? key then Active i
      else match probes with
           | O => Exhausted
           | S p => linear_run tb key (i + 1) p
           end
  end.

(** The probe sequence of [set_add_entry]. *)
Fixpoint probe (fuel : nat) (m : Z) (tb : list (option Z)) (key : Z)
  (perturb i : Z) : probe_result :=
  match fuel with
  | O => Exhausted
  | S fuel' =>
      let probes := if i + LINEAR_PROBES <=? m then LINEAR_PROBES else 0 in
      match linear_run tb key i (Z.to_nat probes) with
      | Exhausted =>
          let perturb' := Z.shiftr perturb PERTURB_SHIFT in
          probe fuel' m tb key perturb' (Z.land (i * 5 + 1 + perturb') m)
      | r => r
      end
  end.

Definition probe_fuel : nat := 64.

(** [set_insert_clean]: reinsertion into a fresh table during a resize. *)
Definition insert_clean (m : Z) (tb : list (option Z)) (key : Z)
  : list (option Z) :=
  match probe probe_fuel m tb key key (Z.land key m) with
  | Unused i => set_slot tb i key
  | _ => tb
  end.

Fixpoint new_size (fuel : nat) (size minused : Z) : Z :=
  match fuel with
  | O => size
  | S fuel' =>
      if size <=? minused then new_size fuel' (size * 2) minused else size
  end.

Definition keys (tb : list (option Z)) : list Z :=
  omap (fun e => e) tb.

(** [set_table_resize(so, so->used * 4)]. *)
Definition resize (s : t) : t :=
  let used := Z.of_nat (fill s) in
  let size := new_size 64 8 (used * 4) in
  let fresh := repeat None (Z.to_nat size) in
  mk (size - 1)
     (fold_left (insert_clean (size - 1)) (keys (table s)) fresh)
     (fill s).

(** [set_add_key] for a key whose hash is the key itself. *)
Definition add (s : t) (key : Z) : t :=
  match probe probe_fuel (mask s) (table s) key key (Z.land key (mask s)) with
  | Unused i =>
      let s' := mk (mask s) (set_slot (table s) i key) (S (fill s)) in
      if Z.of_nat (fill s') * 5 <? mask s * 3 then s' else resize s'
  | _ => s
  end.

(** [list(set(l))]. *)
Definition list_of_set (l : list Z) : list Z :=
  keys (table (fold_left add l empty)).

End PySet.

(** [set(l)]. *)
Definition set_of (l : list Z) : PySet.t := fold_left PySet.add l PySet.empty.

(** The years [extract_years] accepts. *)
Definition tracked_years : list Z := [2020; 2021; 2022; 2023; 2024; 2025].


(** ** Query decomposer ([src/query_decomposer.py]) *)

Module QueryDecomposer.

Inductive QueryType :=
| SIMPLE_DIRECT | COMPARATIVE | CROSS_COMPANY | TEMPORAL | CALCULATION.

(** [QueryType.value]. *)
Definition QueryType_value (t : QueryType) : string :=
  match t with
  | SIMPLE_DIRECT => "simple_direct"
  | COMPARATIVE => "comparative"
  | CROSS_COMPANY => "cross_company"
  | TEMPORAL => "temporal"
  | CALCULATION => "calculation"
  end.

Definition QueryType_eqb (a b : QueryType) : bool :=
  match a, b with
  | SIMPLE_DIRECT, SIMPLE_DIRECT | COMPARATIVE, COMPARATIVE
  | CROSS_COMPANY, CROSS_COMPANY | TEMPORAL, TEMPORAL
  | CALCULATION, CALCULATION => true
  | _, _ => false
  end.

Record SubQuery := mkSubQuery {
  text : string;
  query_type : QueryType;
  company : option string;
  year : option Z;
  metric : option string;
  section_hint : option string
}.

Record DecomposedQuery := mkDecomposedQuery {
  original_query : string;
  dq_query_type : QueryType;
  sub_queries : list SubQuery;
  requires_calculation : bool;
  calculation_type : option string
}.

(** The tables of [QueryDecomposer.__init__], in insertion order. *)
Definition company_mappings : list (string * string) :=
  [ ("google", "GOOGL"); ("alphabet", "GOOGL"); ("microsoft", "MSFT");
    ("nvidia", "NVDA"); ("googl", "GOOGL"); ("msft", "MSFT");
    ("nvda", "NVDA") ].

Definition financial_metrics : list (string * list string) :=
  [ ("revenue", ["revenue"; "sales"; "total revenue"; "net sales"]);
    ("profit", ["profit"; "net income"; "earnings"; "net profit"]);
    ("operating_income",
      ["operating income"; "operating profit"; "operating earnings"]);
    ("operating_margin", ["operating margin"; "operating profit margin"]);
    ("gross_margin", ["gross margin"; "gross profit margin"]);
    ("cash", ["cash"; "cash and equivalents"; "cash position"]);
    ("debt", ["debt"; "total debt"; "long-term debt"]);
    ("assets", ["assets"; "total assets"]);
    ("equity", ["equity"; "shareholders equity"; "stockholders equity"]);
    ("eps", ["earnings per share"; "eps"]);
    ("data_center_revenue",
      ["data center revenue"; "datacenter revenue"; "data center sales"]) ].

Definition temporal_keywords : list (string * list string) :=
  [ ("growth", ["growth"; "grew"; "increase"; "increased"; "change"]);
    ("decline", ["decline"; "decreased"; "drop"; "fell"]);
    ("comparison", ["compare"; "comparison"; "versus"; "vs"; "compared to"]) ].

Definition comparison_keywords : list string :=
  [ "highest"; "lowest"; "best"; "worst"; "most"; "least";
    "greater"; "better"; "which company"; "who had" ].

Definition calculation_keywords : list string :=
  [ "calculate"; "compute"; "growth rate"; "percentage" ].

Definition growth_keywords : list string := [ "growth"; "grew"; "increase" ].

(** One step of the loop of [extract_companies]. *)
Definition add_company (query_lower : string) (companies : list string)
  (entry : string * string) : list string :=
  let '(name, ticker) := entry in
  if PyStr.contains name query_lower then
    if negb (PyStr.mem ticker companies) then companies ++ [ticker]
    else companies
  else companies.

Definition extract_companies (query : string) : list string :=
  fold_left (add_company (PyStr.lower query)) company_mappings [].

(** [re.findall(r'\b(20\d{2})\b', query)]: a scan from the left; [prev]
    is the character before the current position and [skip] counts the
    characters of the last match still to be passed. *)
Definition year_at (prev : option ascii) (s : string) : option string :=
  match s with
  | String c1 (String c2 (String c3 (String c4 rest))) =>
      let boundary_before :=
        match prev with Some p => negb (PyStr.is_word p) | None => true end in
      let boundary_after :=
        match rest with
        | String c5 _ => negb (PyStr.is_word c5)
        | EmptyString => true
        end in
      if boundary_before && Ascii.eqb c1 "2" && Ascii.eqb c2 "0"
         && PyStr.is_digit c3 && PyStr.is_digit c4 && boundary_after
      then Some (String c1 (String c2 (String c3 (String c4 EmptyString))))
      else None
  | _ => None
  end.

Fixpoint findall_years (prev : option ascii) (skip : nat) (s : string)
  : list string :=
  match s with
  | EmptyString => []
  | String c s' =>
      match skip with
      | S k => findall_years (Some c) k s'
      | O =>
          match year_at prev s with
          | Some y => y :: findall_years (Some c) 3 s'
          | None => findall_years (Some c) 0 s'
          end
      end
  end.

Definition in_year_range (y : Z) : bool := (2020 <=? y) && (y <=? 2025).

Definition extract_years (query : string) : list Z :=
  let year_matches := findall_years None 0 query in
  let years :=
    filter (fun y => in_year_range y = true)
           (map (PyStr.int_of_digits 0) year_matches) in
  PySet.list_of_set years.

(** One step of the outer loop of [extract_metrics]. *)
Definition add_metric (query_lower : string) (metrics : list string)
  (entry : string * list string) : list string :=
  let '(metric_key, metric_variants) := entry in
  if PyStr.any_in metric_variants query_lower then
    if negb (PyStr.mem metric_key metrics) then metrics ++ [metric_key]
    else metrics
  else metrics.

Definition extract_metrics (query : string) : list string :=
  fold_left (add_metric (PyStr.lower query)) financial_metrics [].

Definition all_temporal_keywords : list string :=
  concat (map snd temporal_keywords).

Definition classify_query_type (query : string) (companies : list string)
  (years : list Z) : QueryType :=
  let query_lower := PyStr.lower query in
  if (1 <? Z.of_nat (length companies))
     || PyStr.any_in comparison_keywords query_lower
  then CROSS_COMPANY
  else if (1 <? Z.of_nat (length years))
          || PyStr.any_in all_temporal_keywords query_lower
  then COMPARATIVE
  else if PyStr.any_in calculation_keywords query_lower
  then CALCULATION
  else SIMPLE_DIRECT.

Definition decompose_simple_query (query : string) (companies : list string)
  (years : list Z) (metrics : list string) : list SubQuery :=
  [ mkSubQuery query SIMPLE_DIRECT (head companies) (head years)
               (head metrics) None ].

(** [min(years)] and [max(years)] of a non-empty list. *)
Definition py_min (l : list Z) : Z :=
  match l with
  | [] => 0
  | x :: l' => fold_left Z.min l' x
  end.

Definition py_max (l : list Z) : Z :=
  match l with
  | [] => 0
  | x :: l' => fold_left Z.max l' x
  end.

Definition year_sub_query (company metric : string) (year : Z) : SubQuery :=
  mkSubQuery (company ++ " " ++ metric ++ " " ++ PyStr.str_of_int year)
             SIMPLE_DIRECT (Some company) (Some year) (Some metric) None.

Definition growth_sub_query (company metric : string) (years : list Z)
  : SubQuery :=
  mkSubQuery ("Calculate growth from " ++ PyStr.str_of_int (py_min years)
              ++ " to " ++ PyStr.str_of_int (py_max years))
             CALCULATION (Some company) None (Some metric) None.

Definition decompose_comparative_query (query : string)
  (companies : list string) (years : list Z) (metrics : list string)
  : list SubQuery :=
  match companies, metrics with
  | [company], metric :: _ =>
      if 1 <? Z.of_nat (length years) then
        map (year_sub_query company metric) years
        ++ (if Z.of_nat (length years) =? 2
            then [growth_sub_query company metric years] else [])
      else []
  | _, _ => []
  end.

(** Python's [str(None)], as an f-string renders an unset field. *)
Definition fmt_opt_str (o : option string) : string :=
  match o with Some s => s | None => "None" end.

Definition fmt_opt_int (o : option Z) : string :=
  match o with Some n => PyStr.str_of_int n | None => "None" end.

Definition roster : list string := [ "GOOGL"; "MSFT"; "NVDA" ].

Definition company_sub_query (query : string) (year : option Z)
  (metric : option string) (company : string) : SubQuery :=
  mkSubQuery
    (if PyStr.truthy_str metric && PyStr.truthy_int year
     then company ++ " " ++ fmt_opt_str metric ++ " " ++ fmt_opt_int year
     else company ++ " " ++ query)
    SIMPLE_DIRECT (Some company) year metric None.

Definition comparison_sub_query (metric : option string) : SubQuery :=
  mkSubQuery
    (if PyStr.truthy_str metric
     then "Compare " ++ fmt_opt_str metric ++ " across companies"
     else "Compare across companies")
    CALCULATION None None metric None.

Definition decompose_cross_company_query (query : string)
  (companies : list string) (years : list Z) (metrics : list string)
  : list SubQuery :=
  let year := head years in
  let metric := head metrics in
  let target_companies :=
    match companies with [] => roster | _ => companies end in
  map (company_sub_query query year metric) target_companies
  ++ [comparison_sub_query metric].

Definition decompose_query (query : string) : DecomposedQuery :=
  let companies := extract_companies query in
  let years := extract_years query in
  let metrics := extract_metrics query in
  let query_type := classify_query_type query companies years in
  let '(sub_queries, requires_calculation) :=
    match query_type with
    | SIMPLE_DIRECT =>
        (decompose_simple_query query companies years metrics, false)
    | COMPARATIVE =>
        (decompose_comparative_query query companies years metrics, true)
    | CROSS_COMPANY =>
        (decompose_cross_company_query query companies years metrics, true)
    | _ => (decompose_simple_query query companies years metrics, true)
    end in
  let calculation_type :=
    if requires_calculation then
      let query_lower := PyStr.lower query in
      if PyStr.any_in growth_keywords query_lower then Some "growth"
      else if PyStr.any_in comparison_keywords query_lower
      then Some "comparison"
      else Some "general"
    else None in
  mkDecomposedQuery query query_type sub_queries requires_calculation
                    calculation_type.

End QueryDecomposer.

(** ** Exceptions *)

Module Exn.

(** The outcome of a call that may raise; [e] is [str(e)] of the
    exception. *)
Inductive result (A : Type) : Type :=
| Ok (a : A)
| Raise (e : string).

Arguments Ok {A} a.
Arguments Raise {A} e.

Definition bind {A B : Type} (r : result A) (k : A -> result B) : result B :=
  match r with
  | Ok a => k a
  | Raise e => Raise e
  end.

(** [try: body / except Exception as e: handler(e)]. *)
Definition try_except {A : Type} (body : result A) (handler : string -> result A)
  : result A :=
  match body with
  | Ok a => Ok a
  | Raise e => handler e
  end.

(** [l[0]]. *)
Definition first_item {A : Type} (l : list A) : result A :=
  match l with
  | x :: _ => Ok x
  | [] => Raise "list index out of range"
  end.

End Exn.

#[global] Instance result_ret : MRet Exn.result := @Exn.Ok.
#[global] Instance result_bind : MBind Exn.result :=
  fun A B k r => Exn.bind r k.

(** ** Decimal text and binary64 *)

Module PyFloat.

(** A non-negative integer as an exact (unrounded) float. *)
Definition SF_of_Z (n : Z) : spec_float :=
  match n with
  | Zpos p => S754_finite false p 0
  | _ => S754_zero false
  end.

Fixpoint split_dot (s : string) : string * string :=
  match s with
  | EmptyString => (EmptyString, EmptyString)
  | String c s' =>
      if Ascii.eqb c "." then (EmptyString, s')
      else let '(i, f) := split_dot s' in (String c i, f)
  end.

(** [float(s)] for [s] of the shape digits or digits.digits: the
    binary64 nearest to the decimal (ties to even), that is the quotient
    of two integers rounded once. *)
Definition float_of_decimal (s : string) : float :=
  let '(int_part, frac_part) := split_dot s in
  let n := PyStr.int_of_digits 0 (int_part ++ frac_part) in
  let d := 10 ^ Z.of_nat (String.length frac_part) in
  SF2Prim (SFdiv prec emax (SF_of_Z n) (SF_of_Z d)).

(** [float(n)] for an [int] below 2^53 (exact). *)
Definition float_of_int (n : Z) : float :=
  SF2Prim (SFdiv prec emax (SF_of_Z n) (SF_of_Z 1)).

(** Rounding of [n / 2^k] to the nearest integer, ties to even. *)
Definition round_half_even_shift (n : Z) (k : Z) : Z :=
  let d := 2 ^ k in
  let q := n / d in
  let r := n mod d in
  match Z.compare (2 * r) d with
  | Lt => q
  | Gt => q + 1
  | Eq => if Z.even q then q else q + 1
  end.

Definition pad3 (n : Z) : string :=
  let s := PyStr.str_of_int n in
  match String.length s with
  | 1%nat => "00" ++ s
  | 2%nat => "0" ++ s
  | _ => s
  end.

(** [f"{x:.3f}"]. *)
Definition format_3f (x : float) : string :=
  match Prim2SF x with
  | S754_nan => "nan"
  | S754_infinity s => if s then "-inf" else "inf"
  | S754_zero s => if s then "-0.000" else "0.000"
  | S754_finite s m e =>
      let thousandths :=
        if 0 <=? e then Zpos m * 1000 * 2 ^ e
        else round_half_even_shift (Zpos m * 1000) (- e) in
      (if s then "-" else "")
      ++ PyStr.str_of_int (thousandths / 1000) ++ "."
      ++ pad3 (thousandths mod 1000)
  end.

End PyFloat.

(** ** Vector store search ([src/vector_store.py]) *)

Module VectorStore.

Import Exn.

(** A search hit as [similarity_search] formats it. *)
Record Chunk := mkChunk {
  chunk_score : float;
  chunk_id : string;
  chunk_content : string;
  chunk_company : string;
  chunk_year : Z;
  chunk_section : option string;
  chunk_source_file : string;
  chunk_metadata : list (string * string)
}.

Inductive MatchValue := MatchStr (s : string) | MatchInt (n : Z).

Record FieldCondition := mkFieldCondition {
  fc_key : string;
  fc_match : MatchValue
}.

(** [Filter(must=...)], or [None]. *)
Definition Filter := option (list FieldCondition).

(** A [ScoredPoint] of the client: a score and the payload written by
    [store_chunks]. *)
Record ScoredPoint := mkScoredPoint {
  sp_score : float;
  sp_chunk_id : string;
  sp_content : string;
  sp_company : string;
  sp_year : Z;
  sp_section : option string;
  sp_source_file : string;
  sp_metadata : list (string * string)
}.

Definition Embedding := list float.

(** The external capabilities the store calls; each may raise. *)
Record Backend := mkBackend {
  encode : list string -> result (list Embedding);
  client_search : Embedding -> Z -> Filter -> result (list ScoredPoint)
}.

Definition generate_embeddings (b : Backend) (texts : list string)
  : list Embedding :=
  match encode b texts with
  | Ok embeddings => embeddings
  | Raise _ => []
  end.

Definition build_filter (company_filter : option string)
  (year_filter : option Z) (section_filter : option string) : Filter :=
  let filter_conditions : list FieldCondition :=
    ((if PyStr.truthy_str company_filter
      then [mkFieldCondition "company" (MatchStr (default "" company_filter))]
      else [])
     ++ (if PyStr.truthy_int year_filter
         then [mkFieldCondition "year" (MatchInt (default 0 year_filter))]
         else [])
     ++ (if PyStr.truthy_str section_filter
         then [mkFieldCondition "section"
                 (MatchStr (default "" section_filter))]
         else []))%list in
  match filter_conditions with
  | [] => None
  | _ => Some filter_conditions
  end.

Definition format_point (p : ScoredPoint) : Chunk :=
  mkChunk (sp_score p) (sp_chunk_id p) (sp_content p) (sp_company p)
          (sp_year p) (sp_section p) (sp_source_file p) (sp_metadata p).

(** The body of the [try] of [similarity_search]. *)
Definition search_body (b : Backend) (query : string) (top_k : Z)
  (company_filter : option string) (year_filter : option Z)
  (section_filter : option string) : result (list Chunk) :=
  query_embedding ← first_item (generate_embeddings b [query]);
  search_result ← client_search b query_embedding top_k
                    (build_filter company_filter year_filter section_filter);
  mret (map format_point search_result).

Definition similarity_search (b : Backend) (query : string) (top_k : Z)
  (company_filter : option string) (year_filter : option Z)
  (section_filter : option string) : result (list Chunk) :=
  try_except
    (search_body b query top_k company_filter year_filter section_filter)
    (fun _ => Ok []).

End VectorStore.

(** ** Multi-step retriever ([src/multi_step_retriever.py]) *)

Module Retriever.

Import Exn QueryDecomposer VectorStore.

Record RetrievalResult := mkRetrievalResult {
  sub_query : SubQuery;
  retrieved_chunks : list Chunk;
  relevance_scores : list float
}.

(** One extracted number: the [dict] built by
    [_extract_numbers_from_text]. *)
Record Number := mkNumber {
  value : float;
  original_text : string;
  context : string;
  unit : option string
}.

(** One entry of [calculation_data]. *)
Record Entry := mkEntry {
  entry_company : string;
  entry_year : Z;
  entry_chunks : list Chunk;
  entry_metrics : gmap (option string) (list Number)
}.

Record ContextSynthesis := mkContextSynthesis {
  cs_original_query : string;
  cs_decomposed_query : DecomposedQuery;
  cs_retrieval_results : list RetrievalResult;
  cs_synthesized_context : string;
  cs_requires_calculation : bool;
  cs_calculation_data : option (gmap string Entry)
}.

Definition default_top_k : Z := 5.

Definition retrieve_for_sub_query (b : Backend) (sq : SubQuery) (top_k : Z)
  : result RetrievalResult :=
  search_results ← similarity_search b (text sq) top_k (company sq) (year sq)
                     (section_hint sq);
  mret (mkRetrievalResult sq search_results
          (map chunk_score search_results)).

Fixpoint retrieve_sub_queries (b : Backend) (sqs : list SubQuery)
  : result (list RetrievalResult) :=
  match sqs with
  | [] => mret []
  | sq :: rest =>
      if QueryType_eqb (query_type sq) CALCULATION
      then retrieve_sub_queries b rest
      else
        r ← retrieve_for_sub_query b sq default_top_k;
        rs ← retrieve_sub_queries b rest;
        mret (r :: rs)
  end.

Definition retrieve_multi_step (b : Backend) (dq : DecomposedQuery)
  : result (list RetrievalResult) :=
  retrieve_sub_queries b (sub_queries dq).

(** *** Numbers in text

    The pattern of [_extract_numbers_from_text], with [re.IGNORECASE]:
    [\$?(\d{1,3}(?:,\d{3})*(?:\.\d+)?)\s*(billion|million|thousand|B|M|K)?].
    Every part after the first digit may match the empty string, so the
    greedy choice of each part is the one the match keeps. *)

Record Match := mkMatch {
  m_start : nat;
  m_end : nat;
  group0 : string;
  group1 : string;
  group2 : option string
}.

(** The longest prefix of characters satisfying [p], and the rest. *)
Fixpoint span (p : ascii -> bool) (s : string) : string * string :=
  match s with
  | String c s' =>
      if p c then let '(a, r) := span p s' in (String c a, r)
      else (EmptyString, s)
  | EmptyString => (EmptyString, EmptyString)
  end.

(** [\d{0,n}], greedy. *)
Fixpoint digits_upto (n : nat) (s : string) : string * string :=
  match n, s with
  | S n', String c s' =>
      if PyStr.is_digit c
      then let '(a, r) := digits_upto n' s' in (String c a, r)
      else (EmptyString, s)
  | _, _ => (EmptyString, s)
  end.

(** [(?:,\d{3})*], greedy. *)
Fixpoint comma_groups (s : string) : string * string :=
  match s with
  | String c (String d1 (String d2 (String d3 rest))) =>
      if Ascii.eqb c "," && PyStr.is_digit d1 && PyStr.is_digit d2
         && PyStr.is_digit d3
      then let '(a, r) := comma_groups rest in
           (String c (String d1 (String d2 (String d3 a))), r)
      else (EmptyString, s)
  | _ => (EmptyString, s)
  end.

(** [(?:\.\d+)?], greedy. *)
Definition decimal_part (s : string) : string * string :=
  match s with
  | String c (String d _ as s') =>
      if Ascii.eqb c "." && PyStr.is_digit d
      then let '(a, r) := span PyStr.is_digit s' in (String c a, r)
      else (EmptyString, s)
  | _ => (EmptyString, s)
  end.

(** The alternatives of group 2, in the order the pattern tries them. *)
Definition unit_tokens : list string :=
  [ "billion"; "million"; "thousand"; "B"; "M"; "K" ].

(** Does [s] start with [token] under [re.IGNORECASE]?  The tokens are
    ASCII letters, and of the code points below 256 the ones that match
    such a letter are the letter itself in lower and in upper case: the
    characters whose lower-case form is the lower-case letter.  (Above
    that range the pattern also takes U+017F for s, U+0130 and U+0131
    for i, and U+212A for k.) *)
Definition starts_with_nocase (token s : string) : bool :=
  String.eqb (PyStr.lower token)
             (PyStr.lower (PyStr.take (String.length token) s)).

(** [(billion|million|thousand|B|M|K)?]: the text of the first
    alternative that matches, as written in [s]. *)
Definition unit_part (s : string) : option string * string :=
  match find (fun token => starts_with_nocase token s) unit_tokens with
  | Some token =>
      (Some (PyStr.take (String.length token) s),
       PyStr.drop (String.length token) s)
  | None => (None, s)
  end.

(** A match of the whole pattern at the start of [s]: groups 0, 1, 2. *)
Definition match_here (s : string) : option (string * string * option string) :=
  let '(dollar, s1) :=
    match s with
    | String c s' =>
        if Ascii.eqb c "$" then (String c EmptyString, s')
        else (EmptyString, s)
    | EmptyString => (EmptyString, s)
    end in
  let '(lead, s2) := digits_upto 3 s1 in
  match lead with
  | EmptyString => None
  | _ =>
      let '(groups, s3) := comma_groups s2 in
      let '(frac, s4) := decimal_part s3 in
      let '(spaces, s5) := span PyStr.is_space s4 in
      let '(unit_text, _) := unit_part s5 in
      let number := lead ++ groups ++ frac in
      Some (dollar ++ number ++ spaces ++ default EmptyString unit_text,
            number, unit_text)
  end.

(** [re.finditer(pattern, text, re.IGNORECASE)]: [pos] is the index of
    the first character of [s] in the text, [skip] the number of
    characters of the last match still to be passed. *)
Fixpoint finditer (pos skip : nat) (s : string) : list Match :=
  match s with
  | EmptyString => []
  | String _ s' =>
      match skip with
      | S k => finditer (S pos) k s'
      | O =>
          match match_here s with
          | Some (g0, g1, g2) =>
              mkMatch pos (pos + String.length g0) g0 g1 g2
              :: finditer (S pos) (String.length g0 - 1) s'
          | None => finditer (S pos) 0 s'
          end
      end
  end.

(** Is [s] of the shape digits or digits.digits? *)
Definition is_decimal (s : string) : bool :=
  let '(int_part, rest) := span PyStr.is_digit s in
  negb (String.eqb int_part EmptyString)
  && match rest with
     | EmptyString => true
     | String c frac =>
         Ascii.eqb c "."
         && negb (String.eqb frac EmptyString)
         && String.eqb (fst (span PyStr.is_digit frac)) frac
     end.

(** [float(s)] on the strings group 1 can hold; the embedding raises
    [ValueError] on every other string. *)
Definition float_of_str (s : string) : result float :=
  if is_decimal s then Ok (PyFloat.float_of_decimal s)
  else Raise ("could not convert string to float: " ++ s).

Definition billion : float := PyFloat.float_of_int 1000000000.
Definition million : float := PyFloat.float_of_int 1000000.
Definition thousand : float := PyFloat.float_of_int 1000.

(** The unit branch of the loop body. *)
Definition to_base_units (v : float) (unit : option string) : float :=
  if PyStr.truthy_str unit then
    let unit_lower := PyStr.lower (default EmptyString unit) in
    if PyStr.mem unit_lower ["billion"; "b"] then PrimFloat.mul v billion
    else if PyStr.mem unit_lower ["million"; "m"] then PrimFloat.mul v million
    else if PyStr.mem unit_lower ["thousand"; "k"]
    then PrimFloat.mul v thousand
    else v
  else v.

(** [text[start:end]] for [0 <= start]. *)
Definition slice (text : string) (start stop : nat) : string :=
  PyStr.take (stop - start) (PyStr.drop start text).

(** The body of the [try] for one match. *)
Definition number_of_match (text : string) (m : Match) : result Number :=
  let value_str := PyStr.remove_char "," (group1 m) in
  let unit := group2 m in
  v ← float_of_str value_str;
  let start := (m_start m - 50)%nat in
  let stop := Nat.min (String.length text) (m_end m + 50) in
  mret (mkNumber (to_base_units v unit) (group0 m)
          (PyStr.strip (slice text start stop)) unit).

Definition _extract_numbers_from_text (text : string) (metric : option string)
  : list Number :=
  flat_map
    (fun m =>
       match number_of_match text m with
       | Ok n => [n]
       | Raise _ => []
       end)
    (finditer 0 0 text).

(** *** Calculation data *)

Definition new_entry (company : string) (year : Z) : Entry :=
  mkEntry company year [] ∅.

(** The innermost loop body of [extract_financial_data]. *)
Definition record_numbers (metric : option string) (e : Entry) (chunk : Chunk)
  : Entry :=
  match _extract_numbers_from_text (chunk_content chunk) metric with
  | [] => e
  | numbers =>
      mkEntry (entry_company e) (entry_year e) (entry_chunks e)
        (<[metric := (default [] (entry_metrics e !! metric) ++ numbers)%list]>
           (entry_metrics e))
  end.

Definition data_key (company : string) (year : Z) : string :=
  company ++ "_" ++ PyStr.str_of_int year.

(** The outer loop body of [extract_financial_data]. *)
Definition add_result (calculation_data : gmap string Entry)
  (r : RetrievalResult) : gmap string Entry :=
  let company := QueryDecomposer.company (sub_query r) in
  let year := QueryDecomposer.year (sub_query r) in
  let metric := QueryDecomposer.metric (sub_query r) in
  match company, year with
  | Some c, Some y =>
      if PyStr.truthy_str company && PyStr.truthy_int year then
        let key := data_key c y in
        let e0 := default (new_entry c y) (calculation_data !! key) in
        let e1 :=
          mkEntry (entry_company e0) (entry_year e0)
                  (entry_chunks e0 ++ retrieved_chunks r) (entry_metrics e0) in
        <[key := fold_left (record_numbers metric) (retrieved_chunks r) e1]>
          calculation_data
      else calculation_data
  | _, _ => calculation_data
  end.

Definition extract_financial_data (retrieval_results : list RetrievalResult)
  (dq : DecomposedQuery) : gmap string Entry :=
  if negb (requires_calculation dq) then ∅
  else fold_left add_result retrieval_results ∅.

(** *** Context synthesis *)

(** [{**chunk, "sub_query": result.sub_query.text}]. *)
Record TaggedChunk := mkTaggedChunk {
  tc_chunk : Chunk;
  tc_sub_query : string
}.

Definition tc_score (c : TaggedChunk) : float := chunk_score (tc_chunk c).

(** The state of the de-duplication loops: [all_chunks] and
    [seen_chunk_ids]. *)
Definition DedupState : Type := list TaggedChunk * gset string.

Definition dedup_chunk (sub_query_text : string) (st : DedupState)
  (chunk : Chunk) : DedupState :=
  let '(all_chunks, seen_chunk_ids) := st in
  if decide (chunk_id chunk ∈ seen_chunk_ids) then st
  else ((all_chunks ++ [mkTaggedChunk chunk sub_query_text])%list,
        {[chunk_id chunk]} ∪ seen_chunk_ids).

Definition dedup_result (st : DedupState) (r : RetrievalResult) : DedupState :=
  fold_left (dedup_chunk (text (sub_query r))) (retrieved_chunks r) st.

Definition dedup_chunks (retrieval_results : list RetrievalResult)
  : list TaggedChunk :=
  fst (fold_left dedup_result retrieval_results ([], ∅)).

(** [all_chunks.sort(key=lambda x: x["score"], reverse=True)]: a stable
    sort that uses [<] on the keys only; an element stays in front of the
    later elements it is not smaller than.  When no score is a NaN, [<]
    orders the scores and the result is the one stable descending
    arrangement, which this insertion sort computes.  With a NaN among
    the scores the arrangement [list.sort] leaves depends on the runs it
    merges; the statements below about the order of the result therefore
    assume scores without NaN. *)
Fixpoint insert_by_score (x : TaggedChunk) (sorted : list TaggedChunk)
  : list TaggedChunk :=
  match sorted with
  | [] => [x]
  | y :: rest =>
      if PrimFloat.ltb (tc_score x) (tc_score y)
      then y :: insert_by_score x rest
      else x :: sorted
  end.

Definition sort_by_score (l : list TaggedChunk) : list TaggedChunk :=
  foldr insert_by_score [] l.

(** [all_chunks] after the sort. *)
Definition ranked_chunks (retrieval_results : list RetrievalResult)
  : list TaggedChunk :=
  sort_by_score (dedup_chunks retrieval_results).

Definition NL : string := String (PyStr.chr 10) EmptyString.

Definition MAX_CONTEXT_CHUNKS : nat := 10.
Definition MAX_CONTENT_CHARS : nat := 1000.

(** The five lines of one rendered chunk; [i] counts from 0. *)
Definition render_entry (i : nat) (c : TaggedChunk) : list string :=
  let chunk := tc_chunk c in
  let section :=
    if PyStr.truthy_str (chunk_section chunk)
    then default EmptyString (chunk_section chunk) else "General" in
  [ "### Relevant Information " ++ PyStr.str_of_int (Z.of_nat i + 1);
    "**Source**: " ++ chunk_company chunk ++ " "
      ++ PyStr.str_of_int (chunk_year chunk) ++ " (" ++ section ++ ")";
    "**Relevance**: " ++ PyFloat.format_3f (chunk_score chunk);
    "**Content**: " ++ PyStr.take MAX_CONTENT_CHARS (chunk_content chunk)
      ++ "...";
    "" ].

(** The chunks the rendering loop visits: [all_chunks[:10]]. *)
Definition rendered_chunks (retrieval_results : list RetrievalResult)
  : list TaggedChunk :=
  take MAX_CONTEXT_CHUNKS (ranked_chunks retrieval_results).

Definition context_parts (retrieval_results : list RetrievalResult)
  (dq : DecomposedQuery) : list string :=
  [ "Query: " ++ original_query dq;
    "Query Type: " ++ QueryType_value (dq_query_type dq);
    "" ]
  ++ concat (imap render_entry (rendered_chunks retrieval_results)).

Definition synthesize_context (retrieval_results : list RetrievalResult)
  (dq : DecomposedQuery) : string :=
  PyStr.join NL (context_parts retrieval_results dq).

(** *** The pipeline *)

Definition process_query (b : Backend) (query : string)
  : result ContextSynthesis :=
  let decomposed_query := decompose_query query in
  retrieval_results ← retrieve_multi_step b decomposed_query;
  let calculation_data :=
    if requires_calculation decomposed_query
    then Some (extract_financial_data retrieval_results decomposed_query)
    else None in
  let synthesized_context :=
    synthesize_context retrieval_results decomposed_query in
  mret (mkContextSynthesis query decomposed_query retrieval_results
          synthesized_context (requires_calculation decomposed_query)
          calculation_data).

(** The answer-generation capability: the message contents of the
    choices of one chat completion, or an exception. *)
Definition Generator : Type := string -> string -> result (list string).

Definition system_prompt : string :=
"You are a financial analyst assistant. Your task is to answer questions about financial data from SEC 10-K filings.

Key guidelines:
1. Base your answers strictly on the provided context
2. When performing calculations, show your work step by step
3. Include specific numbers with units (millions, billions)
4. Cite the relevant company and year for data points
5. If you cannot find specific information, state this clearly
6. For comparative queries, present data in a structured format

The context includes relevant excerpts from financial documents. Use this information to provide accurate, detailed answers.".

Definition str_of_bool (b : bool) : string := if b then "True" else "False".

Definition user_prompt (cs : ContextSynthesis) : string :=
  "Please answer the following financial question based on the provided context:

Question: " ++ cs_original_query cs ++ "

Context:
" ++ cs_synthesized_context cs ++ "

Additional Information:
- Query requires calculation: " ++ str_of_bool (cs_requires_calculation cs) ++ "
- Query type: " ++ QueryType_value (dq_query_type (cs_decomposed_query cs)) ++ "

Please provide a comprehensive answer based on the available information.".

Definition generate_final_answer (g : Generator) (cs : ContextSynthesis)
  : result string :=
  try_except
    (choices ← g system_prompt (user_prompt cs);
     first_item choices)
    (fun e => Ok ("Error generating answer: " ++ e)).

End Retriever.

(** ** The assistant ([src/rag_assistant.py]) *)

Module Assistant.

Import Exn VectorStore Retriever.

(** The two methods of [self.retriever] that [answer_query] calls. *)
Record RetrieverMethods := mkRetrieverMethods {
  process : string -> result ContextSynthesis;
  generate : ContextSynthesis -> result string
}.

(** [MultiStepRetriever(vector_store, openai_api_key)]. *)
Definition MultiStepRetriever (b : Backend) (g : Generator)
  : RetrieverMethods :=
  mkRetrieverMethods (process_query b) (generate_final_answer g).

Record FinancialRAGAssistant := mkAssistant {
  retriever : RetrieverMethods;
  is_initialized : bool
}.

(** The UTF-8 bytes of the cross mark that starts the message. *)
Definition CROSS_MARK : string :=
  String (PyStr.chr 226) (String (PyStr.chr 157) (String (PyStr.chr 140) "")).

Definition not_initialized_message : string :=
  CROSS_MARK ++ " System not initialized. Please run setup first.".

Definition answer_query (self : FinancialRAGAssistant) (query : string)
  : result string :=
  try_except
    (if negb (is_initialized self) then Ok not_initialized_message
     else
       context_synthesis ← process (retriever self) query;
       generate (retriever self) context_synthesis)
    (fun e => Ok ("Error: " ++ e)).

End Assistant.

(** ** Calls that change the outside world *)

Module Eff.

Import Exn.

(** A call that reads and changes the state [W] of the outside world
    (the vector database, the source of identifiers) and may raise; an
    exception leaves the world as it was at the raise. *)
Definition M (W A : Type) : Type := W -> result A * W.

Definition ret {W A : Type} (a : A) : M W A := fun w => (Ok a, w).

Definition bind {W A B : Type} (m : M W A) (k : A -> M W B) : M W B :=
  fun w =>
    match m w with
    | (Ok a, w') => k a w'
    | (Raise e, w') => (Raise e, w')
    end.

(** A step that does not touch the world. *)
Definition lift {W A : Type} (r : result A) : M W A := fun w => (r, w).

(** [try: body / except Exception as e: handler(e)]. *)
Definition try_except {W A : Type} (body : M W A) (handler : string -> M W A)
  : M W A :=
  fun w =>
    match body w with
    | (Ok a, w') => (Ok a, w')
    | (Raise e, w') => handler e w'
    end.

End Eff.

#[global] Instance eff_ret {W : Type} : MRet (Eff.M W) := @Eff.ret W.
#[global] Instance eff_bind {W : Type} : MBind (Eff.M W) :=
  fun A B k m => Eff.bind m k.

(** ** Python values held in a payload *)

Module PyVal.

Import Exn.

(** The hashable values: [None], a [str], an [int]. *)
Inductive Scalar :=
| SNone
| SStr (s : string)
| SInt (n : Z).

(** A value of a payload: a scalar, or a [dict] of scalars (the
    [metadata] of a chunk). *)
Inductive Value :=
| Atom (a : Scalar)
| Dict (d : list (string * Scalar)).

#[global] Instance Scalar_eq_dec : EqDecision Scalar.
Proof. solve_decision. Defined.

#[global] Instance Value_eq_dec : EqDecision Value.
Proof. solve_decision. Defined.

Definition Scalar_to_sum (a : Scalar) : option (string + Z) :=
  match a with
  | SNone => None
  | SStr s => Some (inl s)
  | SInt n => Some (inr n)
  end.

Definition Scalar_of_sum (x : option (string + Z)) : Scalar :=
  match x with
  | None => SNone
  | Some (inl s) => SStr s
  | Some (inr n) => SInt n
  end.

#[global] Instance Scalar_countable : Countable Scalar.
Proof.
  apply (inj_countable' Scalar_to_sum Scalar_of_sum). now intros [].
Defined.

(** Truthiness: [if v:]. *)
Definition truthy (v : Value) : bool :=
  match v with
  | Atom SNone => false
  | Atom (SStr s) => negb (String.eqb s EmptyString)
  | Atom (SInt n) => negb (n =? 0)
  | Dict d => match d with [] => false | _ => true end
  end.

(** The key a value makes in a [dict]; a [dict] is not hashable. *)
Definition hashable (v : Value) : result Scalar :=
  match v with
  | Atom a => Ok a
  | Dict _ => Raise "unhashable type: 'dict'"
  end.

Definition of_opt_str (o : option string) : Value :=
  match o with Some s => Atom (SStr s) | None => Atom SNone end.

End PyVal.

(** ** File names of the filings ([src/sec_extractor.py]) *)

Module SECExtractor.

(** [s.startswith(c)] and [s.endswith(c)] for one character. *)
Definition starts_with (c : ascii) (s : string) : bool :=
  match s with
  | String x _ => Ascii.eqb x c
  | EmptyString => false
  end.

Fixpoint ends_with (c : ascii) (s : string) : bool :=
  match s with
  | EmptyString => false
  | String x EmptyString => Ascii.eqb x c
  | String _ s' => ends_with c s'
  end.

(** [os.path.join(a, b)] of [posixpath]. *)
Definition path_join (a b : string) : string :=
  if starts_with "/" b then b
  else if String.eqb a EmptyString || ends_with "/" a then a ++ b
  else a ++ "/" ++ b.

(** [filename] of [download_filing]. *)
Definition filing_filename (ticker : string) (year : Z) : string :=
  ticker ++ "_10K_" ++ PyStr.str_of_int year ++ ".html".

(** [filepath] of [download_filing], the path it returns. *)
Definition filing_path (save_dir ticker : string) (year : Z) : string :=
  path_join save_dir (filing_filename ticker year).

End SECExtractor.

(** ** Document chunks ([src/document_chunker.py]) *)

Module DocumentChunker.

(** The dataclass [DocumentChunk]. *)
Record DocumentChunk := mkDocumentChunk {
  chunk_id : string;
  content : string;
  metadata : list (string * PyVal.Scalar);
  source_file : string;
  chunk_index : Z;
  start_char : Z;
  end_char : Z;
  company : string;
  year : Z;
  section : option string
}.

(** [s.split(sep)] for a separator of one character. *)
Fixpoint split_char (sep : ascii) (s : string) : list string :=
  match s with
  | EmptyString => [EmptyString]
  | String c s' =>
      if Ascii.eqb c sep then EmptyString :: split_char sep s'
      else
        match split_char sep s' with
        | field :: fields => String c field :: fields
        | [] => [String c EmptyString]
        end
  end.

(** [l[-1]] of the fields of a split. *)
Definition last_item (l : list string) : string := List.last l EmptyString.

(** A match of [([A-Z]+)_10K_(\d{4})] at the start of [s]: groups 1 and
    2.  The letters are followed by an underscore, so the greedy run of
    letters is the only one that can match. *)
Definition match_10k_here (s : string) : option (string * string) :=
  let '(letters, rest) := Retriever.span PyStr.is_upper_ascii s in
  match letters with
  | EmptyString => None
  | _ =>
      if String.prefix "_10K_" rest then
        let '(digits, _) := Retriever.digits_upto 4 (PyStr.drop 5 rest) in
        if (String.length digits =? 4)%nat then Some (letters, digits)
        else None
      else None
  end.

(** [re.search(r'([A-Z]+)_10K_(\d{4})', s)]. *)
Fixpoint search_10k (s : string) : option (string * string) :=
  match match_10k_here s with
  | Some groups => Some groups
  | None =>
      match s with
      | EmptyString => None
      | String _ s' => search_10k s'
      end
  end.

Definition extract_company_year (filepath : string) : string * Z :=
  let filename := last_item (split_char "/" filepath) in
  match search_10k filename with
  | Some (ticker, digits) => (ticker, PyStr.int_of_digits 0 digits)
  | None => ("UNKNOWN", 2023)
  end.

End DocumentChunker.

(** ** Collection management ([src/vector_store.py]) *)

Module Collection.

Import Exn PyVal VectorStore.

Definition Payload : Type := gmap string Value.

(** [PointStruct(id=..., vector=..., payload=...)]. *)
Record PointStruct := mkPointStruct {
  point_id : string;
  vector : Embedding;
  payload : Payload
}.

(** A point as [scroll] returns it, without its vector. *)
Record ScrolledPoint := mkScrolledPoint {
  scrolled_payload : option Payload
}.

(** What [get_collection_stats] reads of the collection info. *)
Record CollectionInfo := mkCollectionInfo {
  points_count : option Z;
  vectors_size : Z;
  vectors_distance : string
}.

(** The calls made on the Qdrant client, and [uuid.uuid4]; [W] is the
    state of the world they act on. *)
Record Client (W : Type) := mkClient {
  get_collections : Eff.M W (list string);
  client_create_collection : string -> Z -> string -> Eff.M W unit;
  upsert : string -> list PointStruct -> Eff.M W unit;
  get_collection : string -> Eff.M W CollectionInfo;
  scroll : string -> Z -> Eff.M W (list ScrolledPoint);
  client_delete_collection : string -> Eff.M W unit;
  uuid4 : Eff.M W string
}.

Arguments mkClient {W}.
Arguments get_collections {W}.
Arguments client_create_collection {W}.
Arguments upsert {W}.
Arguments get_collection {W}.
Arguments scroll {W}.
Arguments client_delete_collection {W}.
Arguments uuid4 {W}.

(** The fields of a [VectorStore] the methods read. *)
Record Store (W : Type) := mkStore {
  collection_name : string;
  embedding_dim : Z;
  embedding_model : Backend;
  client : Client W
}.

Arguments mkStore {W}.
Arguments collection_name {W}.
Arguments embedding_dim {W}.
Arguments embedding_model {W}.
Arguments client {W}.

Definition COSINE : string := "Cosine".

Definition create_collection {W : Type} (self : Store W) : Eff.M W bool :=
  Eff.try_except
    (collection_names ← get_collections (client self);
     if negb (PyStr.mem (collection_name self) collection_names) then
       _ ← client_create_collection (client self) (collection_name self)
             (embedding_dim self) COSINE;
       mret true
     else mret false)
    (fun _ => mret false).

(** The payload [store_chunks] writes for a chunk. *)
Definition payload_of_chunk (chunk : DocumentChunker.DocumentChunk) : Payload :=
  list_to_map
    [ ("chunk_id", Atom (SStr (DocumentChunker.chunk_id chunk)));
      ("content", Atom (SStr (DocumentChunker.content chunk)));
      ("company", Atom (SStr (DocumentChunker.company chunk)));
      ("year", Atom (SInt (DocumentChunker.year chunk)));
      ("section", of_opt_str (DocumentChunker.section chunk));
      ("source_file", Atom (SStr (DocumentChunker.source_file chunk)));
      ("chunk_index", Atom (SInt (DocumentChunker.chunk_index chunk)));
      ("start_char", Atom (SInt (DocumentChunker.start_char chunk)));
      ("end_char", Atom (SInt (DocumentChunker.end_char chunk)));
      ("metadata", Dict (DocumentChunker.metadata chunk)) ].

(** The loop that prepares the points: one fresh identifier per chunk. *)
Fixpoint make_points {W : Type} (cl : Client W)
  (pairs : list (DocumentChunker.DocumentChunk * Embedding))
  : Eff.M W (list PointStruct) :=
  match pairs with
  | [] => mret []
  | (chunk, embedding) :: rest =>
      new_id ← uuid4 cl;
      points ← make_points cl rest;
      mret (mkPointStruct new_id embedding (payload_of_chunk chunk) :: points)
  end.

(** [len(range(lo, hi, step))] for a positive [step]. *)
Definition range_len (lo hi step : Z) : Z :=
  if lo <? hi then 1 + (hi - 1 - lo) / step else 0.

(** [range(lo, hi, step)] for a positive [step]. *)
Definition py_range (lo hi step : Z) : list Z :=
  map (fun k => lo + Z.of_nat k * step)
      (seq 0 (Z.to_nat (range_len lo hi step))).

(** [l[i:j]] for [0 <= i]. *)
Definition slice {A : Type} (l : list A) (i j : Z) : list A :=
  take (Z.to_nat (j - i)) (drop (Z.to_nat i) l).

Definition batch_size : Z := 100.

(** The value of [batch] at each turn of the storing loop. *)
Definition batches (points : list PointStruct) : list (list PointStruct) :=
  map (fun i => slice points i (i + batch_size))
      (py_range 0 (Z.of_nat (length points)) batch_size).

Fixpoint upsert_batches {W : Type} (self : Store W)
  (bs : list (list PointStruct)) : Eff.M W unit :=
  match bs with
  | [] => mret tt
  | batch :: rest =>
      _ ← upsert (client self) (collection_name self) batch;
      upsert_batches self rest
  end.

Definition store_chunks {W : Type} (self : Store W)
  (chunks : list DocumentChunker.DocumentChunk) : Eff.M W bool :=
  Eff.try_except
    (match chunks with
     | [] => mret true
     | _ =>
         let chunk_texts := map DocumentChunker.content chunks in
         let embeddings :=
           generate_embeddings (embedding_model self) chunk_texts in
         if negb (length embeddings =? length chunks)%nat then mret false
         else
           points ← make_points (client self) (zip chunks embeddings);
           _ ← upsert_batches self (batches points);
           mret true
     end)
    (fun _ => mret false).

(** [counts[v] = counts.get(v, 0) + 1]. *)
Definition tally (counts : gmap Scalar Z) (v : Value)
  : result (gmap Scalar Z) :=
  k ← hashable v;
  mret (<[k := default 0 (counts !! k) + 1]> counts).

(** The three dictionaries of the analysis loop. *)
Record Distributions := mkDistributions {
  companies : gmap Scalar Z;
  years : gmap Scalar Z;
  sections : gmap Scalar Z
}.

Definition no_distributions : Distributions := mkDistributions ∅ ∅ ∅.

(** [payload.get(key, default)]; a point scrolled without payload has
    [None] there, which has no [get]. *)
Definition payload_get (point : ScrolledPoint) (key : string) (dflt : Value)
  : result Value :=
  match scrolled_payload point with
  | Some p => Ok (default dflt (p !! key))
  | None => Raise "'NoneType' object has no attribute 'get'"
  end.

(** The body of the analysis loop. *)
Definition analyze_point (acc : Distributions) (point : ScrolledPoint)
  : result Distributions :=
  company ← payload_get point "company" (Atom (SStr "Unknown"));
  companies' ← tally (companies acc) company;
  year ← payload_get point "year" (Atom (SInt 0));
  years' ← tally (years acc) year;
  section ← payload_get point "section" (Atom SNone);
  sections' ← (if truthy section then tally (sections acc) section
               else mret (sections acc));
  mret (mkDistributions companies' years' sections').

Fixpoint analyze_points (acc : Distributions) (points : list ScrolledPoint)
  : result Distributions :=
  match points with
  | [] => mret acc
  | point :: rest =>
      acc' ← analyze_point acc point;
      analyze_points acc' rest
  end.

(** The dictionary [get_collection_stats] returns when nothing raises. *)
Record Stats := mkStats {
  total_points : option Z;
  vector_size : Z;
  distance_metric : string;
  company_distribution : gmap Scalar Z;
  year_distribution : gmap Scalar Z;
  section_distribution : gmap Scalar Z
}.

Definition SCROLL_LIMIT : Z := 1000.

(** [None] stands for the empty dictionary of the handler. *)
Definition get_collection_stats {W : Type} (self : Store W)
  : Eff.M W (option Stats) :=
  Eff.try_except
    (collection_info ← get_collection (client self) (collection_name self);
     points ← scroll (client self) (collection_name self) SCROLL_LIMIT;
     d ← Eff.lift (analyze_points no_distributions points);
     mret (Some (mkStats (points_count collection_info)
                   (vectors_size collection_info)
                   (vectors_distance collection_info)
                   (companies d) (years d) (sections d))))
    (fun _ => mret None).

Definition delete_collection {W : Type} (self : Store W) : Eff.M W bool :=
  Eff.try_except
    (_ ← client_delete_collection (client self) (collection_name self);
     mret true)
    (fun _ => mret false).

End Collection.

(** ** Search with several queries ([src/vector_store.py]) *)

Module MultiSearch.

Import Exn VectorStore Retriever.

Definition default_top_k_per_query : Z := 3.

(** The loops of [multi_query_search]; they are the loops of
    [synthesize_context], with the query as the tag of a hit (its key
    ["query"]). *)
Fixpoint search_queries (b : Backend) (queries : list string)
  (top_k_per_query : Z) (company_filter : option string)
  (year_filter : option Z) (st : DedupState) : result DedupState :=
  match queries with
  | [] => mret st
  | query :: rest =>
      results ← similarity_search b query top_k_per_query company_filter
                  year_filter None;
      search_queries b rest top_k_per_query company_filter year_filter
        (fold_left (dedup_chunk query) results st)
  end.

Definition multi_query_search (b : Backend) (queries : list string)
  (top_k_per_query : Z) (company_filter : option string)
  (year_filter : option Z) : result (list TaggedChunk) :=
  st ← search_queries b queries top_k_per_query company_filter year_filter
         ([], ∅);
  mret (sort_by_score (fst st)).

End MultiSearch.

(** ** Setting up and resetting the assistant ([src/rag_assistant.py]) *)

Module Lifecycle.

Import Exn Collection Assistant.

(** What the methods read of a processed document. *)
Record ProcessedDocument := mkProcessedDocument {
  filepath : string;
  processed_content : string;
  tables : list string;
  images : list string
}.

(** The assistant with its vector store and the state it tracks. *)
Record System (W : Type) := mkSystem {
  assistant : FinancialRAGAssistant;
  vector_store : Store W;
  processed_documents : list ProcessedDocument;
  document_chunks : list DocumentChunker.DocumentChunk
}.

Arguments mkSystem {W}.
Arguments assistant {W}.
Arguments vector_store {W}.
Arguments processed_documents {W}.
Arguments document_chunks {W}.

(** [self.is_initialized = v]. *)
Definition set_initialized {W : Type} (self : System W) (v : bool)
  : System W :=
  mkSystem (mkAssistant (retriever (assistant self)) v) (vector_store self)
           (processed_documents self) (document_chunks self).

(** The result and the assistant after the call. *)
Definition setup_vector_database {W : Type} (self : System W)
  : Eff.M W (bool * System W) :=
  Eff.try_except
    (created ← create_collection (vector_store self);
     match document_chunks self with
     | _ :: _ =>
         success ← store_chunks (vector_store self) (document_chunks self);
         if success : bool then
           stats ← get_collection_stats (vector_store self);
           mret (true, set_initialized self true)
         else mret (false, self)
     | [] => mret (false, self)
     end)
    (fun _ => mret (false, self)).

Definition reset_system {W : Type} (self : System W)
  : Eff.M W (bool * System W) :=
  Eff.try_except
    (_ ← (if is_initialized (assistant self)
          then delete_collection (vector_store self)
          else mret true);
     mret (true,
           mkSystem (mkAssistant (retriever (assistant self)) false)
                    (vector_store self) [] []))
    (fun _ => mret (false, self)).

End Lifecycle.

(** ** The example queries ([src/query_decomposer.py]) *)

Module Examples.

(** The dictionary [get_query_examples] returns, in insertion order. *)
Definition get_query_examples : list (string * list string) :=
  [ ("Simple Direct",
     [ "What was Microsoft's total revenue in 2023?";
       "NVIDIA's data center revenue in 2024";
       "Google's operating margin 2022" ]);
    ("Comparative",
     [ "How did NVIDIA's data center revenue grow from 2022 to 2023?";
       "Microsoft's revenue change between 2022 and 2024";
       "Google's profit growth from 2023 to 2024" ]);
    ("Cross-Company",
     [ "Which company had the highest operating margin in 2023?";
       "Compare revenue across all three companies in 2024";
       "Who had the best profit margins in 2022?" ]) ].

End Examples.

(** ** Vocabulary of the specification *)

Module Spec.

Import QueryDecomposer.

(** *** Queries *)

(** [needle] occurs somewhere in [hay]. *)
Definition Substring (needle hay : string) : Prop :=
  exists pre post, hay = pre ++ needle ++ post.

(** The lower-cased query contains one of the keywords. *)
Definition has_keyword (keywords : list string) (query : string) : Prop :=
  exists k, In k keywords /\ Substring k (PyStr.lower query).

(** The query contains a growth, decline or comparison keyword. *)
Definition has_temporal_keyword (query : string) : Prop :=
  exists category keywords,
    In (category, keywords) temporal_keywords /\ has_keyword keywords query.

(** The query names the company [ticker] by one of its aliases. *)
Definition mentions_company (query ticker : string) : Prop :=
  exists name,
    In (name, ticker) company_mappings /\ Substring name (PyStr.lower query).

(** *** Sub-queries *)

(** The texts the specification gives for generated sub-queries. *)
Definition year_query_text (company metric : string) (year : Z) : string :=
  company ++ " " ++ metric ++ " " ++ PyStr.str_of_int year.

Definition company_query_text (company query : string) : string :=
  company ++ " " ++ query.

Definition growth_text (min_year max_year : Z) : string :=
  "Calculate growth from " ++ PyStr.str_of_int min_year ++ " to "
  ++ PyStr.str_of_int max_year.

Definition compare_text (metric : string) : string :=
  "Compare " ++ metric ++ " across companies".

(** The text of a per-company sub-query. *)
Definition roster_query_text (query company : string) : string :=
  match head (QueryDecomposer.extract_metrics query),
        head (QueryDecomposer.extract_years query) with
  | Some metric, Some year => year_query_text company metric year
  | _, _ => company_query_text company query
  end.

(** The kind, company and text of each sub-query. *)
Definition sub_query_outline (dq : QueryDecomposer.DecomposedQuery)
  : list (QueryDecomposer.QueryType * option string * string) :=
  map (fun sq => (QueryDecomposer.query_type sq, QueryDecomposer.company sq,
                  QueryDecomposer.text sq))
      (QueryDecomposer.sub_queries dq).

(** The reading of C4 as it is written: the two year sub-queries come in
    ascending order. *)
Definition ascending_growth_decomposition (query : string) : Prop :=
  forall (company metric : string) (y1 y2 : Z),
    QueryDecomposer.extract_companies query = [company] ->
    head (QueryDecomposer.extract_metrics query) = Some metric ->
    y1 < y2 ->
    (forall y, In y (QueryDecomposer.extract_years query) <-> y = y1 \/ y = y2) ->
    map (fun sq => (QueryDecomposer.query_type sq, QueryDecomposer.text sq))
        (QueryDecomposer.sub_queries (QueryDecomposer.decompose_query query))
    = [ (QueryDecomposer.SIMPLE_DIRECT,
         year_query_text company metric y1);
        (QueryDecomposer.SIMPLE_DIRECT,
         year_query_text company metric y2);
        (QueryDecomposer.CALCULATION, growth_text y1 y2) ].

(** The reading of C6 as it is written: the last sub-query always reads
    "Compare {metric} across companies". *)
Definition roster_decomposition_with_metric (query : string) : Prop :=
  QueryDecomposer.dq_query_type (QueryDecomposer.decompose_query query)
  = QueryDecomposer.CROSS_COMPANY ->
  QueryDecomposer.extract_companies query = [] ->
  exists metric,
    sub_query_outline (QueryDecomposer.decompose_query query)
    = (map (fun c => (QueryDecomposer.SIMPLE_DIRECT, Some c,
                      roster_query_text query c))
           ["GOOGL"; "MSFT"; "NVDA"]
       ++ [ (QueryDecomposer.CALCULATION, None, compare_text metric) ])%list
    /\ QueryDecomposer.requires_calculation
         (QueryDecomposer.decompose_query query) = true.

(** *** Retrieval *)

(** The search call made for [sq] raises (the embedding was produced). *)
Definition search_raises (b : VectorStore.Backend)
  (sq : QueryDecomposer.SubQuery) (top_k : Z) : Prop :=
  exists embedding rest e,
    VectorStore.encode b [QueryDecomposer.text sq] = Exn.Ok (embedding :: rest)
    /\ VectorStore.client_search b embedding top_k
         (VectorStore.build_filter (QueryDecomposer.company sq)
            (QueryDecomposer.year sq) (QueryDecomposer.section_hint sq))
       = Exn.Raise e.

(** The search call made for [sq] succeeds and finds nothing. *)
Definition search_finds_nothing (b : VectorStore.Backend)
  (sq : QueryDecomposer.SubQuery) (top_k : Z) : Prop :=
  exists embedding rest,
    VectorStore.encode b [QueryDecomposer.text sq] = Exn.Ok (embedding :: rest)
    /\ VectorStore.client_search b embedding top_k
         (VectorStore.build_filter (QueryDecomposer.company sq)
            (QueryDecomposer.year sq) (QueryDecomposer.section_hint sq))
       = Exn.Ok [].

(** The reading of C3 as it is written: a search that raises makes the
    retrieval of the sub-query fail. *)
Definition search_failure_propagates (b : VectorStore.Backend)
  (sq : QueryDecomposer.SubQuery) (top_k : Z) : Prop :=
  search_raises b sq top_k ->
  exists e, Retriever.retrieve_for_sub_query b sq top_k = Exn.Raise e.

(** *** Numbers *)

(** The factor the specification gives for the unit text of a match,
    read in lower case: 1 when there is no unit, and 1 as well for a
    unit text whose lower-case form is none of the six tokens. *)
Definition unit_factor (unit : option string) : float :=
  match unit with
  | None => PyFloat.float_of_int 1
  | Some u =>
      let u := PyStr.lower u in
      if PyStr.mem u ["billion"; "b"] then PyFloat.float_of_int 1000000000
      else if PyStr.mem u ["million"; "m"] then PyFloat.float_of_int 1000000
      else if PyStr.mem u ["thousand"; "k"] then PyFloat.float_of_int 1000
      else PyFloat.float_of_int 1
  end.

(** The number the specification expects for a match of the pattern:
    unit and text as matched, and the decimal of group 1 multiplied by
    the factor of the unit text. *)
Definition normalized (m : Retriever.Match) (n : Retriever.Number) : Prop :=
  Retriever.unit n = Retriever.group2 m
  /\ Retriever.original_text n = Retriever.group0 m
  /\ Retriever.value n
     = PrimFloat.mul
         (PyFloat.float_of_decimal
            (PyStr.remove_char "," (Retriever.group1 m)))
         (unit_factor (Retriever.group2 m)).

(** The value and unit of each extracted number. *)
Definition values_and_units (text : string) : list (float * option string) :=
  map (fun n => (Retriever.value n, Retriever.unit n))
      (Retriever._extract_numbers_from_text text None).

(** The reading of C2 as it is written, on its three inputs. *)
Definition extraction_examples_as_stated : Prop :=
  values_and_units "$198.3 billion" = [(198300000000%float, Some "billion")]
  /\ map fst (values_and_units "2,500 million") = [2500000000%float]
  /\ values_and_units "garbage123abc" = [].

(** *** Calculation data *)

(** The key under which a retrieval result is filed in the calculation
    data, when its sub-query has both a company and a year. *)
Definition contribution_key (r : Retriever.RetrievalResult) : option string :=
  match QueryDecomposer.company (Retriever.sub_query r),
        QueryDecomposer.year (Retriever.sub_query r) with
  | Some c, Some y =>
      if negb (String.eqb c EmptyString) && negb (y =? 0)
      then Some (c ++ "_" ++ PyStr.str_of_int y)
      else None
  | _, _ => None
  end.

(** *** Context synthesis *)

(** What context synthesis reads of a retrieval result. *)
Definition retrieval_input (r : Retriever.RetrievalResult)
  : string * list VectorStore.Chunk :=
  (QueryDecomposer.text (Retriever.sub_query r), Retriever.retrieved_chunks r).

(** Every retrieved chunk with the text of the sub-query that found it,
    in retrieval order. *)
Definition tagged_chunks (results : list Retriever.RetrievalResult)
  : list Retriever.TaggedChunk :=
  flat_map
    (fun r =>
       map (fun c =>
              Retriever.mkTaggedChunk c
                (QueryDecomposer.text (Retriever.sub_query r)))
           (Retriever.retrieved_chunks r))
    results.

Definition tc_id (c : Retriever.TaggedChunk) : string :=
  VectorStore.chunk_id (Retriever.tc_chunk c).

(** [kept] holds the first occurrence of every chunk id of [all], in the
    order of [all]. *)
Definition first_occurrences (all kept : list Retriever.TaggedChunk) : Prop :=
  NoDup (map tc_id kept)
  /\ sublist kept all
  /\ (forall x, In x all -> In (tc_id x) (map tc_id kept))
  /\ (forall x, In x kept ->
        exists pre post,
          all = (pre ++ x :: post)%list /\ ~ In (tc_id x) (map tc_id pre)).

(** Each score is below or equal to the one before it. *)
Definition descending (l : list Retriever.TaggedChunk) : Prop :=
  Sorted (fun a b =>
            PrimFloat.leb (Retriever.tc_score b) (Retriever.tc_score a) = true)
         l.


(** No element is below its successor. *)
Definition not_ascending (l : list Retriever.TaggedChunk) : Prop :=
  Sorted (fun a b =>
            PrimFloat.ltb (Retriever.tc_score a) (Retriever.tc_score b) = false)
         l.

Definition no_nan_scores (results : list Retriever.RetrievalResult) : Prop :=
  Forall (fun c => PrimFloat.is_nan (Retriever.tc_score c) = false)
         (tagged_chunks results).

(** The chunks of [order], in that order, as the chunks of one retrieval
    result for [sq]: what a second synthesis is given when the outcome of
    the first is fed back. *)
Definition fed_back (sq : QueryDecomposer.SubQuery)
  (order : list Retriever.TaggedChunk) : list Retriever.RetrievalResult :=
  [ Retriever.mkRetrievalResult sq (map Retriever.tc_chunk order)
      (map Retriever.tc_score order) ].


End Spec.

(** ** Sample data *)

Module Sample.

Import Exn QueryDecomposer VectorStore Retriever.

(** A backend whose search always raises. *)
Definition failing_backend : Backend :=
  mkBackend (fun texts => Ok (map (fun _ => []) texts))
            (fun _ _ _ => Raise "connection refused").

(** A backend whose search never finds anything. *)
Definition empty_backend : Backend :=
  mkBackend (fun texts => Ok (map (fun _ => []) texts))
            (fun _ _ _ => Ok []).

Definition msft_2023 : SubQuery :=
  mkSubQuery "What was Microsoft's total revenue in 2023?" SIMPLE_DIRECT
             (Some "MSFT") (Some 2023) (Some "revenue") None.

(** A chunk of the 2023 Microsoft filing with the given id and score. *)
Definition chunk (id : string) (score : string) : Chunk :=
  mkChunk (PyFloat.float_of_decimal score) id
          ("Content of chunk " ++ id) "MSFT" 2023 (Some "financial_data")
          "MSFT_10K_2023.html" [].

Definition result_of (sq : SubQuery) (chunks : list Chunk) : RetrievalResult :=
  mkRetrievalResult sq chunks (map chunk_score chunks).

(** Three chunks with scores 0.2, 0.9 and 0.5. *)
Definition three_scores : list RetrievalResult :=
  [ result_of msft_2023 [chunk "a" "0.2"; chunk "b" "0.9"; chunk "c" "0.5"] ].


(** The retrieval for the single sub-query of "Calculate the percentage",
    which names no company and no year. *)
Definition percentage_results : list RetrievalResult :=
  map (fun sq => result_of sq [chunk "a" "0.9"])
      (sub_queries (decompose_query "Calculate the percentage")).

(** A generator that answers every prompt with one fixed choice. *)
Definition fixed_generator (answer : string) : Generator :=
  fun _ _ => Ok [answer].

End Sample.

(** ** Auxiliary definitions for the proofs *)

Module Aux.

Import QueryDecomposer VectorStore Retriever.

(** Every character of [s] satisfies [p]. *)
Fixpoint string_forallb (p : ascii -> bool) (s : string) : bool :=
  match s with
  | EmptyString => true
  | String c s' => p c && string_forallb p s'
  end.

(** Membership in a list of years, as a test. *)
Definition member_of (l : list Z) (z : Z) : bool := existsb (Z.eqb z) l.

(** One step of the two loops, on a chunk that carries its tag. *)
Definition dedup_step (st : DedupState) (x : TaggedChunk) : DedupState :=
  dedup_chunk (tc_sub_query x) st (tc_chunk x).

(** The de-duplication of a tagged list: what the loops compute. *)
Definition dedup_tagged (l : list TaggedChunk) : DedupState :=
  fold_left dedup_step l ([], ∅).

End Aux.

(** ** Vocabulary of the further properties *)

Module Terms.

Import Exn QueryDecomposer VectorStore Retriever.

(** The kind and the entities of a sub-query, without its text. *)
Definition outline (sq : SubQuery)
  : QueryType * option string * option Z * option string :=
  (query_type sq, company sq, year sq, metric sq).

(** The sub-queries [retrieve_multi_step] searches for. *)
Definition retrievable (sq : SubQuery) : bool :=
  negb (QueryType_eqb (query_type sq) CALCULATION).

(** What a retrieval result holds is what the search for its sub-query
    returned. *)
Definition search_of (b : Backend) (r : RetrievalResult) : Prop :=
  similarity_search b (text (sub_query r)) default_top_k
    (company (sub_query r)) (year (sub_query r)) (section_hint (sub_query r))
  = Ok (retrieved_chunks r)
  /\ relevance_scores r = map chunk_score (retrieved_chunks r).

(** The text holds a decimal digit. *)
Fixpoint has_digit (s : string) : bool :=
  match s with
  | EmptyString => false
  | String c s' => PyStr.is_digit c || has_digit s'
  end.

(** The chunks of the results filed under [key], in retrieval order. *)
Definition chunks_filed (key : string) (results : list RetrievalResult)
  : list Chunk :=
  flat_map retrieved_chunks
    (List.filter (fun r => bool_decide (Spec.contribution_key r = Some key))
       results).

(** The numbers found in a list of chunks for one metric, in order. *)
Definition numbers_of_chunks (mt : option string) (chunks : list Chunk)
  : list Number :=
  flat_map (fun chunk => _extract_numbers_from_text (chunk_content chunk) mt)
           chunks.

(** The numbers found in the chunks of a result. *)
Definition numbers_of_result (r : RetrievalResult) : list Number :=
  numbers_of_chunks (metric (sub_query r)) (retrieved_chunks r).

(** The numbers of the results filed under [key] whose sub-query has the
    metric [mt], in retrieval order. *)
Definition numbers_filed (key : string) (mt : option string)
  (results : list RetrievalResult) : list Number :=
  flat_map numbers_of_result
    (List.filter
       (fun r => bool_decide (Spec.contribution_key r = Some key)
                 && bool_decide (metric (sub_query r) = mt))
       results).

(** A list as a dictionary holds it: no entry for the empty list. *)
Definition nonempty {A : Type} (l : list A) : option (list A) :=
  match l with
  | [] => None
  | _ => Some l
  end.

(** What the search for [query] returns. *)
Definition found (b : Backend) (top_k : Z) (company_filter : option string)
  (year_filter : option Z) (query : string) : list Chunk :=
  match similarity_search b query top_k company_filter year_filter None with
  | Ok chunks => chunks
  | Raise _ => []
  end.

(** Every chunk found for the queries with the query that found it, in
    search order. *)
Definition query_hits (b : Backend) (top_k : Z)
  (company_filter : option string) (year_filter : option Z)
  (queries : list string) : list TaggedChunk :=
  flat_map
    (fun query =>
       map (fun chunk => mkTaggedChunk chunk query)
           (found b top_k company_filter year_filter query))
    queries.

(** The sub-query that stands for one query of a multi-query search. *)
Definition query_sub_query (company_filter : option string)
  (year_filter : option Z) (query : string) : SubQuery :=
  mkSubQuery query SIMPLE_DIRECT company_filter year_filter None None.

(** [payload.get(key, dflt)] of a scrolled point that has a payload. *)
Definition field (key : string) (dflt : PyVal.Value)
  (point : Collection.ScrolledPoint) : PyVal.Value :=
  match Collection.scrolled_payload point with
  | Some p => default dflt (p !! key)
  | None => dflt
  end.

(** How often the scalar [k] occurs among the values. *)
Definition occurrences (k : PyVal.Scalar) (vs : list PyVal.Value) : Z :=
  Z.of_nat (length (List.filter (fun v => bool_decide (v = PyVal.Atom k)) vs)).

(** The count a tally holds for [k]: no entry for a scalar that does not
    occur. *)
Definition count_of (k : PyVal.Scalar) (vs : list PyVal.Value) : option Z :=
  if occurrences k vs =? 0 then None else Some (occurrences k vs).

(** The values the analysis loop tallies. *)
Definition company_values (points : list Collection.ScrolledPoint)
  : list PyVal.Value :=
  map (field "company" (PyVal.Atom (PyVal.SStr "Unknown"))) points.

Definition year_values (points : list Collection.ScrolledPoint)
  : list PyVal.Value :=
  map (field "year" (PyVal.Atom (PyVal.SInt 0))) points.

Definition section_values (points : list Collection.ScrolledPoint)
  : list PyVal.Value :=
  List.filter PyVal.truthy
    (map (field "section" (PyVal.Atom PyVal.SNone)) points).

(** A chunk as [scroll] returns it after [store_chunks] stored it. *)
Definition stored (chunk : DocumentChunker.DocumentChunk)
  : Collection.ScrolledPoint :=
  Collection.mkScrolledPoint (Some (Collection.payload_of_chunk chunk)).

(** The keys of a payload that [similarity_search] reads. *)
Definition keys_read : list string :=
  [ "chunk_id"; "content"; "company"; "year"; "section"; "source_file";
    "metadata" ].

(** No character of [s] is a slash. *)
Definition no_slash (s : string) : bool :=
  Aux.string_forallb (fun c => negb (Ascii.eqb c "/")) s.

(** [s] is made of the capital letters A to Z. *)
Definition capitals (s : string) : bool :=
  Aux.string_forallb PyStr.is_upper_ascii s.

(** The decimal text of [y] has four digits and reads back as [y]. *)
Definition four_digits (y : Z) : bool :=
  let s := PyStr.str_of_int y in
  (String.length s =? 4)%nat
  && Aux.string_forallb PyStr.is_digit s
  && (PyStr.int_of_digits 0 s =? y).

(** The query type that [decompose_query] gives each example, under the
    heading of the example. *)
Definition classified (examples : list (string * list string))
  : list (string * list QueryType) :=
  map (fun entry =>
         (fst entry,
          map (fun query => dq_query_type (decompose_query query))
              (snd entry)))
      examples.

(** The header lines of a synthesized context. *)
Definition context_header (dq : DecomposedQuery) : string :=
  "Query: " ++ original_query dq ++ NL
  ++ "Query Type: " ++ QueryType_value (dq_query_type dq) ++ NL.

End Terms.

(** ** Further sample data *)

Module Fixture.

Import Exn QueryDecomposer VectorStore Retriever PyVal Collection.

(** A backend whose embedding model cannot be used. *)
Definition broken_encoder : Backend :=
  mkBackend (fun _ => Raise "model not loaded") (fun _ _ _ => Ok []).

(** A chunk of the 2023 Microsoft filing that states a figure. *)
Definition revenue_chunk : Chunk :=
  mkChunk (PyFloat.float_of_decimal "0.9") "r1"
          "Microsoft revenue was $211.9 billion in 2023" "MSFT" 2023
          (Some "financial_data") "MSFT_10K_2023.html" [].

(** The retrieval for one sub-query that found that chunk. *)
Definition filed_results : list RetrievalResult :=
  [ Sample.result_of Sample.msft_2023 [revenue_chunk] ].

(** A decomposition that requires a calculation. *)
Definition growth_query : DecomposedQuery :=
  decompose_query "Microsoft revenue change from 2023 to 2024".

(** The world of a client that records what it is asked to upsert: the
    number of identifiers handed out and the upsert calls, in order. *)
Record Spy := mkSpy {
  next_id : nat;
  upserts : list (string * list PointStruct)
}.

(** The [n]-th identifier. *)
Definition fresh (n : nat) : string := "id-" ++ PyStr.str_of_int (Z.of_nat n).

(** A client that accepts every call and records the upserts. *)
Definition spy_client : Client Spy :=
  mkClient
    (fun w => (Ok [], w))
    (fun _ _ _ w => (Ok tt, w))
    (fun name points w =>
       (Ok tt, mkSpy (next_id w) (upserts w ++ [(name, points)])))
    (fun _ w => (Ok (mkCollectionInfo None 384 COSINE), w))
    (fun _ _ w => (Ok [], w))
    (fun _ w => (Ok tt, w))
    (fun w => (Ok (fresh (next_id w)), mkSpy (S (next_id w)) (upserts w))).

(** The points made of chunks and embeddings, with the identifiers from
    the [n]-th on. *)
Fixpoint spy_points (n : nat)
  (pairs : list (DocumentChunker.DocumentChunk * Embedding))
  : list PointStruct :=
  match pairs with
  | [] => []
  | (chunk, embedding) :: rest =>
      mkPointStruct (fresh n) embedding (payload_of_chunk chunk)
      :: spy_points (S n) rest
  end.

(** A chunk of the 2023 Microsoft filing as the chunker makes it. *)
Definition document_chunk : DocumentChunker.DocumentChunk :=
  DocumentChunker.mkDocumentChunk "a1b2c3d4_0000_e5f6a7b8"
    "Microsoft revenue was $211.9 billion in 2023"
    [("source_type", SStr "10-K")] "MSFT_10K_2023.html" 0 0 44 "MSFT" 2023
    (Some "financial_data").

End Fixture.

(** ** Invariants of the loops *)

Module Inv.

Import Exn QueryDecomposer VectorStore Retriever.

(** The calculation data [m] after the results [done]: every entry is
    filed under the key of its company and year and holds the chunks and
    numbers of the results with that key; a key without entry has no
    result. *)
Definition calculation_data (m : gmap string Entry)
  (done : list RetrievalResult) : Prop :=
  forall key,
    match m !! key with
    | Some e =>
        key = data_key (entry_company e) (entry_year e)
        /\ entry_company e <> EmptyString
        /\ entry_year e <> 0
        /\ entry_chunks e = Terms.chunks_filed key done
        /\ forall mt,
             entry_metrics e !! mt
             = Terms.nonempty (Terms.numbers_filed key mt done)
    | None => forall r, In r done -> Spec.contribution_key r <> Some key
    end.

(** A tally holds, for every scalar, the number of its occurrences among
    the values counted so far. *)
Definition counts_of (counts : gmap PyVal.Scalar Z) (vs : list PyVal.Value)
  : Prop :=
  forall k, counts !! k = Terms.count_of k vs.

End Inv.

(** * Properties *)

(** ** Strings *)

Section StringFacts.

Lemma prefix_iff (p s : string) :
  String.prefix p s = true <-> exists post, s = p ++ post.
Proof.
  revert s; induction p as [|c p IH]; intros s.
  - split; [intros _; exists s; reflexivity | intros _; now destruct s].
  - destruct s as [|d s]; simpl.
    + split; [discriminate | intros [post H]; discriminate].
    + destruct (ascii_dec c d) as [->|Hne].
      * rewrite IH. split; intros [post H]; exists post.
        -- now rewrite H.
        -- now inversion H.
      * split; [discriminate | intros [post H]; inversion H; congruence].
Qed.

Lemma contains_iff (needle hay : string) :
  PyStr.contains needle hay = true <-> Spec.Substring needle hay.
Proof.
  unfold Spec.Substring.
  induction hay as [|c hay IH].
  - cbn [PyStr.contains]. rewrite orb_false_r, prefix_iff. split.
    + intros [post H]. exists EmptyString, post. exact H.
    + intros [pre [post H]]. destruct pre; [exists post; exact H | discriminate].
  - cbn [PyStr.contains]. rewrite orb_true_iff, prefix_iff, IH. split.
    + intros [[post H] | [pre [post H]]].
      * exists EmptyString, post. exact H.
      * exists (String c pre), post. simpl. now rewrite H.
    + intros [pre [post H]]. destruct pre as [|d pre].
      * left. exists post. exact H.
      * right. exists pre, post. simpl in H. now inversion H.
Qed.

Lemma any_in_iff (keywords : list string) (s : string) :
  PyStr.any_in keywords s = true
  <-> exists k, In k keywords /\ Spec.Substring k s.
Proof.
  unfold PyStr.any_in. rewrite existsb_exists.
  split; intros [k [Hk H]]; exists k; split; auto; now apply contains_iff.
Qed.

Lemma mem_iff (x : string) (l : list string) :
  PyStr.mem x l = true <-> In x l.
Proof.
  unfold PyStr.mem. rewrite existsb_exists. split.
  - intros [y [Hy H]]. apply String.eqb_eq in H. now subst.
  - intros H. exists x. split; [exact H | apply String.eqb_refl].
Qed.

End StringFacts.

(** ** Entity extraction *)

Section ExtractionFacts.

Import QueryDecomposer.

Lemma add_company_fold_In (ql : string) (ms : list (string * string)) :
  forall acc t,
    In t (fold_left (add_company ql) ms acc)
    <-> In t acc
        \/ exists name, In (name, t) ms /\ PyStr.contains name ql = true.
Proof.
  induction ms as [|[name ticker] ms IH]; intros acc t; simpl.
  - split; [auto | intros [H | [n [[] _]]]; exact H].
  - rewrite IH. clear IH.
    destruct (PyStr.contains name ql) eqn:Hc; simpl.
    + destruct (PyStr.mem ticker acc) eqn:Hm; simpl.
      * apply mem_iff in Hm. split.
        -- intros [H | [n [Hn H]]]; [auto | right; exists n; auto].
        -- intros [H | [n [[Heq | Hn] H]]]; [auto | | right; exists n; auto].
           inversion Heq; subst. auto.
      * rewrite in_app_iff. simpl. split.
        -- intros [[H | [<- | []]] | [n [Hn H]]];
             [auto | right; exists name; auto | right; exists n; auto].
        -- intros [H | [n [[Heq | Hn] H]]]; [auto | | right; exists n; auto].
           inversion Heq; subst. auto.
    + split.
      * intros [H | [n [Hn H]]]; [auto | right; exists n; auto].
      * intros [H | [n [[Heq | Hn] H]]]; [auto | | right; exists n; auto].
        inversion Heq; subst. congruence.
Qed.

Lemma add_company_fold_NoDup (ql : string) (ms : list (string * string)) :
  forall acc, NoDup acc -> NoDup (fold_left (add_company ql) ms acc).
Proof.
  induction ms as [|[name ticker] ms IH]; intros acc Hnd; simpl; auto.
  apply IH.
  destruct (PyStr.contains name ql); auto.
  destruct (PyStr.mem ticker acc) eqn:Hm; simpl; auto.
  apply NoDup_app; repeat split; auto.
  - intros x Hx. rewrite list_elem_of_In in Hx.
    intros Hx'. apply list_elem_of_In in Hx'. destruct Hx' as [<- | []].
    apply mem_iff in Hx. congruence.
  - apply NoDup_singleton.
Qed.

Lemma extract_companies_In (query ticker : string) :
  In ticker (extract_companies query) <-> Spec.mentions_company query ticker.
Proof.
  unfold extract_companies, Spec.mentions_company.
  rewrite add_company_fold_In. split.
  - intros [[] | [n [Hn H]]]. exists n. split; auto. now apply contains_iff.
  - intros [n [Hn H]]. right. exists n. split; auto. now apply contains_iff.
Qed.

Lemma extract_companies_NoDup (query : string) :
  NoDup (extract_companies query).
Proof. apply add_company_fold_NoDup. constructor. Qed.

Lemma two_members_length {A : Type} (l : list A) (x y : A) :
  x <> y -> In x l -> In y l -> (1 < length l)%nat.
Proof.
  intros Hne Hx Hy.
  destruct l as [|a [|b l]]; simpl in *.
  - destruct Hx.
  - destruct Hx as [<- | []], Hy as [<- | []]. contradiction.
  - lia.
Qed.

End ExtractionFacts.

(** ** The iteration order of a set of years *)

Section YearSetFacts.

Import QueryDecomposer.

Lemma in_year_range_tracked (y : Z) :
  in_year_range y = true <-> In y tracked_years.
Proof.
  unfold in_year_range, tracked_years. rewrite andb_true_iff, !Z.leb_le.
  simpl. lia.
Qed.

(** Adding a tracked year to the set of a selection of tracked years gives
    the set of the larger selection: the table depends on the members
    only, not on the order they arrived in. *)
Lemma add_selected (f : Z -> bool) (y : Z) :
  In y tracked_years ->
  PySet.add (set_of (List.filter f tracked_years)) y
  = set_of (List.filter (fun z => f z || (z =? y)) tracked_years).
Proof.
  intros Hy. unfold tracked_years in *. cbn [List.filter].
  destruct (f 2020), (f 2021), (f 2022), (f 2023), (f 2024), (f 2025);
    simpl in Hy;
    repeat (destruct Hy as [<- | Hy]; [vm_compute; reflexivity |]);
    destruct Hy.
Qed.

Lemma selected_ext (f g : Z -> bool) :
  (forall z, In z tracked_years -> f z = g z) ->
  List.filter f tracked_years = List.filter g tracked_years.
Proof.
  intros H. apply filter_ext_in. exact H.
Qed.

Lemma member_of_iff (l : list Z) (z : Z) : Aux.member_of l z = true <-> In z l.
Proof.
  unfold Aux.member_of. rewrite existsb_exists. split.
  - intros [x [Hx H]]. apply Z.eqb_eq in H. now subst.
  - intros H. exists z. split; [exact H | apply Z.eqb_refl].
Qed.

(** The set built from a list of tracked years is the set of its members
    taken in increasing order. *)
Lemma set_of_members (l : list Z) :
  Forall (fun y => in_year_range y = true) l ->
  set_of l = set_of (List.filter (Aux.member_of l) tracked_years).
Proof.
  induction l as [|y l IH] using rev_ind; intros Hl.
  - reflexivity.
  - apply Forall_app in Hl. destruct Hl as [Hl Hy].
    apply Forall_inv in Hy. apply in_year_range_tracked in Hy.
    unfold set_of at 1. rewrite fold_left_app. cbn [fold_left].
    fold (set_of l). rewrite (IH Hl), (add_selected _ _ Hy).
    f_equal. apply selected_ext. intros z _.
    unfold Aux.member_of. rewrite existsb_app. simpl. now rewrite orb_false_r.
Qed.

Lemma selected_keys (f : Z -> bool) :
  let r := PySet.keys (PySet.table (set_of (List.filter f tracked_years))) in
  NoDup r
  /\ forallb (fun z => Aux.member_of r z) (List.filter f tracked_years) = true
  /\ forallb (fun z => Aux.member_of (List.filter f tracked_years) z) r = true.
Proof.
  unfold tracked_years. cbn [List.filter].
  destruct (f 2020), (f 2021), (f 2022), (f 2023), (f 2024), (f 2025);
    (split; [apply (bool_decide_unpack _); vm_compute; exact I
            | split; vm_compute; reflexivity]).
Qed.

Lemma list_of_set_years (l : list Z) :
  Forall (fun y => in_year_range y = true) l ->
  NoDup (PySet.list_of_set l)
  /\ forall y, In y (PySet.list_of_set l) <-> In y l.
Proof.
  intros Hl. unfold PySet.list_of_set. fold (set_of l).
  rewrite (set_of_members l Hl).
  destruct (selected_keys (Aux.member_of l)) as [Hnd [H1 H2]].
  split; [exact Hnd |]. intros y.
  rewrite forallb_forall in H1, H2. split.
  - intros Hy. apply H2 in Hy. apply member_of_iff in Hy.
    apply filter_In in Hy. now apply member_of_iff.
  - intros Hy. apply member_of_iff. apply H1. apply filter_In. split.
    + rewrite List.Forall_forall in Hl. now apply in_year_range_tracked, Hl.
    + now apply member_of_iff.
Qed.

Lemma extract_years_spec (query : string) :
  NoDup (extract_years query)
  /\ forall y, In y (extract_years query) -> 2020 <= y <= 2025.
Proof.
  unfold extract_years.
  set (l := filter _ _).
  assert (Hl : Forall (fun y => in_year_range y = true) l).
  { apply Forall_forall. intros y Hy.
    subst l. now apply list_elem_of_filter in Hy as [Hy _]. }
  destruct (list_of_set_years l Hl) as [Hnd Hin].
  split; [exact Hnd |]. intros y Hy. apply Hin in Hy.
  rewrite List.Forall_forall in Hl. apply Hl in Hy.
  unfold in_year_range in Hy. apply andb_true_iff in Hy. lia.
Qed.

End YearSetFacts.

(** ** Classification *)

Section ClassificationFacts.

Import QueryDecomposer.

Lemma has_keyword_iff (keywords : list string) (query : string) :
  PyStr.any_in keywords (PyStr.lower query) = true
  <-> Spec.has_keyword keywords query.
Proof. apply any_in_iff. Qed.

Lemma has_temporal_keyword_iff (query : string) :
  PyStr.any_in all_temporal_keywords (PyStr.lower query) = true
  <-> Spec.has_temporal_keyword query.
Proof.
  rewrite any_in_iff. unfold Spec.has_temporal_keyword, Spec.has_keyword.
  unfold all_temporal_keywords. split.
  - intros [k [Hk H]]. apply in_concat in Hk. destruct Hk as [kws [Hkws Hk]].
    apply in_map_iff in Hkws. destruct Hkws as [[cat kws'] [Heq Hin]].
    simpl in Heq. subst kws'. exists cat, kws. split; [exact Hin |].
    exists k. auto.
  - intros [cat [kws [Hin [k [Hk H]]]]]. exists k. split; [| exact H].
    apply in_concat. exists kws. split; [| exact Hk].
    apply in_map_iff. exists (cat, kws). auto.
Qed.

Lemma decompose_query_type (query : string) :
  dq_query_type (decompose_query query)
  = classify_query_type query (extract_companies query) (extract_years query).
Proof.
  unfold decompose_query.
  destruct (classify_query_type _ _ _); reflexivity.
Qed.

Lemma several_companies_cross (query : string) (companies : list string)
  (years : list Z) :
  (1 < length companies)%nat ->
  classify_query_type query companies years = CROSS_COMPANY.
Proof.
  intros H. unfold classify_query_type.
  assert (Hc : (1 <? Z.of_nat (length companies)) = true)
    by (apply Z.ltb_lt; lia).
  now rewrite Hc.
Qed.

End ClassificationFacts.

(** C5: classification takes the first branch that applies, in the order
    cross-company, comparative, calculation, simple; a query that names
    two different tracked companies is cross-company. *)
Theorem classify_query_type_precedence :
  forall (query : string) (companies : list string) (years : list Z),
    let cross :=
      (1 < length companies)%nat
      \/ Spec.has_keyword QueryDecomposer.comparison_keywords query in
    let comparative :=
      (1 < length years)%nat \/ Spec.has_temporal_keyword query in
    let calculation :=
      Spec.has_keyword QueryDecomposer.calculation_keywords query in
    let result :=
      QueryDecomposer.classify_query_type query companies years in
    (cross -> result = QueryDecomposer.CROSS_COMPANY)
    /\ (~ cross -> comparative -> result = QueryDecomposer.COMPARATIVE)
    /\ (~ cross -> ~ comparative -> calculation ->
        result = QueryDecomposer.CALCULATION)
    /\ (~ cross -> ~ comparative -> ~ calculation ->
        result = QueryDecomposer.SIMPLE_DIRECT)
    /\ (forall t1 t2,
          t1 <> t2 ->
          Spec.mentions_company query t1 ->
          Spec.mentions_company query t2 ->
          QueryDecomposer.dq_query_type (QueryDecomposer.decompose_query query)
          = QueryDecomposer.CROSS_COMPANY).
Proof.
  intros query companies years cross comparative calculation result.
  assert (Hcross :
    (1 <? Z.of_nat (length companies))
    || PyStr.any_in QueryDecomposer.comparison_keywords (PyStr.lower query)
    = true <-> cross).
  { unfold cross. rewrite orb_true_iff, Z.ltb_lt, has_keyword_iff.
    split; (intros [H | H]; [left; lia | right; exact H]). }
  assert (Hcomp :
    (1 <? Z.of_nat (length years))
    || PyStr.any_in QueryDecomposer.all_temporal_keywords (PyStr.lower query)
    = true <-> comparative).
  { unfold comparative.
    rewrite orb_true_iff, Z.ltb_lt, has_temporal_keyword_iff.
    split; (intros [H | H]; [left; lia | right; exact H]). }
  assert (Hcalc :
    PyStr.any_in QueryDecomposer.calculation_keywords (PyStr.lower query)
    = true <-> calculation) by apply has_keyword_iff.
  assert (Htwo : forall t1 t2,
    t1 <> t2 ->
    Spec.mentions_company query t1 ->
    Spec.mentions_company query t2 ->
    QueryDecomposer.dq_query_type (QueryDecomposer.decompose_query query)
    = QueryDecomposer.CROSS_COMPANY).
  { intros t1 t2 Hne H1 H2. rewrite decompose_query_type.
    apply several_companies_cross.
    apply (two_members_length _ t1 t2 Hne); now apply extract_companies_In. }
  subst result. unfold QueryDecomposer.classify_query_type.
  destruct (_ || PyStr.any_in QueryDecomposer.comparison_keywords _).
  - assert (Hc : cross) by now apply Hcross.
    repeat split; try reflexivity; try exact Htwo; intros Hn; contradiction.
  - assert (Hn : ~ cross) by (intros H; apply Hcross in H; discriminate).
    split; [intros H; contradiction |].
    destruct (_ || PyStr.any_in QueryDecomposer.all_temporal_keywords _).
    + assert (Hc : comparative) by now apply Hcomp.
      repeat split; try reflexivity; try exact Htwo; intros _ Hc';
        contradiction.
    + assert (Hn' : ~ comparative)
        by (intros H; apply Hcomp in H; discriminate).
      split; [intros _ H; contradiction |].
      destruct (PyStr.any_in QueryDecomposer.calculation_keywords _).
      * assert (Hc : calculation) by now apply Hcalc.
        repeat split; try reflexivity; try exact Htwo; intros _ _ Hc';
          contradiction.
      * assert (Hn'' : ~ calculation)
          by (intros H; apply Hcalc in H; discriminate).
        repeat split; try reflexivity; try exact Htwo.
        intros _ _ H; contradiction.
Qed.

(** ** Decomposition *)

Section DecompositionFacts.

Import QueryDecomposer.

Lemma add_metric_fold_In (ql : string) (ms : list (string * list string)) :
  forall acc m,
    In m (fold_left (add_metric ql) ms acc) -> In m acc \/ In m (map fst ms).
Proof.
  induction ms as [|[key variants] ms IH]; intros acc m; simpl; auto.
  intros H. apply IH in H. destruct H as [H | H]; [| auto].
  destruct (PyStr.any_in variants ql); auto.
  destruct (PyStr.mem key acc); simpl in H; auto.
  apply in_app_iff in H. destruct H as [H | [<- | []]]; auto.
Qed.

Lemma metric_keys_truthy :
  List.Forall (fun m => PyStr.truthy_str (Some m) = true)
              (map fst financial_metrics).
Proof. repeat constructor. Qed.

Lemma extract_metrics_keys (query m : string) :
  In m (extract_metrics query) -> In m (map fst financial_metrics).
Proof.
  unfold extract_metrics. intros H.
  destruct (add_metric_fold_In (PyStr.lower query) financial_metrics [] m H)
    as [[] | H']. exact H'.
Qed.

Lemma extract_metrics_truthy (query m : string) :
  head (extract_metrics query) = Some m -> PyStr.truthy_str (Some m) = true.
Proof.
  intros H. apply head_Some_elem_of, list_elem_of_In in H.
  apply extract_metrics_keys in H. revert m H.
  apply List.Forall_forall. exact metric_keys_truthy.
Qed.

Lemma extract_years_truthy (query : string) (y : Z) :
  head (extract_years query) = Some y -> PyStr.truthy_int (Some y) = true.
Proof.
  intros H. apply head_Some_elem_of, list_elem_of_In in H.
  apply extract_years_spec in H. simpl.
  apply negb_true_iff, Z.eqb_neq. lia.
Qed.

Lemma string_length_append (a b : string) :
  String.length (a ++ b) = (String.length a + String.length b)%nat.
Proof. induction a as [|c a IH]; simpl; [reflexivity | now rewrite IH]. Qed.

(** The sub-query list is empty exactly when the query is classified
    comparative and does not name one company, several years and a
    metric. *)
Lemma decompose_query_empty_iff (query : string) :
  sub_queries (decompose_query query) = []
  <-> dq_query_type (decompose_query query) = COMPARATIVE
      /\ ~ (length (extract_companies query) = 1%nat
            /\ (1 < length (extract_years query))%nat
            /\ extract_metrics query <> []).
Proof.
  rewrite decompose_query_type. unfold decompose_query.
  destruct (classify_query_type _ _ _) eqn:Hc; simpl.
  - split; [discriminate | intros [H _]; discriminate].
  - unfold decompose_comparative_query.
    destruct (extract_companies query) as [|c [|c' cs]]; simpl.
    + split; [intros _; split; [reflexivity | lia] | reflexivity].
    + destruct (extract_metrics query) as [|m ms].
      * split; [intros _; split; [reflexivity | intuition] | reflexivity].
      * destruct (1 <? Z.of_nat (length (extract_years query))) eqn:Hy.
        -- apply Z.ltb_lt in Hy.
           destruct (extract_years query) as [|y ys]; simpl in *; [lia |].
           split; [discriminate |].
           intros [_ H]. exfalso. apply H. repeat split; [lia | discriminate].
        -- apply Z.ltb_ge in Hy.
           split; [intros _; split; [reflexivity | lia] | reflexivity].
    + split; [intros _; split; [reflexivity | lia] | reflexivity].
  - unfold decompose_cross_company_query.
    split; [| intros [H _]; discriminate].
    intros H. apply app_eq_nil in H. destruct H; discriminate.
  - split; [discriminate | intros [H _]; discriminate].
  - split; [discriminate | intros [H _]; discriminate].
Qed.

End DecompositionFacts.

(** C1: on the query "Microsoft revenue growth" the decomposer classifies
    COMPARATIVE, finds one company and one metric but no year, and returns
    an empty sub-query list: the comparative strategy has no fallback to
    the single sub-query of the simple strategy. *)
Theorem comparative_without_years_is_empty :
  let dq := QueryDecomposer.decompose_query "Microsoft revenue growth" in
  QueryDecomposer.dq_query_type dq = QueryDecomposer.COMPARATIVE
  /\ QueryDecomposer.extract_companies "Microsoft revenue growth" = ["MSFT"]
  /\ QueryDecomposer.extract_years "Microsoft revenue growth" = []
  /\ QueryDecomposer.extract_metrics "Microsoft revenue growth" = ["revenue"]
  /\ QueryDecomposer.sub_queries dq = []
  /\ QueryDecomposer.sub_queries dq
     <> QueryDecomposer.decompose_simple_query "Microsoft revenue growth"
          ["MSFT"] [] ["revenue"].
Proof. vm_compute. repeat split; try reflexivity. discriminate. Qed.

(** *** Two years, one company *)

Section TwoYears.

Import QueryDecomposer.

Lemma py_min_pair (a b : Z) : py_min [a; b] = Z.min a b.
Proof. reflexivity. Qed.

Lemma py_max_pair (a b : Z) : py_max [a; b] = Z.max a b.
Proof. reflexivity. Qed.

Lemma comparative_dispatch (query : string) :
  classify_query_type query (extract_companies query) (extract_years query)
  = COMPARATIVE ->
  sub_queries (decompose_query query)
  = decompose_comparative_query query (extract_companies query)
      (extract_years query) (extract_metrics query)
  /\ requires_calculation (decompose_query query) = true.
Proof. intros H. unfold decompose_query. rewrite H. split; reflexivity. Qed.

Lemma cross_company_dispatch (query : string) :
  classify_query_type query (extract_companies query) (extract_years query)
  = CROSS_COMPANY ->
  sub_queries (decompose_query query)
  = decompose_cross_company_query query (extract_companies query)
      (extract_years query) (extract_metrics query)
  /\ requires_calculation (decompose_query query) = true.
Proof. intros H. unfold decompose_query. rewrite H. split; reflexivity. Qed.

Lemma list_of_set_pair (l : list Z) (y1 y2 : Z) :
  Forall (fun y => in_year_range y = true) l ->
  y1 < y2 ->
  (forall y, In y l <-> y = y1 \/ y = y2) ->
  PySet.list_of_set l
  = if (y2 <=? 2023) || (2024 <=? y1) then [y1; y2] else [y2; y1].
Proof.
  intros Hl Hlt Hin.
  unfold PySet.list_of_set. fold (set_of l). rewrite (set_of_members l Hl).
  rewrite (selected_ext (Aux.member_of l) (fun z => (z =? y1) || (z =? y2))).
  2:{ intros z _. apply eq_true_iff_eq.
      rewrite member_of_iff, Hin, orb_true_iff, !Z.eqb_eq. reflexivity. }
  rewrite List.Forall_forall in Hl.
  assert (H1 : In y1 tracked_years)
    by (apply in_year_range_tracked, Hl, Hin; now left).
  assert (H2 : In y2 tracked_years)
    by (apply in_year_range_tracked, Hl, Hin; now right).
  unfold tracked_years in H1, H2. simpl in H1, H2.
  repeat (destruct H1 as [<- | H1]);
    try (destruct H1);
    repeat (destruct H2 as [<- | H2]);
    try (destruct H2);
    try lia; vm_compute; reflexivity.
Qed.

Lemma extract_years_pair (query : string) (y1 y2 : Z) :
  y1 < y2 ->
  (forall y, In y (extract_years query) <-> y = y1 \/ y = y2) ->
  extract_years query
  = if (y2 <=? 2023) || (2024 <=? y1) then [y1; y2] else [y2; y1].
Proof.
  unfold extract_years. set (l := filter _ _). intros Hlt Hin.
  assert (Hl : Forall (fun y => in_year_range y = true) l).
  { apply Forall_forall. intros y Hy.
    subst l. now apply list_elem_of_filter in Hy as [Hy _]. }
  apply list_of_set_pair; auto.
  intros y. rewrite <- Hin. symmetry. now apply list_of_set_years.
Qed.

End TwoYears.

(** C4, counterexamples: "Microsoft revenue change from 2023 to 2024" is
    decomposed with the 2024 sub-query first, and "Was Microsoft revenue
    better in 2022 or 2023?" holds a comparison keyword, is classified
    CROSS_COMPANY and gets two sub-queries. *)
Lemma ascending_growth_decomposition_fails :
  ~ Spec.ascending_growth_decomposition
      "Microsoft revenue change from 2023 to 2024"
  /\ ~ Spec.ascending_growth_decomposition
        "Was Microsoft revenue better in 2022 or 2023?".
Proof.
  split; intros H.
  - specialize (H "MSFT" "revenue" 2023 2024).
    assert (Hy : QueryDecomposer.extract_years
                   "Microsoft revenue change from 2023 to 2024" = [2024; 2023])
      by (vm_compute; reflexivity).
    rewrite Hy in H.
    assert (Hc : map (fun sq => (QueryDecomposer.query_type sq,
                                 QueryDecomposer.text sq))
                   (QueryDecomposer.sub_queries
                      (QueryDecomposer.decompose_query
                         "Microsoft revenue change from 2023 to 2024"))
                 = [ (QueryDecomposer.SIMPLE_DIRECT, "MSFT revenue 2024");
                     (QueryDecomposer.SIMPLE_DIRECT, "MSFT revenue 2023");
                     (QueryDecomposer.CALCULATION,
                      "Calculate growth from 2023 to 2024") ])
      by (vm_compute; reflexivity).
    rewrite Hc in H.
    assert (Hf : [ (QueryDecomposer.SIMPLE_DIRECT, "MSFT revenue 2024");
                   (QueryDecomposer.SIMPLE_DIRECT, "MSFT revenue 2023");
                   (QueryDecomposer.CALCULATION,
                    "Calculate growth from 2023 to 2024") ]
                 = [ (QueryDecomposer.SIMPLE_DIRECT, "MSFT revenue 2023");
                     (QueryDecomposer.SIMPLE_DIRECT, "MSFT revenue 2024");
                     (QueryDecomposer.CALCULATION,
                      "Calculate growth from 2023 to 2024") ]).
    { apply H; [vm_compute; reflexivity | vm_compute; reflexivity | lia |].
      intros y. simpl. lia. }
    discriminate Hf.
  - specialize (H "MSFT" "revenue" 2022 2023).
    assert (Hy : QueryDecomposer.extract_years
                   "Was Microsoft revenue better in 2022 or 2023?" = [2022; 2023])
      by (vm_compute; reflexivity).
    rewrite Hy in H.
    assert (Hc : map (fun sq => (QueryDecomposer.query_type sq,
                                 QueryDecomposer.text sq))
                   (QueryDecomposer.sub_queries
                      (QueryDecomposer.decompose_query
                         "Was Microsoft revenue better in 2022 or 2023?"))
                 = [ (QueryDecomposer.SIMPLE_DIRECT, "MSFT revenue 2022");
                     (QueryDecomposer.CALCULATION,
                      "Compare revenue across companies") ])
      by (vm_compute; reflexivity).
    rewrite Hc in H.
    assert (Hf : [ (QueryDecomposer.SIMPLE_DIRECT, "MSFT revenue 2022");
                   (QueryDecomposer.CALCULATION,
                    "Compare revenue across companies") ]
                 = [ (QueryDecomposer.SIMPLE_DIRECT, "MSFT revenue 2022");
                     (QueryDecomposer.SIMPLE_DIRECT, "MSFT revenue 2023");
                     (QueryDecomposer.CALCULATION,
                      "Calculate growth from 2022 to 2023") ]).
    { apply H; [vm_compute; reflexivity | vm_compute; reflexivity | lia |].
      intros y. simpl. lia. }
    discriminate Hf.
Qed.

(** C4, amended: one company, two years, a metric and no comparison
    keyword give three sub-queries; the two year sub-queries follow the
    order in which [extract_years] lists the years, which is ascending
    unless the later year is 2024 or 2025 and the earlier one is not. *)
Theorem comparative_two_year_decomposition :
  forall (query company metric : string) (y1 y2 : Z),
    QueryDecomposer.extract_companies query = [company] ->
    head (QueryDecomposer.extract_metrics query) = Some metric ->
    y1 < y2 ->
    (forall y, In y (QueryDecomposer.extract_years query) <-> y = y1 \/ y = y2) ->
    ~ Spec.has_keyword QueryDecomposer.comparison_keywords query ->
    let years :=
      if (y2 <=? 2023) || (2024 <=? y1) then [y1; y2] else [y2; y1] in
    let dq := QueryDecomposer.decompose_query query in
    QueryDecomposer.extract_years query = years
    /\ QueryDecomposer.dq_query_type dq = QueryDecomposer.COMPARATIVE
    /\ QueryDecomposer.sub_queries dq
       = (map (QueryDecomposer.year_sub_query company metric) years
          ++ [QueryDecomposer.growth_sub_query company metric years])%list
    /\ map (fun sq => (QueryDecomposer.query_type sq, QueryDecomposer.text sq))
           (QueryDecomposer.sub_queries dq)
       = (map (fun y => (QueryDecomposer.SIMPLE_DIRECT,
                         Spec.year_query_text company metric y))
              years
          ++ [ (QueryDecomposer.CALCULATION, Spec.growth_text y1 y2) ])%list.
Proof.
  intros query company metric y1 y2 Hc Hm Hlt Hin Hkw years dq.
  assert (Hy : QueryDecomposer.extract_years query = years)
    by now apply extract_years_pair.
  assert (Hlen : length years = 2%nat)
    by (subst years; destruct (_ || _); reflexivity).
  assert (Hty :
    QueryDecomposer.classify_query_type query
      (QueryDecomposer.extract_companies query)
      (QueryDecomposer.extract_years query) = QueryDecomposer.COMPARATIVE).
  { unfold QueryDecomposer.classify_query_type.
    rewrite Hc, Hy, Hlen.
    change (1 <? Z.of_nat (length [company])) with false.
    change (1 <? Z.of_nat 2) with true.
    rewrite orb_false_l, orb_true_l.
    destruct (PyStr.any_in QueryDecomposer.comparison_keywords _) eqn:Hk.
    - exfalso. apply Hkw. now apply has_keyword_iff.
    - reflexivity. }
  destruct (comparative_dispatch query Hty) as [Hsq _].
  assert (Hsq' :
    QueryDecomposer.sub_queries dq
    = (map (QueryDecomposer.year_sub_query company metric) years
       ++ [QueryDecomposer.growth_sub_query company metric years])%list).
  { subst dq. rewrite Hsq, Hc, Hy.
    destruct (QueryDecomposer.extract_metrics query) as [|m ms];
      [discriminate |].
    simpl in Hm. injection Hm as ->.
    subst years. destruct (_ || _); reflexivity. }
  split; [exact Hy |].
  split; [subst dq; now rewrite decompose_query_type |].
  split; [exact Hsq' |].
  rewrite Hsq'. subst years.
  unfold Spec.year_query_text, Spec.growth_text.
  destruct (_ || _); cbn [map app QueryDecomposer.year_sub_query
    QueryDecomposer.growth_sub_query QueryDecomposer.query_type
    QueryDecomposer.text]; rewrite py_min_pair, py_max_pair;
    repeat f_equal; lia.
Qed.

(** C4 at "Microsoft revenue change from 2023 to 2024": the years are
    listed 2024, 2023, and the growth runs from 2023 to 2024. *)
Lemma comparative_two_year_decomposition_witness :
  let query := "Microsoft revenue change from 2023 to 2024" in
  let dq := QueryDecomposer.decompose_query query in
  QueryDecomposer.extract_years query = [2024; 2023]
  /\ QueryDecomposer.dq_query_type dq = QueryDecomposer.COMPARATIVE
  /\ QueryDecomposer.sub_queries dq
     = (map (QueryDecomposer.year_sub_query "MSFT" "revenue") [2024; 2023]
        ++ [QueryDecomposer.growth_sub_query "MSFT" "revenue" [2024; 2023]])%list
  /\ map (fun sq => (QueryDecomposer.query_type sq, QueryDecomposer.text sq))
         (QueryDecomposer.sub_queries dq)
     = (map (fun y => (QueryDecomposer.SIMPLE_DIRECT,
                       Spec.year_query_text "MSFT" "revenue" y))
            [2024; 2023]
        ++ [ (QueryDecomposer.CALCULATION, Spec.growth_text 2023 2024) ])%list.
Proof.
  apply (comparative_two_year_decomposition
           "Microsoft revenue change from 2023 to 2024" "MSFT" "revenue"
           2023 2024).
  - vm_compute; reflexivity.
  - vm_compute; reflexivity.
  - lia.
  - assert (Hy : QueryDecomposer.extract_years
                   "Microsoft revenue change from 2023 to 2024" = [2024; 2023])
      by (vm_compute; reflexivity).
    rewrite Hy. intros y. simpl. lia.
  - intros H. apply has_keyword_iff in H. vm_compute in H. discriminate.
Defined.

(** *** Cross-company queries without a named company *)

(** C6, counterexample: "Which company is best?" names no metric, and its
    last sub-query reads "Compare across companies". *)
Lemma roster_decomposition_with_metric_fails :
  ~ Spec.roster_decomposition_with_metric "Which company is best?".
Proof.
  intros H. destruct H as [metric [H _]]; [vm_compute; reflexivity .. |].
  assert (Hc : Spec.sub_query_outline
                 (QueryDecomposer.decompose_query "Which company is best?")
               = [ (QueryDecomposer.SIMPLE_DIRECT, Some "GOOGL",
                    "GOOGL Which company is best?");
                   (QueryDecomposer.SIMPLE_DIRECT, Some "MSFT",
                    "MSFT Which company is best?");
                   (QueryDecomposer.SIMPLE_DIRECT, Some "NVDA",
                    "NVDA Which company is best?");
                   (QueryDecomposer.CALCULATION, None,
                    "Compare across companies") ])
    by (vm_compute; reflexivity).
  rewrite Hc in H. cbn [map app] in H.
  assert (Ht : "Compare across companies" = Spec.compare_text metric)
    by congruence.
  apply (f_equal String.length) in Ht.
  unfold Spec.compare_text in Ht.
  rewrite !string_length_append in Ht. simpl in Ht. lia.
Qed.

(** C6, amended: a cross-company query that names no tracked company gets
    one SIMPLE_DIRECT sub-query per roster company, in roster order, then
    one CALCULATION sub-query that reads "Compare {metric} across
    companies" when a metric was recognised and "Compare across companies"
    otherwise; the query requires calculation. *)
Theorem roster_decomposition :
  forall query : string,
    QueryDecomposer.dq_query_type (QueryDecomposer.decompose_query query)
    = QueryDecomposer.CROSS_COMPANY ->
    QueryDecomposer.extract_companies query = [] ->
    Spec.sub_query_outline (QueryDecomposer.decompose_query query)
    = (map (fun c => (QueryDecomposer.SIMPLE_DIRECT, Some c,
                      Spec.roster_query_text query c))
           ["GOOGL"; "MSFT"; "NVDA"]
       ++ [ (QueryDecomposer.CALCULATION, None,
             match head (QueryDecomposer.extract_metrics query) with
             | Some metric => Spec.compare_text metric
             | None => "Compare across companies"
             end) ])%list
    /\ Forall (fun sq =>
                 QueryDecomposer.metric sq
                 = head (QueryDecomposer.extract_metrics query))
              (QueryDecomposer.sub_queries
                 (QueryDecomposer.decompose_query query))
    /\ QueryDecomposer.requires_calculation
         (QueryDecomposer.decompose_query query) = true.
Proof.
  intros query Hty Hc. rewrite decompose_query_type in Hty.
  destruct (cross_company_dispatch query Hty) as [Hsq Hrc].
  unfold Spec.sub_query_outline, Spec.roster_query_text. rewrite Hsq, Hrc.
  unfold QueryDecomposer.decompose_cross_company_query. rewrite Hc.
  unfold QueryDecomposer.roster, QueryDecomposer.company_sub_query,
    QueryDecomposer.comparison_sub_query.
  destruct (head (QueryDecomposer.extract_metrics query)) as [m|] eqn:Hm.
  - rewrite (extract_metrics_truthy _ _ Hm).
    destruct (head (QueryDecomposer.extract_years query)) as [y|] eqn:Hy.
    + rewrite (extract_years_truthy _ _ Hy).
      repeat split; try reflexivity. repeat constructor.
    + repeat split; try reflexivity. repeat constructor.
  - repeat split; try reflexivity. repeat constructor.
Qed.

(** C6 at "Which company had the highest operating margin in 2023?". *)
Lemma roster_decomposition_witness :
  let query := "Which company had the highest operating margin in 2023?" in
  Spec.sub_query_outline (QueryDecomposer.decompose_query query)
  = (map (fun c => (QueryDecomposer.SIMPLE_DIRECT, Some c,
                    Spec.roster_query_text query c))
         ["GOOGL"; "MSFT"; "NVDA"]
     ++ [ (QueryDecomposer.CALCULATION, None,
           match head (QueryDecomposer.extract_metrics query) with
           | Some metric => Spec.compare_text metric
           | None => "Compare across companies"
           end) ])%list
  /\ Forall (fun sq =>
               QueryDecomposer.metric sq
               = head (QueryDecomposer.extract_metrics query))
            (QueryDecomposer.sub_queries
               (QueryDecomposer.decompose_query query))
  /\ QueryDecomposer.requires_calculation
       (QueryDecomposer.decompose_query query) = true.
Proof.
  apply (roster_decomposition
           "Which company had the highest operating margin in 2023?");
    vm_compute; reflexivity.
Defined.

(** The end-to-end scenario of the specification for C6. *)
Example highest_operating_margin_2023 :
  let dq := QueryDecomposer.decompose_query
              "Which company had the highest operating margin in 2023?" in
  QueryDecomposer.dq_query_type dq = QueryDecomposer.CROSS_COMPANY
  /\ map (fun sq => (QueryDecomposer.text sq, QueryDecomposer.query_type sq,
                     QueryDecomposer.company sq, QueryDecomposer.metric sq,
                     QueryDecomposer.year sq))
         (QueryDecomposer.sub_queries dq)
     = [ ("GOOGL operating_margin 2023", QueryDecomposer.SIMPLE_DIRECT,
          Some "GOOGL", Some "operating_margin", Some 2023);
         ("MSFT operating_margin 2023", QueryDecomposer.SIMPLE_DIRECT,
          Some "MSFT", Some "operating_margin", Some 2023);
         ("NVDA operating_margin 2023", QueryDecomposer.SIMPLE_DIRECT,
          Some "NVDA", Some "operating_margin", Some 2023);
         ("Compare operating_margin across companies",
          QueryDecomposer.CALCULATION, None, Some "operating_margin", None) ]
  /\ QueryDecomposer.requires_calculation dq = true.
Proof. vm_compute. repeat split; reflexivity. Qed.

(** ** Failures of the external capabilities *)

Section FailureFacts.

Import Exn QueryDecomposer VectorStore Retriever Assistant.

(** Whatever the backend does, [similarity_search] returns a list. *)
Lemma similarity_search_total (b : Backend) (query : string) (top_k : Z)
  (company_filter : option string) (year_filter : option Z)
  (section_filter : option string) :
  exists chunks,
    similarity_search b query top_k company_filter year_filter section_filter
    = Ok chunks.
Proof.
  unfold similarity_search, try_except.
  destruct (search_body _ _ _ _ _ _) as [chunks | e]; eauto.
Qed.

Lemma retrieve_for_sub_query_total (b : Backend) (sq : SubQuery) (top_k : Z) :
  exists chunks,
    retrieve_for_sub_query b sq top_k
    = Ok (mkRetrievalResult sq chunks (map chunk_score chunks)).
Proof.
  unfold retrieve_for_sub_query.
  destruct (similarity_search_total b (text sq) top_k (company sq) (year sq)
              (section_hint sq)) as [chunks H].
  rewrite H. exists chunks. reflexivity.
Qed.

Lemma retrieve_sub_queries_total (b : Backend) (sqs : list SubQuery) :
  exists results, retrieve_sub_queries b sqs = Ok results.
Proof.
  induction sqs as [|sq sqs [results IH]]; simpl.
  - eexists. reflexivity.
  - destruct (QueryType_eqb (query_type sq) CALCULATION).
    + eauto.
    + destruct (retrieve_for_sub_query_total b sq default_top_k) as [cs H].
      rewrite H, IH. eexists. reflexivity.
Qed.

Lemma process_query_total (b : Backend) (query : string) :
  exists cs, process_query b query = Ok cs.
Proof.
  unfold process_query, retrieve_multi_step.
  destruct (retrieve_sub_queries_total b (sub_queries (decompose_query query)))
    as [results H].
  rewrite H. eexists. reflexivity.
Qed.

Lemma search_raises_empty (b : Backend) (sq : SubQuery) (top_k : Z) :
  Spec.search_raises b sq top_k ->
  retrieve_for_sub_query b sq top_k = Ok (mkRetrievalResult sq [] []).
Proof.
  intros [embedding [rest [e [He Hs]]]].
  unfold retrieve_for_sub_query, similarity_search, search_body,
    generate_embeddings.
  rewrite He. simpl. rewrite Hs. reflexivity.
Qed.

Lemma search_finds_nothing_empty (b : Backend) (sq : SubQuery) (top_k : Z) :
  Spec.search_finds_nothing b sq top_k ->
  retrieve_for_sub_query b sq top_k = Ok (mkRetrievalResult sq [] []).
Proof.
  intros [embedding [rest [He Hs]]].
  unfold retrieve_for_sub_query, similarity_search, search_body,
    generate_embeddings.
  rewrite He. simpl. rewrite Hs. reflexivity.
Qed.

Lemma generate_final_answer_cases (g : Generator) (cs : ContextSynthesis) :
  exists s,
    generate_final_answer g cs = Ok s
    /\ ((exists choices,
           g system_prompt (user_prompt cs) = Ok choices
           /\ head choices = Some s)
        \/ exists e, s = "Error generating answer: " ++ e).
Proof.
  unfold generate_final_answer.
  destruct (g system_prompt (user_prompt cs)) as [[|a choices] | e]; simpl.
  - eexists. split; [reflexivity | right; eauto].
  - exists a. split; [reflexivity | left; eauto].
  - eexists. split; [reflexivity | right; eauto].
Qed.

End FailureFacts.

(** C3, counterexample: with a backend whose search raises, the retrieval
    of a sub-query returns normally, with the result a search without
    hits gives, and [answer_query] goes on to return the generated
    answer. *)
Lemma search_failure_propagates_fails :
  ~ Spec.search_failure_propagates Sample.failing_backend Sample.msft_2023 5
  /\ Retriever.retrieve_for_sub_query Sample.failing_backend Sample.msft_2023 5
     = Retriever.retrieve_for_sub_query Sample.empty_backend Sample.msft_2023 5
  /\ Assistant.answer_query
       (Assistant.mkAssistant
          (Assistant.MultiStepRetriever Sample.failing_backend
             (Sample.fixed_generator "Revenue was $211.9 billion."))
          true)
       "What was Microsoft's total revenue in 2023?"
     = Exn.Ok "Revenue was $211.9 billion.".
Proof.
  split; [| split; vm_compute; reflexivity].
  intros H. destruct H as [e H].
  - exists [], [], "connection refused". split; reflexivity.
  - vm_compute in H. discriminate.
Qed.

(** C3, amended: a search that raises is caught inside
    [similarity_search]; the retrieval of the sub-query returns a result
    without chunks, equal to the result of a search without hits, and no
    retrieval ever raises. *)
Theorem search_failure_is_empty_result :
  forall (b : VectorStore.Backend) (sq : QueryDecomposer.SubQuery) (top_k : Z),
    Spec.search_raises b sq top_k ->
    Retriever.retrieve_for_sub_query b sq top_k
    = Exn.Ok (Retriever.mkRetrievalResult sq [] [])
    /\ (forall b0,
          Spec.search_finds_nothing b0 sq top_k ->
          Retriever.retrieve_for_sub_query b0 sq top_k
          = Retriever.retrieve_for_sub_query b sq top_k)
    /\ (forall query, exists cs, Retriever.process_query b query = Exn.Ok cs).
Proof.
  intros b sq top_k H.
  pose proof (search_raises_empty b sq top_k H) as E.
  split; [exact E |]. split.
  - intros b0 H0. rewrite E. now apply search_finds_nothing_empty.
  - intros query. apply process_query_total.
Qed.

(** C3 at a backend whose search raises "connection refused". *)
Lemma search_failure_is_empty_result_witness :
  Retriever.retrieve_for_sub_query Sample.failing_backend Sample.msft_2023 5
  = Exn.Ok (Retriever.mkRetrievalResult Sample.msft_2023 [] [])
  /\ (forall b0,
        Spec.search_finds_nothing b0 Sample.msft_2023 5 ->
        Retriever.retrieve_for_sub_query b0 Sample.msft_2023 5
        = Retriever.retrieve_for_sub_query Sample.failing_backend
            Sample.msft_2023 5)
  /\ (forall query,
        exists cs,
          Retriever.process_query Sample.failing_backend query = Exn.Ok cs).
Proof.
  apply (search_failure_is_empty_result Sample.failing_backend
           Sample.msft_2023 5).
  exists [], [], "connection refused". split; reflexivity.
Defined.

(** C9: [answer_query] always returns a string and never raises: the
    message for a system that is not initialized; "Error: " and the
    message of the exception when a stage of the retriever raises; else
    what the generation stage returns, which for the repository's
    retriever is the first choice of the generator or a string that
    starts with "Error generating answer: ". *)
Theorem answer_query_returns_string :
  forall (self : Assistant.FinancialRAGAssistant) (query : string),
    exists s,
      Assistant.answer_query self query = Exn.Ok s
      /\ (Assistant.is_initialized self = false ->
          s = Assistant.not_initialized_message)
      /\ (Assistant.is_initialized self = true ->
          match Assistant.process (Assistant.retriever self) query with
          | Exn.Raise e => s = "Error: " ++ e
          | Exn.Ok cs =>
              match Assistant.generate (Assistant.retriever self) cs with
              | Exn.Raise e => s = "Error: " ++ e
              | Exn.Ok answer => s = answer
              end
          end)
      /\ (forall b g,
            Assistant.retriever self = Assistant.MultiStepRetriever b g ->
            Assistant.is_initialized self = true ->
            exists cs,
              Retriever.process_query b query = Exn.Ok cs
              /\ ((exists choices,
                     g Retriever.system_prompt (Retriever.user_prompt cs)
                     = Exn.Ok choices
                     /\ head choices = Some s)
                  \/ exists e, s = "Error generating answer: " ++ e)).
Proof.
  intros self query.
  assert (Hmain : exists s,
    Assistant.answer_query self query = Exn.Ok s
    /\ (Assistant.is_initialized self = false ->
        s = Assistant.not_initialized_message)
    /\ (Assistant.is_initialized self = true ->
        match Assistant.process (Assistant.retriever self) query with
        | Exn.Raise e => s = "Error: " ++ e
        | Exn.Ok cs =>
            match Assistant.generate (Assistant.retriever self) cs with
            | Exn.Raise e => s = "Error: " ++ e
            | Exn.Ok answer => s = answer
            end
        end)).
  { unfold Assistant.answer_query.
    destruct (Assistant.is_initialized self); simpl.
    - destruct (Assistant.process (Assistant.retriever self) query)
        as [cs | e]; simpl.
      + destruct (Assistant.generate (Assistant.retriever self) cs)
          as [answer | e]; simpl; eexists; repeat split; discriminate.
      + eexists. repeat split; discriminate.
    - eexists. repeat split; discriminate. }
  destruct Hmain as [s [Hs [Hoff Hon]]]. exists s.
  split; [exact Hs |]. split; [exact Hoff |]. split; [exact Hon |].
  intros b g Hr Hi. specialize (Hon Hi). rewrite Hr in Hon.
  unfold Assistant.MultiStepRetriever in Hon.
  cbn [Assistant.process Assistant.generate] in Hon.
  destruct (process_query_total b query) as [cs Hcs]. rewrite Hcs in Hon.
  destruct (generate_final_answer_cases g cs) as [a [Ha Hcases]].
  rewrite Ha in Hon. subst s. exists cs. split; [exact Hcs | exact Hcases].
Qed.

(** ** Calculation data *)

Section CalculationDataFacts.

Import Exn QueryDecomposer VectorStore Retriever.

Lemma add_result_without_key (m : gmap string Entry) (r : RetrievalResult) :
  Spec.contribution_key r = None -> add_result m r = m.
Proof.
  unfold Spec.contribution_key, add_result.
  destruct (company (sub_query r)) as [c|]; [| reflexivity].
  destruct (year (sub_query r)) as [y|]; [| reflexivity].
  simpl. destruct (negb (c =? "")%string && negb (y =? 0)); [discriminate |].
  reflexivity.
Qed.

Lemma add_result_with_key (m : gmap string Entry) (r : RetrievalResult)
  (key : string) :
  Spec.contribution_key r = Some key ->
  dom (add_result m r) = {[key]} ∪ dom m.
Proof.
  unfold Spec.contribution_key, add_result.
  destruct (company (sub_query r)) as [c|]; [| discriminate].
  destruct (year (sub_query r)) as [y|]; [| discriminate].
  simpl. destruct (negb (c =? "")%string && negb (y =? 0)); [| discriminate].
  intros [= <-]. unfold data_key. apply dom_insert_L.
Qed.

Lemma fold_add_result_dom (rs : list RetrievalResult) :
  forall (m : gmap string Entry) (key : string),
    key ∈ dom (fold_left add_result rs m)
    <-> key ∈ dom m
        \/ exists r, In r rs /\ Spec.contribution_key r = Some key.
Proof.
  induction rs as [|r rs IH]; intros m key; simpl.
  - split; [auto | intros [H | [r [[] _]]]; exact H].
  - rewrite IH. destruct (Spec.contribution_key r) as [k|] eqn:Hk.
    + rewrite (add_result_with_key m r k Hk), elem_of_union, elem_of_singleton.
      split.
      * intros [[-> | H] | [r' [Hr' H]]]; eauto.
      * intros [H | [r' [[<- | Hr'] H]]]; eauto.
        rewrite Hk in H. injection H as ->. auto.
    + rewrite (add_result_without_key m r Hk). split.
      * intros [H | [r' [Hr' H]]]; eauto.
      * intros [H | [r' [[<- | Hr'] H]]]; eauto. congruence.
Qed.

Lemma fold_add_result_skip (rs1 rs2 : list RetrievalResult)
  (r : RetrievalResult) (m : gmap string Entry) :
  Spec.contribution_key r = None ->
  fold_left add_result (rs1 ++ r :: rs2) m
  = fold_left add_result (rs1 ++ rs2) m.
Proof.
  intros H. rewrite !fold_left_app. simpl.
  now rewrite (add_result_without_key _ r H).
Qed.

Lemma contribution_key_Some (r : RetrievalResult) (key : string) :
  Spec.contribution_key r = Some key
  <-> exists c y,
        company (sub_query r) = Some c /\ year (sub_query r) = Some y
        /\ c <> EmptyString /\ y <> 0
        /\ key = c ++ "_" ++ PyStr.str_of_int y.
Proof.
  unfold Spec.contribution_key. split.
  - destruct (company (sub_query r)) as [c|]; [| discriminate].
    destruct (year (sub_query r)) as [y|]; [| discriminate].
    destruct (String.eqb_spec c EmptyString) as [-> | Hc]; [discriminate |].
    destruct (Z.eqb_spec y 0) as [-> | Hy]; [discriminate |].
    simpl. intros [= <-]. exists c, y. auto.
  - intros [c [y [-> [-> [Hc [Hy ->]]]]]].
    destruct (String.eqb_spec c EmptyString); [contradiction |].
    destruct (Z.eqb_spec y 0); [contradiction |]. reflexivity.
Qed.

End CalculationDataFacts.

(** C10: without [requires_calculation] the calculation data is empty;
    with it, the keys are exactly the "{company}_{year}" of the retrieval
    results whose sub-query has a company and a year, and a result whose
    sub-query lacks one of them leaves the data as it would be without
    that result. *)
Theorem extract_financial_data_keys :
  forall (results : list Retriever.RetrievalResult)
         (dq : QueryDecomposer.DecomposedQuery),
    (QueryDecomposer.requires_calculation dq = false ->
     Retriever.extract_financial_data results dq = ∅)
    /\ (QueryDecomposer.requires_calculation dq = true ->
        forall key,
          key ∈ dom (Retriever.extract_financial_data results dq)
          <-> exists r c y,
                In r results
                /\ QueryDecomposer.company (Retriever.sub_query r) = Some c
                /\ QueryDecomposer.year (Retriever.sub_query r) = Some y
                /\ c <> EmptyString /\ y <> 0
                /\ key = c ++ "_" ++ PyStr.str_of_int y)
    /\ (forall before r after,
          results = (before ++ r :: after)%list ->
          QueryDecomposer.company (Retriever.sub_query r) = None
          \/ QueryDecomposer.year (Retriever.sub_query r) = None ->
          Retriever.extract_financial_data results dq
          = Retriever.extract_financial_data (before ++ after) dq).
Proof.
  intros results dq. unfold Retriever.extract_financial_data.
  split; [intros ->; reflexivity |]. split.
  - intros ->. simpl. intros key.
    rewrite fold_add_result_dom, dom_empty_L. split.
    + intros [H | [r [Hr H]]]; [now apply not_elem_of_empty in H |].
      apply contribution_key_Some in H.
      destruct H as [c [y H]]. exists r, c, y. tauto.
    + intros [r [c [y [Hr H]]]]. right. exists r. split; [exact Hr |].
      apply contribution_key_Some. exists c, y. exact H.
  - intros before r after -> H.
    destruct (negb (QueryDecomposer.requires_calculation dq));
      [reflexivity |].
    apply fold_add_result_skip. unfold Spec.contribution_key.
    destruct H as [-> | ->]; [reflexivity |].
    now destruct (QueryDecomposer.company (Retriever.sub_query r)).
Qed.

(** The explicit-calculation query "Calculate the percentage" requires
    calculation, its one sub-query has no company and no year, and its
    retrieval result adds nothing to the calculation data. *)
Example calculation_without_entities :
  let dq := QueryDecomposer.decompose_query "Calculate the percentage" in
  QueryDecomposer.dq_query_type dq = QueryDecomposer.CALCULATION
  /\ QueryDecomposer.requires_calculation dq = true
  /\ map (fun sq => (QueryDecomposer.query_type sq, QueryDecomposer.company sq,
                     QueryDecomposer.year sq))
         (QueryDecomposer.sub_queries dq)
     = [(QueryDecomposer.SIMPLE_DIRECT, None, None)]
  /\ length Sample.percentage_results = 1%nat
  /\ Retriever.extract_financial_data Sample.percentage_results dq = ∅.
Proof. vm_compute. repeat split; reflexivity. Qed.

(** ** The order of binary64 *)

Section FloatOrderFacts.

Lemma SFcompare_antisym (a b : spec_float) :
  SFcompare b a = option_map CompOpp (SFcompare a b).
Proof.
  destruct a as [sa | sa | | sa ma ea], b as [sb | sb | | sb mb eb];
    try reflexivity;
    try (destruct sa; reflexivity);
    try (destruct sb; reflexivity);
    try (destruct sa, sb; reflexivity).
  simpl. destruct sa, sb; try reflexivity;
    rewrite (Z.compare_antisym ea eb);
    destruct (ea ?= eb) eqn:He; simpl; try reflexivity;
    change (Pos.compare_cont Eq mb ma) with (Pos.compare mb ma);
    change (Pos.compare_cont Eq ma mb) with (Pos.compare ma mb);
    rewrite (Pos.compare_antisym ma mb);
    destruct (Pos.compare ma mb); reflexivity.
Qed.

Lemma ltb_asym (x y : float) :
  PrimFloat.ltb x y = true -> PrimFloat.ltb y x = false.
Proof.
  rewrite !FloatAxioms.ltb_spec. unfold SFltb.
  rewrite (SFcompare_antisym (Prim2SF x) (Prim2SF y)).
  destruct (SFcompare (Prim2SF x) (Prim2SF y)) as [[| |]|];
    simpl; congruence.
Qed.


Lemma ltb_leb (x y : float) :
  PrimFloat.ltb x y = true -> PrimFloat.leb x y = true.
Proof.
  rewrite FloatAxioms.ltb_spec, FloatAxioms.leb_spec. unfold SFltb, SFleb.
  destruct (SFcompare (Prim2SF x) (Prim2SF y)) as [[| |]|]; congruence.
Qed.

Lemma not_nan_spec (x : float) :
  PrimFloat.is_nan x = false -> Prim2SF x <> S754_nan.
Proof.
  unfold PrimFloat.is_nan. rewrite FloatAxioms.eqb_spec. intros H E.
  rewrite E in H. discriminate.
Qed.

(** Two numbers that are not NaN are comparable: if the first is not
    below the second, the second is below or equal to the first. *)
Lemma not_ltb_leb (x y : float) :
  PrimFloat.is_nan x = false -> PrimFloat.is_nan y = false ->
  PrimFloat.ltb x y = false -> PrimFloat.leb y x = true.
Proof.
  intros Hx Hy. apply not_nan_spec in Hx, Hy.
  rewrite FloatAxioms.ltb_spec, FloatAxioms.leb_spec. unfold SFltb, SFleb.
  rewrite (SFcompare_antisym (Prim2SF x) (Prim2SF y)).
  destruct (Prim2SF x) as [sa | sa | | sa ma ea];
    destruct (Prim2SF y) as [sb | sb | | sb mb eb];
    try contradiction;
    match goal with
    | |- context [SFcompare ?a ?b] =>
        destruct (SFcompare a b) as [[| |]|] eqn:E;
          simpl; try congruence; simpl in E; try discriminate
    end.
Qed.

End FloatOrderFacts.

(** ** De-duplication *)

Section DedupFacts.

Import QueryDecomposer VectorStore Retriever.

Lemma dedup_result_steps (r : RetrievalResult) (st : DedupState) :
  dedup_result st r
  = fold_left Aux.dedup_step
      (map (fun c => mkTaggedChunk c (text (sub_query r))) (retrieved_chunks r))
      st.
Proof.
  unfold dedup_result. generalize (text (sub_query r)) as t.
  intros t. revert st.
  induction (retrieved_chunks r) as [|c cs IH]; intros st; simpl; auto.
Qed.

Lemma dedup_results_steps (rs : list RetrievalResult) (st : DedupState) :
  fold_left dedup_result rs st
  = fold_left Aux.dedup_step (Spec.tagged_chunks rs) st.
Proof.
  revert st. induction rs as [|r rs IH]; intros st; simpl; auto.
  rewrite fold_left_app, IH, dedup_result_steps. reflexivity.
Qed.

Lemma dedup_step_cases (acc : list TaggedChunk) (seen : gset string)
  (x : TaggedChunk) :
  Aux.dedup_step (acc, seen) x
  = if decide (Spec.tc_id x ∈ seen) then (acc, seen)
    else ((acc ++ [x])%list, {[Spec.tc_id x]} ∪ seen).
Proof.
  unfold Aux.dedup_step, dedup_chunk, Spec.tc_id. destruct x as [c t]. simpl.
  destruct (decide (chunk_id c ∈ seen)); reflexivity.
Qed.

Lemma dedup_tagged_snoc (l : list TaggedChunk) (x : TaggedChunk) :
  Aux.dedup_tagged (l ++ [x]) = Aux.dedup_step (Aux.dedup_tagged l) x.
Proof. unfold Aux.dedup_tagged. now rewrite fold_left_app. Qed.

Lemma dedup_tagged_seen (l : list TaggedChunk) :
  forall id, id ∈ snd (Aux.dedup_tagged l)
             <-> In id (map Spec.tc_id (fst (Aux.dedup_tagged l))).
Proof.
  induction l as [|x l IH] using rev_ind; intros id.
  - simpl. split; [intros H; now apply not_elem_of_empty in H | intros []].
  - rewrite dedup_tagged_snoc.
    destruct (Aux.dedup_tagged l) as [acc seen] eqn:E. simpl in IH.
    rewrite dedup_step_cases.
    destruct (decide (Spec.tc_id x ∈ seen)) as [Hin | Hnin]; simpl.
    + apply IH.
    + rewrite elem_of_union, elem_of_singleton, map_app, in_app_iff, IH.
      simpl. intuition.
Qed.

Lemma dedup_tagged_first_occurrences (l : list TaggedChunk) :
  Spec.first_occurrences l (fst (Aux.dedup_tagged l)).
Proof.
  induction l as [|x l IH] using rev_ind.
  - repeat split.
    + constructor.
    + constructor.
    + intros x [].
    + intros x [].
  - pose proof (dedup_tagged_seen l) as Hseen.
    rewrite dedup_tagged_snoc.
    destruct (Aux.dedup_tagged l) as [acc seen] eqn:E. simpl in IH, Hseen.
    destruct IH as [Hnd [Hsub [Hall Hfirst]]].
    rewrite dedup_step_cases.
    destruct (decide (Spec.tc_id x ∈ seen)) as [Hin | Hnin]; simpl.
    + repeat split.
      * exact Hnd.
      * now apply sublist_inserts_r.
      * intros y Hy. apply in_app_iff in Hy.
        destruct Hy as [Hy | [<- | []]]; [now apply Hall | now apply Hseen].
      * intros y Hy. destruct (Hfirst y Hy) as [pre [post [-> Hpre]]].
        exists pre, (post ++ [x])%list. split; [| exact Hpre].
        now rewrite <- app_assoc.
    + repeat split.
      * rewrite map_app. simpl. apply NoDup_app. repeat split.
        -- exact Hnd.
        -- intros id Hid Hid'. apply list_elem_of_In in Hid.
           apply list_elem_of_In in Hid'. destruct Hid' as [<- | []].
           apply Hnin. now apply Hseen.
        -- apply NoDup_singleton.
      * now apply sublist_app.
      * intros y Hy. rewrite map_app, in_app_iff. apply in_app_iff in Hy.
        destruct Hy as [Hy | [<- | []]]; [left; now apply Hall |].
        right. now left.
      * intros y Hy. apply in_app_iff in Hy. destruct Hy as [Hy | [<- | []]].
        -- destruct (Hfirst y Hy) as [pre [post [-> Hpre]]].
           exists pre, (post ++ [x])%list. split; [| exact Hpre].
           now rewrite <- app_assoc.
        -- exists l, []. split; [reflexivity |].
           intros Hid. apply Hnin, Hseen.
           apply in_map_iff in Hid. destruct Hid as [z [Hz Hzl]].
           rewrite <- Hz. now apply Hall.
Qed.

Lemma dedup_chunks_tagged (rs : list RetrievalResult) :
  dedup_chunks rs = fst (Aux.dedup_tagged (Spec.tagged_chunks rs)).
Proof.
  unfold dedup_chunks, Aux.dedup_tagged. now rewrite dedup_results_steps.
Qed.

(** A list without repeated ids is its own de-duplication. *)
Lemma dedup_tagged_NoDup (l : list TaggedChunk) :
  NoDup (map Spec.tc_id l) -> fst (Aux.dedup_tagged l) = l.
Proof.
  induction l as [|x l IH] using rev_ind; intros Hnd; [reflexivity |].
  rewrite map_app in Hnd. apply NoDup_app in Hnd.
  destruct Hnd as [Hl [Hx _]].
  pose proof (dedup_tagged_seen l) as Hseen.
  rewrite dedup_tagged_snoc. specialize (IH Hl).
  destruct (Aux.dedup_tagged l) as [acc seen] eqn:E. simpl in IH, Hseen.
  subst acc.
  rewrite dedup_step_cases.
  destruct (decide (Spec.tc_id x ∈ seen)) as [Hin | Hnin]; [| reflexivity].
  exfalso. apply Hseen in Hin. apply list_elem_of_In in Hin.
  apply (Hx _ Hin). simpl. left.
Qed.

End DedupFacts.

(** ** Ranking *)

Section RankingFacts.

Import QueryDecomposer VectorStore Retriever.

Lemma insert_by_score_perm (x : TaggedChunk) (l : list TaggedChunk) :
  Permutation (insert_by_score x l) (x :: l).
Proof.
  induction l as [|y l IH]; simpl; [reflexivity |].
  destruct (PrimFloat.ltb (tc_score x) (tc_score y)); [| reflexivity].
  rewrite IH. apply perm_swap.
Qed.

Lemma sort_by_score_perm (l : list TaggedChunk) :
  Permutation (sort_by_score l) l.
Proof.
  induction l as [|x l IH]; simpl; [reflexivity |].
  rewrite insert_by_score_perm. now constructor.
Qed.

Lemma insert_by_score_head (R : TaggedChunk -> TaggedChunk -> Prop)
  (y x : TaggedChunk) (l : list TaggedChunk) :
  R y x -> HdRel R y l -> HdRel R y (insert_by_score x l).
Proof.
  intros Hyx Hl. destruct l as [|z l]; simpl.
  - now constructor.
  - destruct (PrimFloat.ltb (tc_score x) (tc_score z)); constructor; auto.
    now inversion Hl.
Qed.

Lemma insert_by_score_not_ascending (x : TaggedChunk) (l : list TaggedChunk) :
  Spec.not_ascending l -> Spec.not_ascending (insert_by_score x l).
Proof.
  unfold Spec.not_ascending.
  induction l as [|y l IH]; intros Hl; simpl.
  - repeat constructor.
  - apply Sorted_inv in Hl. destruct Hl as [Hl Hy].
    destruct (PrimFloat.ltb (tc_score x) (tc_score y)) eqn:Hxy.
    + constructor; [now apply IH |].
      apply insert_by_score_head; [now apply ltb_asym | exact Hy].
    + constructor; [now constructor | now constructor].
Qed.

Lemma sort_by_score_not_ascending (l : list TaggedChunk) :
  Spec.not_ascending (sort_by_score l).
Proof.
  induction l as [|x l IH]; simpl; [constructor |].
  now apply insert_by_score_not_ascending.
Qed.

Lemma insert_by_score_descending (x : TaggedChunk) (l : list TaggedChunk) :
  PrimFloat.is_nan (tc_score x) = false ->
  Forall (fun c => PrimFloat.is_nan (tc_score c) = false) l ->
  Spec.descending l -> Spec.descending (insert_by_score x l).
Proof.
  unfold Spec.descending.
  induction l as [|y l IH]; intros Hx Hnan Hl; simpl.
  - repeat constructor.
  - apply Sorted_inv in Hl. destruct Hl as [Hl Hy].
    apply Forall_cons in Hnan. destruct Hnan as [Hny Hnan].
    destruct (PrimFloat.ltb (tc_score x) (tc_score y)) eqn:Hxy.
    + constructor; [now apply IH |].
      apply insert_by_score_head; [now apply ltb_leb | exact Hy].
    + constructor; [now constructor |]. constructor.
      now apply not_ltb_leb.
Qed.

Lemma sort_by_score_descending (l : list TaggedChunk) :
  Forall (fun c => PrimFloat.is_nan (tc_score c) = false) l ->
  Spec.descending (sort_by_score l).
Proof.
  induction l as [|x l IH]; intros Hnan; simpl; [constructor |].
  apply Forall_cons in Hnan. destruct Hnan as [Hx Hnan].
  apply insert_by_score_descending; auto.
  eapply Permutation_Forall; [| exact Hnan].
  symmetry. apply sort_by_score_perm.
Qed.

(** A list that is already in order is left as it is. *)
Lemma sort_by_score_fixed (l : list TaggedChunk) :
  Spec.not_ascending l -> sort_by_score l = l.
Proof.
  unfold Spec.not_ascending.
  induction l as [|x l IH]; intros Hl; simpl; [reflexivity |].
  apply Sorted_inv in Hl. destruct Hl as [Hl Hx].
  rewrite (IH Hl). destruct Hx as [|y l' Hxy]; simpl; [reflexivity |].
  now rewrite Hxy.
Qed.




(** Sorting looks at the scores only. *)
Lemma sort_by_score_map (f : TaggedChunk -> TaggedChunk)
  (l : list TaggedChunk) :
  (forall c, tc_score (f c) = tc_score c) ->
  sort_by_score (map f l) = map f (sort_by_score l).
Proof.
  intros Hf. induction l as [|x l IH]; [reflexivity |].
  simpl. rewrite IH. generalize (sort_by_score l) as s.
  induction s as [|y s IHs]; simpl; [reflexivity |].
  rewrite !Hf. destruct (PrimFloat.ltb (tc_score x) (tc_score y)); simpl;
    [now rewrite IHs | reflexivity].
Qed.

End RankingFacts.

(** ** Rendering *)

Section RenderingFacts.

Import QueryDecomposer VectorStore Retriever.


Lemma imap_same_chunks (f : nat -> TaggedChunk -> list string)
  (l1 l2 : list TaggedChunk) :
  (forall i a b, tc_chunk a = tc_chunk b -> f i a = f i b) ->
  map tc_chunk l1 = map tc_chunk l2 ->
  imap f l1 = imap f l2.
Proof.
  revert f l2. induction l1 as [|a l1 IH]; intros f [|b l2] Hf H;
    try discriminate; [reflexivity |].
  simpl in H. injection H as Hab Hl. simpl. f_equal.
  - now apply Hf.
  - apply IH; [| exact Hl]. intros i x y. apply Hf.
Qed.

Lemma take_map {A B : Type} (g : A -> B) (n : nat) (l : list A) :
  take n (map g l) = map g (take n l).
Proof.
  revert l. induction n as [|n IH]; intros [|x l]; simpl; auto.
  now rewrite IH.
Qed.



(** The rendered text is a function of the ranked chunks alone. *)
Lemma synthesize_context_same_chunks (rs1 rs2 : list RetrievalResult)
  (dq : DecomposedQuery) :
  map tc_chunk (ranked_chunks rs1) = map tc_chunk (ranked_chunks rs2) ->
  synthesize_context rs1 dq = synthesize_context rs2 dq.
Proof.
  intros H. unfold synthesize_context, context_parts, rendered_chunks.
  do 3 f_equal. apply imap_same_chunks.
  - intros i a b Hab. unfold render_entry. now rewrite Hab.
  - rewrite <- !take_map. now rewrite H.
Qed.

Lemma ranked_chunks_ids_NoDup (rs : list RetrievalResult) :
  NoDup (map Spec.tc_id (ranked_chunks rs)).
Proof.
  unfold ranked_chunks.
  assert (H : Permutation (map Spec.tc_id (sort_by_score (dedup_chunks rs)))
                          (map Spec.tc_id (dedup_chunks rs)))
    by apply Permutation_map, sort_by_score_perm.
  rewrite H, dedup_chunks_tagged. apply dedup_tagged_first_occurrences.
Qed.

Lemma tagged_chunks_inputs (rs1 rs2 : list RetrievalResult) :
  map Spec.retrieval_input rs1 = map Spec.retrieval_input rs2 ->
  Spec.tagged_chunks rs1 = Spec.tagged_chunks rs2.
Proof.
  revert rs2. induction rs1 as [|r1 rs1 IH]; intros [|r2 rs2] H;
    try discriminate; [reflexivity |].
  simpl in H. injection H as Ht Hc Hrest.
  unfold Spec.tagged_chunks. simpl. rewrite Ht, Hc. f_equal.
  now apply IH.
Qed.

End RenderingFacts.




(** C8: the ranked list and the rendered text are a function of the
    sub-query texts and chunks of the retrieval results, so two runs on
    the same results agree; de-duplication is idempotent: the chunks
    kept, fed back in any order as the chunks of one retrieval result,
    are all kept again in that order; and when no score is a NaN, ranking
    the ranked list changes nothing, so feeding the ranked chunks back
    gives the same chunks in the same order and the same rendered text. *)
Theorem synthesize_context_idempotent :
  forall (results : list Retriever.RetrievalResult)
         (dq : QueryDecomposer.DecomposedQuery)
         (sq : QueryDecomposer.SubQuery),
    let kept := Retriever.dedup_chunks results in
    let ranked := Retriever.ranked_chunks results in
    (forall results',
       map Spec.retrieval_input results' = map Spec.retrieval_input results ->
       Retriever.ranked_chunks results' = ranked
       /\ Retriever.synthesize_context results' dq
          = Retriever.synthesize_context results dq)
    /\ (forall order,
          Permutation order kept ->
          map Retriever.tc_chunk
              (Retriever.dedup_chunks (Spec.fed_back sq order))
          = map Retriever.tc_chunk order)
    /\ (Spec.no_nan_scores results ->
        Retriever.sort_by_score ranked = ranked
        /\ map Retriever.tc_chunk
               (Retriever.ranked_chunks (Spec.fed_back sq ranked))
           = map Retriever.tc_chunk ranked
        /\ Retriever.synthesize_context (Spec.fed_back sq ranked) dq
           = Retriever.synthesize_context results dq).
Proof.
  intros results dq sq kept ranked.
  set (retag := fun c : Retriever.TaggedChunk =>
                  Retriever.mkTaggedChunk (Retriever.tc_chunk c)
                    (QueryDecomposer.text sq)).
  assert (Hchunks : forall order,
             map Retriever.tc_chunk (map retag order)
             = map Retriever.tc_chunk order)
    by (intros order; rewrite map_map; reflexivity).
  assert (Hdedup : forall order,
             Permutation order kept ->
             Retriever.dedup_chunks (Spec.fed_back sq order)
             = map retag order).
  { intros order Hperm.
    assert (Htag : Spec.tagged_chunks (Spec.fed_back sq order)
                   = map retag order).
    { unfold Spec.fed_back, Spec.tagged_chunks. simpl.
      rewrite app_nil_r, map_map. reflexivity. }
    rewrite dedup_chunks_tagged, Htag. apply dedup_tagged_NoDup.
    rewrite map_map.
    change (NoDup (map Spec.tc_id order)).
    rewrite Hperm. subst kept. rewrite dedup_chunks_tagged.
    apply dedup_tagged_first_occurrences. }
  split.
  { intros results' Hin.
    assert (Hsame : Retriever.ranked_chunks results' = ranked).
    { subst ranked. unfold Retriever.ranked_chunks.
      rewrite !dedup_chunks_tagged.
      now rewrite (tagged_chunks_inputs results' results Hin). }
    split; [exact Hsame |].
    apply synthesize_context_same_chunks. now rewrite Hsame. }
  split.
  { intros order Hperm. now rewrite (Hdedup order Hperm). }
  intros _.
  assert (Hfix : Retriever.sort_by_score ranked = ranked)
    by apply sort_by_score_fixed, sort_by_score_not_ascending.
  assert (Hranked : Retriever.ranked_chunks (Spec.fed_back sq ranked)
                    = map retag ranked).
  { unfold Retriever.ranked_chunks at 1.
    rewrite (Hdedup ranked) by apply sort_by_score_perm.
    rewrite sort_by_score_map by reflexivity. now rewrite Hfix. }
  split; [exact Hfix |].
  split; [now rewrite Hranked |].
  apply synthesize_context_same_chunks. now rewrite Hranked.
Qed.

(** C8 at three chunks with scores 0.2, 0.9 and 0.5: none is NaN, the
    ranked list is left as it is by the sort, and the ranked chunks fed
    back render the same text. *)
Lemma synthesize_context_idempotent_witness :
  Spec.no_nan_scores Sample.three_scores
  /\ Retriever.sort_by_score (Retriever.ranked_chunks Sample.three_scores)
     = Retriever.ranked_chunks Sample.three_scores
  /\ Retriever.synthesize_context
       (Spec.fed_back Sample.msft_2023
          (Retriever.ranked_chunks Sample.three_scores))
       (QueryDecomposer.decompose_query
          "What was Microsoft's total revenue in 2023?")
     = Retriever.synthesize_context Sample.three_scores
         (QueryDecomposer.decompose_query
            "What was Microsoft's total revenue in 2023?").
Proof.
  destruct (synthesize_context_idempotent Sample.three_scores
              (QueryDecomposer.decompose_query
                 "What was Microsoft's total revenue in 2023?")
              Sample.msft_2023)
    as [_ [_ Hagain]].
  assert (Hnan : Spec.no_nan_scores Sample.three_scores)
    by (repeat constructor).
  destruct (Hagain Hnan) as [Hfix [_ Htext]].
  exact (conj Hnan (conj Hfix Htext)).
Defined.

(** ** Multiplication by one *)

Section MulOneFacts.

Lemma shift_out_zeros (m : positive) :
  SpecFloat.iter_pos shr_1 52
    (Build_shr_record
       (Zpos (Pos.mul 4503599627370496 m)) false false)
  = Build_shr_record (Zpos m) false false.
Proof. vm_compute. reflexivity. Qed.

Lemma digits_shifted (n m : positive) :
  Zpos (digits2_pos (Pos.iter xO m n)) = Zpos (digits2_pos m) + Zpos n.
Proof.
  induction n as [|n IH] using Pos.peano_ind.
  - simpl. change (PosDef.Pos.succ (digits2_pos m))
      with (Pos.succ (digits2_pos m)). lia.
  - rewrite Pos.iter_succ. cbn [digits2_pos].
    change (PosDef.Pos.succ (digits2_pos (Pos.iter xO m n)))
      with (Pos.succ (digits2_pos (Pos.iter xO m n))). lia.
Qed.

Lemma digits_with_zeros (m : positive) :
  Zdigits2 (Zpos (Pos.mul 4503599627370496 m))
  = Zpos (digits2_pos m) + 52.
Proof.
  change (Pos.mul 4503599627370496 m) with (Pos.iter xO m 52).
  apply digits_shifted.
Qed.

Lemma SFmul_one (x : spec_float) :
  SpecFloat.valid_binary prec emax x = true ->
  SFmul prec emax x (S754_finite false 4503599627370496 (-52)) = x.
Proof.
  destruct x as [s | s | | s m e]; intros Hv; simpl.
  - now rewrite xorb_false_r.
  - now rewrite xorb_false_r.
  - reflexivity.
  - rewrite xorb_false_r, Pos.mul_comm.
    simpl in Hv. unfold bounded, canonical_mantissa in Hv.
    apply andb_true_iff in Hv. destruct Hv as [Hc He].
    apply Z.eqb_eq in Hc.
    unfold binary_round_aux, shr_fexp.
    rewrite digits_with_zeros.
    replace (Zpos (digits2_pos m) + 52 + (e + -52))
      with (Zpos (digits2_pos m) + e) by lia.
    rewrite Hc.
    replace (e - (e + -52)) with 52 by lia.
    unfold shr_record_of_loc, shr at 1.
    rewrite shift_out_zeros.
    cbn [shr_m loc_of_shr_record round_nearest_even Zdigits2].
    replace (e + -52 + 52) with e by lia.
    unfold Z.sub at 1. rewrite Hc, Z.add_opp_diag_r.
    cbn [shr shr_m]. now rewrite He.
Qed.

Lemma mul_one_r (x : float) :
  PrimFloat.mul x (PyFloat.float_of_int 1) = x.
Proof.
  apply Prim2SF_inj. rewrite mul_spec.
  change (Prim2SF (PyFloat.float_of_int 1))
    with (S754_finite false 4503599627370496 (-52)).
  apply SFmul_one, Prim2SF_valid.
Qed.

End MulOneFacts.

(** ** The number pattern *)

Section PatternFacts.

Import Exn Retriever.

Abbreviation all_digits := (Aux.string_forallb PyStr.is_digit).

Lemma string_app_cons (c : ascii) (a b : string) :
  String c a ++ b = String c (a ++ b).
Proof. reflexivity. Qed.

Lemma string_append_assoc (a b c : string) : (a ++ b) ++ c = a ++ b ++ c.
Proof.
  induction a as [|x a IH]; [reflexivity |].
  rewrite !string_app_cons. f_equal. exact IH.
Qed.

Lemma string_append_nil_r (a : string) : a ++ EmptyString = a.
Proof.
  induction a as [|x a IH]; [reflexivity |].
  rewrite string_app_cons. f_equal. exact IH.
Qed.

Lemma string_forallb_app (p : ascii -> bool) (a b : string) :
  Aux.string_forallb p (a ++ b)
  = Aux.string_forallb p a && Aux.string_forallb p b.
Proof.
  induction a as [|c a IH]; [reflexivity |].
  rewrite string_app_cons. cbn [Aux.string_forallb].
  now rewrite IH, andb_assoc.
Qed.

Lemma remove_char_app (x : ascii) (a b : string) :
  PyStr.remove_char x (a ++ b)
  = PyStr.remove_char x a ++ PyStr.remove_char x b.
Proof.
  induction a as [|c a IH]; [reflexivity |].
  rewrite string_app_cons. cbn [PyStr.remove_char].
  destruct (Ascii.eqb c x); [exact IH |].
  rewrite string_app_cons. f_equal. exact IH.
Qed.

Lemma digit_not_comma (c : ascii) :
  PyStr.is_digit c = true -> Ascii.eqb c "," = false.
Proof.
  intros H. destruct (Ascii.eqb_spec c ","); [subst; discriminate | reflexivity].
Qed.

Lemma remove_char_digits (a : string) :
  all_digits a = true -> PyStr.remove_char "," a = a.
Proof.
  induction a as [|c a IH]; simpl; [reflexivity |].
  intros H. apply andb_true_iff in H. destruct H as [Hc Ha].
  now rewrite (digit_not_comma c Hc), IH.
Qed.

Lemma span_fst_all (p : ascii -> bool) (s : string) :
  Aux.string_forallb p (fst (span p s)) = true.
Proof.
  induction s as [|c s IH]; simpl; [reflexivity |].
  destruct (p c) eqn:Hc; [| reflexivity].
  destruct (span p s) as [a r]. simpl in *. now rewrite Hc.
Qed.

Lemma span_all (p : ascii -> bool) (a : string) :
  Aux.string_forallb p a = true -> span p a = (a, EmptyString).
Proof.
  induction a as [|c a IH]; simpl; [reflexivity |].
  intros H. apply andb_true_iff in H. destruct H as [Hc Ha].
  now rewrite Hc, (IH Ha).
Qed.

Lemma span_stop (p : ascii -> bool) (a : string) (c : ascii) (r : string) :
  Aux.string_forallb p a = true -> p c = false ->
  span p (a ++ String c r) = (a, String c r).
Proof.
  induction a as [|x a IH]; intros Ha Hc.
  - change (EmptyString ++ String c r) with (String c r). simpl.
    now rewrite Hc.
  - rewrite string_app_cons. simpl in Ha.
    apply andb_true_iff in Ha. destruct Ha as [Hx Ha].
    cbn [span]. now rewrite Hx, (IH Ha Hc).
Qed.

Lemma digits_upto_digits (n : nat) (s : string) :
  all_digits (fst (digits_upto n s)) = true.
Proof.
  revert s. induction n as [|n IH]; intros [|c s]; simpl; try reflexivity.
  destruct (PyStr.is_digit c) eqn:Hc; [| reflexivity].
  specialize (IH s). destruct (digits_upto n s) as [a r]. simpl in *.
  now rewrite Hc.
Qed.

Lemma comma_groups_digits_bounded (n : nat) :
  forall s, (String.length s <= n)%nat ->
            all_digits (PyStr.remove_char "," (fst (comma_groups s))) = true.
Proof.
  induction n as [|n IH]; intros s Hs.
  - destruct s; [reflexivity | simpl in Hs; lia].
  - destruct s as [|c [|d1 [|d2 [|d3 rest]]]]; try reflexivity.
    cbn [comma_groups].
    destruct (Ascii.eqb c "," && PyStr.is_digit d1 && PyStr.is_digit d2
              && PyStr.is_digit d3) eqn:H; [| reflexivity].
    apply andb_true_iff in H. destruct H as [H H3].
    apply andb_true_iff in H. destruct H as [H H2].
    apply andb_true_iff in H. destruct H as [Hc H1].
    assert (Hr : (String.length rest <= n)%nat) by (simpl in Hs; lia).
    specialize (IH rest Hr). destruct (comma_groups rest) as [a r].
    cbn [fst] in *. cbn [PyStr.remove_char].
    rewrite Hc, (digit_not_comma d1 H1), (digit_not_comma d2 H2),
      (digit_not_comma d3 H3).
    cbn [Aux.string_forallb]. now rewrite H1, H2, H3, IH.
Qed.

Lemma comma_groups_digits (s : string) :
  all_digits (PyStr.remove_char "," (fst (comma_groups s))) = true.
Proof. now apply (comma_groups_digits_bounded (String.length s)). Qed.

Lemma decimal_part_cases (s : string) :
  fst (decimal_part s) = EmptyString
  \/ exists ds,
       fst (decimal_part s) = String "." ds
       /\ ds <> EmptyString /\ all_digits ds = true.
Proof.
  destruct s as [|c [|d s]]; try (left; reflexivity).
  unfold decimal_part.
  destruct (Ascii.eqb_spec c "."); [| left; reflexivity].
  destruct (PyStr.is_digit d) eqn:Hd; [| left; reflexivity].
  subst c. right. cbn [andb].
  pose proof (span_fst_all PyStr.is_digit (String d s)) as H.
  destruct (span PyStr.is_digit (String d s)) as [a r] eqn:E.
  exists a. cbn [fst] in *. repeat split; [| exact H].
  simpl in E. rewrite Hd in E.
  destruct (span PyStr.is_digit s). injection E as <- _. discriminate.
Qed.

Lemma is_decimal_whole (a : string) :
  a <> EmptyString -> all_digits a = true -> is_decimal a = true.
Proof.
  intros Hne Ha. unfold is_decimal. rewrite (span_all _ _ Ha).
  destruct a; [contradiction | reflexivity].
Qed.

Lemma is_decimal_fraction (a ds : string) :
  a <> EmptyString -> all_digits a = true ->
  ds <> EmptyString -> all_digits ds = true ->
  is_decimal (a ++ String "." ds) = true.
Proof.
  intros Hne Ha Hds Hd. unfold is_decimal.
  rewrite (span_stop _ a "." ds Ha) by reflexivity.
  rewrite (span_all _ _ Hd). cbn [fst].
  rewrite String.eqb_refl.
  destruct a; [contradiction |]. destruct ds; [contradiction |]. reflexivity.
Qed.

(** Group 1 of a match is a decimal once its commas are removed, so
    [float] accepts it. *)
Lemma match_here_groups (s g0 g1 : string) (g2 : option string) :
  match_here s = Some (g0, g1, g2) ->
  is_decimal (PyStr.remove_char "," g1) = true.
Proof.
  unfold match_here.
  set (s1 := snd (match s with
                  | String c s' =>
                      if Ascii.eqb c "$" then (String c EmptyString, s')
                      else (EmptyString, s)
                  | EmptyString => (EmptyString, s)
                  end)).
  destruct (match s with
            | String c s' =>
                if Ascii.eqb c "$" then (String c EmptyString, s')
                else (EmptyString, s)
            | EmptyString => (EmptyString, s)
            end) as [dollar s1'].
  pose proof (digits_upto_digits 3 s1') as Hlead.
  destruct (digits_upto 3 s1') as [lead s2]. cbn [fst] in Hlead.
  destruct lead as [|l0 lead]; [discriminate |].
  pose proof (comma_groups_digits s2) as Hgroups.
  destruct (comma_groups s2) as [groups s3]. cbn [fst] in Hgroups.
  pose proof (decimal_part_cases s3) as Hfrac.
  destruct (decimal_part s3) as [frac s4]. cbn [fst] in Hfrac.
  destruct (span PyStr.is_space s4) as [spaces s5].
  destruct (unit_part s5) as [unit_text rest].
  intros [= <- <- <-].
  rewrite !remove_char_app, (remove_char_digits _ Hlead).
  set (whole := String l0 lead ++ PyStr.remove_char "," groups).
  assert (Hw : all_digits whole = true)
    by (subst whole; now rewrite string_forallb_app, Hlead, Hgroups).
  assert (Hwne : whole <> EmptyString) by (subst whole; discriminate).
  rewrite <- string_append_assoc. fold whole.
  destruct Hfrac as [-> | [ds [-> [Hds Hd]]]].
  - simpl. rewrite string_append_nil_r. now apply is_decimal_whole.
  - cbn [PyStr.remove_char]. rewrite (remove_char_digits _ Hd).
    replace (Ascii.eqb "." ",") with false by reflexivity.
    now apply is_decimal_fraction.
Qed.

Lemma finditer_matches (P : Match -> Prop) :
  (forall s g0 g1 g2 a b,
      match_here s = Some (g0, g1, g2) -> P (mkMatch a b g0 g1 g2)) ->
  forall s pos skip, Forall P (finditer pos skip s).
Proof.
  intros H. induction s as [|c s IH]; intros pos skip; simpl; [constructor |].
  destruct skip as [|k]; [| apply IH].
  destruct (match_here (String c s)) as [[[g0 g1] g2]|] eqn:E; [| apply IH].
  constructor; [| apply IH]. now apply (H (String c s)).
Qed.

(** The unit branch multiplies by the factor of the unit text, whatever
    the text: a unit whose lower-case form is in none of the three lists
    leaves the value as it is. *)
Lemma to_base_units_factor (v : float) (unit : option string) :
  to_base_units v unit = PrimFloat.mul v (Spec.unit_factor unit).
Proof.
  unfold to_base_units, Spec.unit_factor.
  destruct unit as [[|c u]|]; try (simpl; now rewrite mul_one_r).
  change (PyStr.truthy_str (Some (String c u))) with true. cbn iota.
  change (default EmptyString (Some (String c u))) with (String c u).
  set (u' := String c u).
  destruct (PyStr.mem (PyStr.lower u') ["billion"; "b"]); [reflexivity |].
  destruct (PyStr.mem (PyStr.lower u') ["million"; "m"]); [reflexivity |].
  destruct (PyStr.mem (PyStr.lower u') ["thousand"; "k"]); [reflexivity |].
  now rewrite mul_one_r.
Qed.

End PatternFacts.

(** C2, counterexample: "garbage123abc" holds the digits 123, which the
    pattern matches without a unit, so one number is extracted. *)
Lemma extraction_examples_as_stated_fails :
  ~ Spec.extraction_examples_as_stated.
Proof.
  intros [_ [_ H]]. vm_compute in H. discriminate.
Qed.

(** C2, amended: every match of the pattern yields one number, in order,
    with the unit and the text as matched, whose value is the decimal of
    group 1 multiplied by the factor that the lower-case form of the unit
    text selects: 1e9 for billion and b, 1e6 for million and m, 1e3 for
    thousand and k, and 1 when there is no unit or when the lower-case
    form is none of these; "$198.3 billion" gives 198300000000.0 with
    unit "billion", "2,500 million" gives 2500000000.0, and
    "garbage123abc" gives the one number 123.0 without a unit. *)
Theorem extract_numbers_normalizes :
  forall (text : string) (metric : option string),
    Forall2 Spec.normalized
            (Retriever.finditer 0 0 text)
            (Retriever._extract_numbers_from_text text metric)
    /\ Spec.unit_factor (Some "billion") = 1000000000%float
    /\ Spec.unit_factor (Some "B") = 1000000000%float
    /\ Spec.unit_factor (Some "million") = 1000000%float
    /\ Spec.unit_factor (Some "M") = 1000000%float
    /\ Spec.unit_factor (Some "thousand") = 1000%float
    /\ Spec.unit_factor (Some "K") = 1000%float
    /\ Spec.unit_factor None = 1%float
    /\ Spec.values_and_units "$198.3 billion"
       = [(198300000000%float, Some "billion")]
    /\ Spec.values_and_units "2,500 million"
       = [(2500000000%float, Some "million")]
    /\ Spec.values_and_units "garbage123abc" = [(123%float, None)].
Proof.
  intros text metric. split; [| vm_compute; repeat split; reflexivity].
  unfold Retriever._extract_numbers_from_text.
  assert (H : Forall
    (fun m =>
       exists n, Retriever.number_of_match text m = Exn.Ok n
                 /\ Spec.normalized m n)
    (Retriever.finditer 0 0 text)).
  { apply finditer_matches. intros s g0 g1 g2 a b Hm.
    pose proof (match_here_groups s g0 g1 g2 Hm) as Hdec.
    unfold Retriever.number_of_match, Retriever.float_of_str.
    cbn [Retriever.group1 Retriever.group2 Retriever.group0].
    rewrite Hdec. eexists. split; [reflexivity |].
    unfold Spec.normalized. cbn. repeat split.
    apply to_base_units_factor. }
  induction H as [|m ms [n [Hn Hnorm]] _ IH]; simpl; [constructor |].
  rewrite Hn. simpl. constructor; assumption.
Qed.

(** * Further properties

    Properties of the code that the specification does not state: the
    rest of the decomposer, the retrieval and the calculation data, the
    collection management of the vector store, the set-up and reset of
    the assistant, and the file names of the filings. *)

(** ** Further properties of the decomposer *)

Section EntityFacts.

Import QueryDecomposer.

Lemma bounded_length {A : Type} `{EqDecision A} (l k : list A) :
  NoDup l -> (forall x, In x l -> In x k) -> (length l <= length k)%nat.
Proof.
  intros Hnd Hin. apply submseteq_length, NoDup_submseteq; [exact Hnd |].
  intros x Hx. apply list_elem_of_In, Hin, list_elem_of_In, Hx.
Qed.

Lemma extract_companies_roster (query ticker : string) :
  In ticker (extract_companies query) -> In ticker roster.
Proof.
  intros H. apply extract_companies_In in H. destruct H as [name [Hn _]].
  unfold company_mappings in Hn. unfold roster. simpl in Hn |- *.
  repeat (destruct Hn as [Hn | Hn]; [inversion Hn; subst; auto |]).
  destruct Hn.
Qed.

Lemma extract_companies_length (query : string) :
  (length (extract_companies query) <= 3)%nat.
Proof.
  apply (bounded_length _ roster); [apply extract_companies_NoDup |].
  intros x. apply extract_companies_roster.
Qed.

Lemma extract_years_length (query : string) :
  (length (extract_years query) <= 6)%nat.
Proof.
  destruct (extract_years_spec query) as [Hnd Hr].
  apply (bounded_length _ tracked_years); [exact Hnd |].
  intros y Hy. apply Hr in Hy. unfold tracked_years. simpl.
  assert (y = 2020 \/ y = 2021 \/ y = 2022 \/ y = 2023 \/ y = 2024
          \/ y = 2025) as H by lia.
  intuition.
Qed.

Lemma add_metric_fold_filter (ql : string) (ms : list (string * list string)) :
  forall acc,
    NoDup (acc ++ map fst ms) ->
    fold_left (add_metric ql) ms acc
    = (acc ++ map fst (List.filter (fun e => PyStr.any_in (snd e) ql) ms))%list.
Proof.
  induction ms as [|[key variants] ms IH]; intros acc Hnd; simpl.
  - now rewrite app_nil_r.
  - simpl in Hnd.
    assert (Hkey : PyStr.mem key acc = false).
    { destruct (PyStr.mem key acc) eqn:Hm; [| reflexivity].
      apply mem_iff in Hm. apply NoDup_app in Hnd as [_ [Hd _]].
      exfalso. apply (Hd key); [now apply list_elem_of_In | left]. }
    destruct (PyStr.any_in variants ql); simpl.
    + rewrite Hkey. simpl. rewrite IH.
      * now rewrite <- app_assoc.
      * rewrite <- app_assoc. exact Hnd.
    + apply IH. apply NoDup_app in Hnd as [Ha [Hd Hk]].
      apply NoDup_app. repeat split; [exact Ha | | now inversion Hk].
      intros x Hx Hx'. apply (Hd x Hx). now right.
Qed.

Lemma metric_keys_NoDup : NoDup (map fst financial_metrics).
Proof. apply (bool_decide_unpack _). vm_compute. exact I. Qed.

End EntityFacts.

(** X1: the companies of a query are the tickers of the roster that the
    query names by one of their aliases, each once; there are at most
    three. *)
Theorem extract_companies_exact :
  forall query : string,
    NoDup (QueryDecomposer.extract_companies query)
    /\ (forall ticker,
          In ticker (QueryDecomposer.extract_companies query)
          <-> Spec.mentions_company query ticker)
    /\ (forall ticker,
          In ticker (QueryDecomposer.extract_companies query) ->
          In ticker QueryDecomposer.roster)
    /\ (length (QueryDecomposer.extract_companies query) <= 3)%nat.
Proof.
  intros query. split; [apply extract_companies_NoDup |].
  split; [intros ticker; apply extract_companies_In |].
  split; [intros ticker; apply extract_companies_roster |].
  apply extract_companies_length.
Qed.

(** X2: the years of a query are the numbers from 2020 to 2025 that the
    year pattern finds in it, each once; there are at most six. *)
Theorem extract_years_exact :
  forall query : string,
    NoDup (QueryDecomposer.extract_years query)
    /\ (forall y,
          In y (QueryDecomposer.extract_years query)
          <-> In y (map (PyStr.int_of_digits 0)
                        (QueryDecomposer.findall_years None 0 query))
              /\ 2020 <= y <= 2025)
    /\ (length (QueryDecomposer.extract_years query) <= 6)%nat.
Proof.
  intros query. split; [apply extract_years_spec |].
  split; [| apply extract_years_length].
  intros y. unfold QueryDecomposer.extract_years.
  set (l := filter _ _).
  assert (Hl : Forall (fun y => QueryDecomposer.in_year_range y = true) l).
  { apply Forall_forall. intros z Hz.
    subst l. now apply list_elem_of_filter in Hz as [Hz _]. }
  destruct (list_of_set_years l Hl) as [_ Hin]. rewrite Hin.
  subst l. rewrite <- list_elem_of_In, list_elem_of_filter, list_elem_of_In.
  unfold QueryDecomposer.in_year_range. rewrite andb_true_iff.
  rewrite Z.leb_le, Z.leb_le. tauto.
Qed.

(** X3: the metrics of a query are the keys of the metric table one of
    whose variants occurs in the lower-cased query, in the order of the
    table. *)
Theorem extract_metrics_table_order :
  forall query : string,
    QueryDecomposer.extract_metrics query
    = map fst
        (List.filter
           (fun entry => PyStr.any_in (snd entry) (PyStr.lower query))
           QueryDecomposer.financial_metrics).
Proof.
  intros query. unfold QueryDecomposer.extract_metrics.
  rewrite add_metric_fold_filter; [reflexivity |].
  exact metric_keys_NoDup.
Qed.

Section FlagFacts.

Import QueryDecomposer.

Lemma growth_is_temporal (ql : string) :
  PyStr.any_in growth_keywords ql = true ->
  PyStr.any_in all_temporal_keywords ql = true.
Proof.
  rewrite !any_in_iff. intros [k [Hk Hs]]. exists k. split; [| exact Hs].
  simpl in Hk |- *. intuition.
Qed.

Lemma classify_never_temporal (query : string) (companies : list string)
  (years : list Z) :
  classify_query_type query companies years <> TEMPORAL.
Proof.
  unfold classify_query_type.
  destruct (_ || _); [discriminate |].
  destruct (_ || _); [discriminate |].
  destruct (PyStr.any_in _ _); discriminate.
Qed.

(** What the classification says about the keywords of the query. *)
Lemma classify_cases (query : string) (companies : list string)
  (years : list Z) :
  let ql := PyStr.lower query in
  match classify_query_type query companies years with
  | CROSS_COMPANY =>
      (1 < length companies)%nat \/ PyStr.any_in comparison_keywords ql = true
  | COMPARATIVE =>
      (length companies <= 1)%nat
      /\ PyStr.any_in comparison_keywords ql = false
      /\ ((1 < length years)%nat
          \/ PyStr.any_in all_temporal_keywords ql = true)
  | TEMPORAL => False
  | _ =>
      (length companies <= 1)%nat /\ (length years <= 1)%nat
      /\ PyStr.any_in comparison_keywords ql = false
      /\ PyStr.any_in all_temporal_keywords ql = false
  end.
Proof.
  intros ql. unfold classify_query_type. fold ql.
  destruct (PyStr.any_in comparison_keywords ql),
    (PyStr.any_in all_temporal_keywords ql),
    (PyStr.any_in calculation_keywords ql),
    (1 <? Z.of_nat (length companies)) eqn:Hc,
    (1 <? Z.of_nat (length years)) eqn:Hy;
    cbn [orb];
    try apply Z.ltb_lt in Hc; try apply Z.ltb_ge in Hc;
    try apply Z.ltb_lt in Hy; try apply Z.ltb_ge in Hy;
    try (left; lia); try (now right);
    try (split; [lia | split; [reflexivity | (left; lia) || now right]]);
    (split; [lia | split; [lia | split; reflexivity]]).
Qed.

Lemma requires_calculation_iff (query : string) :
  requires_calculation (decompose_query query) = false
  <-> dq_query_type (decompose_query query) = SIMPLE_DIRECT.
Proof.
  unfold decompose_query.
  destruct (classify_query_type _ _ _);
    cbn [requires_calculation dq_query_type];
    split; (reflexivity || discriminate).
Qed.

End FlagFacts.

Ltac dq_simpl :=
  cbn [QueryDecomposer.original_query QueryDecomposer.dq_query_type
       QueryDecomposer.sub_queries QueryDecomposer.requires_calculation
       QueryDecomposer.calculation_type].

(** X4: a decomposition keeps the query text, is never of type TEMPORAL,
    requires a calculation exactly when it is not SIMPLE_DIRECT, and has
    a calculation type exactly when it requires a calculation. *)
Theorem decompose_query_flags :
  forall query : string,
    let dq := QueryDecomposer.decompose_query query in
    QueryDecomposer.original_query dq = query
    /\ QueryDecomposer.dq_query_type dq <> QueryDecomposer.TEMPORAL
    /\ (QueryDecomposer.requires_calculation dq = false
        <-> QueryDecomposer.dq_query_type dq = QueryDecomposer.SIMPLE_DIRECT)
    /\ (QueryDecomposer.calculation_type dq = None
        <-> QueryDecomposer.requires_calculation dq = false).
Proof.
  intros query dq. subst dq.
  split; [| split; [| split; [apply requires_calculation_iff |]]].
  - unfold QueryDecomposer.decompose_query.
    now destruct (QueryDecomposer.classify_query_type _ _ _).
  - rewrite decompose_query_type. apply classify_never_temporal.
  - assert (Hcalc : forall g c : bool,
      (if g then Some "growth"
       else if c then Some "comparison" else Some "general") <> None).
    { intros [] []; discriminate. }
    unfold QueryDecomposer.decompose_query.
    destruct (QueryDecomposer.classify_query_type _ _ _); dq_simpl;
      split; try reflexivity; try discriminate;
      intros H; now apply Hcalc in H.
Qed.

(** X5: the calculation type is "growth" exactly when the query holds a
    growth keyword; "comparison" occurs only for CROSS_COMPANY queries;
    a query of type CALCULATION always gets "general". *)
Theorem calculation_type_by_keywords :
  forall query : string,
    let dq := QueryDecomposer.decompose_query query in
    (QueryDecomposer.calculation_type dq = Some "growth"
     <-> Spec.has_keyword QueryDecomposer.growth_keywords query)
    /\ (QueryDecomposer.calculation_type dq = Some "comparison" ->
        QueryDecomposer.dq_query_type dq = QueryDecomposer.CROSS_COMPANY)
    /\ (QueryDecomposer.dq_query_type dq = QueryDecomposer.COMPARATIVE ->
        QueryDecomposer.calculation_type dq = Some "growth"
        \/ QueryDecomposer.calculation_type dq = Some "general")
    /\ (QueryDecomposer.dq_query_type dq = QueryDecomposer.CALCULATION ->
        QueryDecomposer.calculation_type dq = Some "general").
Proof.
  intros query dq. subst dq.
  rewrite <- has_keyword_iff.
  pose proof (classify_cases query (QueryDecomposer.extract_companies query)
                (QueryDecomposer.extract_years query)) as Hc.
  pose proof (growth_is_temporal (PyStr.lower query)) as Hg.
  cbv zeta in Hc. revert Hc.
  unfold QueryDecomposer.decompose_query.
  destruct (QueryDecomposer.classify_query_type _ _ _); dq_simpl; intros Hc.
  - destruct Hc as [_ [_ [_ Ht]]].
    destruct (PyStr.any_in QueryDecomposer.growth_keywords _).
    + rewrite Hg in Ht; [discriminate | reflexivity].
    + repeat split; discriminate.
  - destruct Hc as [_ [Hk _]]. rewrite Hk.
    destruct (PyStr.any_in QueryDecomposer.growth_keywords _);
      repeat split; auto; discriminate.
  - destruct (PyStr.any_in QueryDecomposer.growth_keywords _);
      [repeat split; auto; discriminate |].
    destruct (PyStr.any_in QueryDecomposer.comparison_keywords _);
      repeat split; auto; discriminate.
  - destruct Hc.
  - destruct Hc as [_ [_ [Hk Ht]]]. rewrite Hk.
    destruct (PyStr.any_in QueryDecomposer.growth_keywords _).
    + rewrite Hg in Ht; [discriminate | reflexivity].
    + repeat split; auto; discriminate.
Qed.

(** X6: a query of type SIMPLE_DIRECT or CALCULATION names at most one
    company and at most one year, and its decomposition is the single
    SIMPLE_DIRECT sub-query with the text of the query, that company,
    that year and the first metric. *)
Theorem single_sub_query :
  forall query : string,
    let dq := QueryDecomposer.decompose_query query in
    QueryDecomposer.dq_query_type dq = QueryDecomposer.SIMPLE_DIRECT
    \/ QueryDecomposer.dq_query_type dq = QueryDecomposer.CALCULATION ->
    QueryDecomposer.sub_queries dq
    = [ QueryDecomposer.mkSubQuery query QueryDecomposer.SIMPLE_DIRECT
          (head (QueryDecomposer.extract_companies query))
          (head (QueryDecomposer.extract_years query))
          (head (QueryDecomposer.extract_metrics query)) None ]
    /\ (length (QueryDecomposer.extract_companies query) <= 1)%nat
    /\ (length (QueryDecomposer.extract_years query) <= 1)%nat
    /\ ~ Spec.has_keyword QueryDecomposer.comparison_keywords query
    /\ ~ Spec.has_temporal_keyword query.
Proof.
  intros query dq. subst dq. rewrite decompose_query_type.
  rewrite <- has_keyword_iff, <- has_temporal_keyword_iff.
  pose proof (classify_cases query (QueryDecomposer.extract_companies query)
                (QueryDecomposer.extract_years query)) as Hc.
  cbv zeta in Hc. revert Hc.
  unfold QueryDecomposer.decompose_query.
  destruct (QueryDecomposer.classify_query_type _ _ _); dq_simpl;
    intros Hc [H | H]; try discriminate;
    destruct Hc as [Hc [Hy [Hk Ht]]]; rewrite Hk, Ht;
    (split; [reflexivity |]); repeat split; auto; discriminate.
Qed.

(** X6, witness. *)
Lemma single_sub_query_witness :
  let query := "What was Microsoft's total revenue in 2023?" in
  QueryDecomposer.sub_queries (QueryDecomposer.decompose_query query)
  = [ QueryDecomposer.mkSubQuery query QueryDecomposer.SIMPLE_DIRECT
        (head (QueryDecomposer.extract_companies query))
        (head (QueryDecomposer.extract_years query))
        (head (QueryDecomposer.extract_metrics query)) None ]
  /\ (length (QueryDecomposer.extract_companies query) <= 1)%nat
  /\ (length (QueryDecomposer.extract_years query) <= 1)%nat
  /\ ~ Spec.has_keyword QueryDecomposer.comparison_keywords query
  /\ ~ Spec.has_temporal_keyword query.
Proof.
  apply (single_sub_query "What was Microsoft's total revenue in 2023?").
  left. vm_compute. reflexivity.
Defined.

Section ShapeFacts.

Import QueryDecomposer.

Lemma sub_queries_split (query : string) :
  exists retrieval calculation,
    sub_queries (decompose_query query) = (retrieval ++ calculation)%list
    /\ Forall (fun sq => query_type sq = SIMPLE_DIRECT
                         /\ section_hint sq = None)
              retrieval
    /\ (length retrieval <= 6)%nat
    /\ (calculation = []
        \/ exists sq,
             calculation = [sq]
             /\ query_type sq = CALCULATION
             /\ year sq = None
             /\ section_hint sq = None).
Proof.
    pose proof (extract_years_length query) as Hy.
  pose proof (extract_companies_length query) as Hc.
  assert (Hsimple : exists retrieval calculation,
    QueryDecomposer.decompose_simple_query query
      (QueryDecomposer.extract_companies query)
      (QueryDecomposer.extract_years query)
      (QueryDecomposer.extract_metrics query)
    = (retrieval ++ calculation)%list
    /\ Forall (fun sq =>
                 QueryDecomposer.query_type sq = QueryDecomposer.SIMPLE_DIRECT
                 /\ QueryDecomposer.section_hint sq = None)
              retrieval
    /\ (length retrieval <= 6)%nat
    /\ (calculation = []
        \/ exists sq,
             calculation = [sq]
             /\ QueryDecomposer.query_type sq = QueryDecomposer.CALCULATION
             /\ QueryDecomposer.year sq = None
             /\ QueryDecomposer.section_hint sq = None)).
  { eexists [_], []. split; [reflexivity |].
    split; [repeat constructor |]. split; [simpl; lia | now left]. }
  unfold QueryDecomposer.decompose_query.
  destruct (QueryDecomposer.classify_query_type _ _ _); simpl;
    try exact Hsimple.
  - unfold QueryDecomposer.decompose_comparative_query.
    destruct (QueryDecomposer.extract_companies query) as [|c [|c' cs]];
      try (exists [], []; repeat split; [constructor | simpl; lia | now left]).
    destruct (QueryDecomposer.extract_metrics query) as [|m ms];
      try (exists [], []; repeat split; [constructor | simpl; lia | now left]).
    destruct (1 <? _);
      try (exists [], []; repeat split; [constructor | simpl; lia | now left]).
    eexists _, _. split; [reflexivity |].
    split; [apply Forall_map, Forall_true; intros y; now split |].
    split; [now rewrite length_map |].
    destruct (_ =? 2); [right | now left].
    eexists. repeat split.
  - unfold QueryDecomposer.decompose_cross_company_query.
    eexists _, _. split; [reflexivity |].
    split; [apply Forall_map, Forall_true; intros y; now split |].
    split.
    + rewrite length_map.
      destruct (QueryDecomposer.extract_companies query); simpl in *; lia.
    + right. eexists. repeat split.
Qed.


Lemma retrievable_split (retrieval calculation : list SubQuery) :
  Forall (fun sq => query_type sq = SIMPLE_DIRECT /\ section_hint sq = None)
         retrieval ->
  (calculation = []
   \/ exists sq,
        calculation = [sq]
        /\ query_type sq = CALCULATION
        /\ year sq = None
        /\ section_hint sq = None) ->
  List.filter Terms.retrievable (retrieval ++ calculation) = retrieval.
Proof.
  intros Hr Hc. rewrite List.filter_app.
  assert (H1 : List.filter Terms.retrievable retrieval = retrieval).
  { induction Hr as [|sq l [Hsq _] _ IH]; [reflexivity |].
    cbn [List.filter]. unfold Terms.retrievable at 1. rewrite Hsq.
    cbn. now rewrite IH. }
  assert (H2 : List.filter Terms.retrievable calculation = []).
  { destruct Hc as [-> | [sq [-> [Hsq _]]]]; [reflexivity |].
    cbn [List.filter]. unfold Terms.retrievable. now rewrite Hsq. }
  now rewrite H1, H2, app_nil_r.
Qed.

End ShapeFacts.

(** X7: the sub-queries of every decomposition are SIMPLE_DIRECT
    sub-queries, at most six, followed by at most one CALCULATION
    sub-query, which has no year; no sub-query has a section hint, and
    the SIMPLE_DIRECT ones are those that retrieval searches for. *)
Theorem sub_queries_shape :
  forall query : string,
    exists retrieval calculation,
      QueryDecomposer.sub_queries (QueryDecomposer.decompose_query query)
      = (retrieval ++ calculation)%list
      /\ Forall (fun sq =>
                   QueryDecomposer.query_type sq = QueryDecomposer.SIMPLE_DIRECT
                   /\ QueryDecomposer.section_hint sq = None)
                retrieval
      /\ (length retrieval <= 6)%nat
      /\ (calculation = []
          \/ exists sq,
               calculation = [sq]
               /\ QueryDecomposer.query_type sq = QueryDecomposer.CALCULATION
               /\ QueryDecomposer.year sq = None
               /\ QueryDecomposer.section_hint sq = None)
      /\ List.filter Terms.retrievable
           (QueryDecomposer.sub_queries (QueryDecomposer.decompose_query query))
         = retrieval.
Proof.
  intros query.
  destruct (sub_queries_split query)
    as [retrieval [calculation [Heq [Hr [Hlen Hc]]]]].
  exists retrieval, calculation.
  split; [exact Heq |]. split; [exact Hr |]. split; [exact Hlen |].
  split; [exact Hc |]. rewrite Heq. now apply retrievable_split.
Qed.


(** X8: a decomposition has no sub-query exactly when the query is
    classified COMPARATIVE and does not name one company, several years
    and a metric; it then still requires a calculation, and multi-step
    retrieval returns no result for it. *)
Theorem empty_decomposition_iff :
  forall query : string,
    let dq := QueryDecomposer.decompose_query query in
    (QueryDecomposer.sub_queries dq = []
     <-> QueryDecomposer.dq_query_type dq = QueryDecomposer.COMPARATIVE
         /\ ~ (length (QueryDecomposer.extract_companies query) = 1%nat
               /\ (1 < length (QueryDecomposer.extract_years query))%nat
               /\ QueryDecomposer.extract_metrics query <> []))
    /\ (QueryDecomposer.sub_queries dq = [] ->
        QueryDecomposer.requires_calculation dq = true
        /\ forall b : VectorStore.Backend,
             Retriever.retrieve_multi_step b dq = Exn.Ok []).
Proof.
  intros query dq. subst dq.
  split; [apply decompose_query_empty_iff |].
  intros Hnil. split.
  - pose proof (proj1 (decompose_query_empty_iff query) Hnil) as [Hc _].
    rewrite decompose_query_type in Hc.
    apply (comparative_dispatch query Hc).
  - intros b. unfold Retriever.retrieve_multi_step. rewrite Hnil.
    reflexivity.
Qed.



Section CaseFacts.

Import QueryDecomposer.

Ltac by_cases c := destruct c as [[] [] [] [] [] [] [] []]; reflexivity.

Lemma lower_char_idem (c : ascii) :
  PyStr.lower_char (PyStr.lower_char c) = PyStr.lower_char c.
Proof. by_cases c. Qed.

Lemma lower_idem (s : string) : PyStr.lower (PyStr.lower s) = PyStr.lower s.
Proof.
  induction s as [|c s IH]; simpl; [reflexivity |].
  now rewrite lower_char_idem, IH.
Qed.

Lemma extract_companies_lower (query : string) :
  extract_companies (PyStr.lower query) = extract_companies query.
Proof. unfold extract_companies. now rewrite lower_idem. Qed.

Lemma extract_metrics_lower (query : string) :
  extract_metrics (PyStr.lower query) = extract_metrics query.
Proof. unfold extract_metrics. now rewrite lower_idem. Qed.

Lemma classify_lower (query : string) (companies : list string)
  (years : list Z) :
  classify_query_type (PyStr.lower query) companies years
  = classify_query_type query companies years.
Proof. unfold classify_query_type. now rewrite lower_idem. Qed.

End CaseFacts.


Section OutlineFacts.

Lemma simple_outline (q1 q2 : string) (companies : list string)
  (years : list Z) (metrics : list string) :
  map Terms.outline
      (QueryDecomposer.decompose_simple_query q1 companies years metrics)
  = map Terms.outline
      (QueryDecomposer.decompose_simple_query q2 companies years metrics).
Proof. reflexivity. Qed.

Lemma cross_company_outline (q1 q2 : string) (companies : list string)
  (years : list Z) (metrics : list string) :
  map Terms.outline
      (QueryDecomposer.decompose_cross_company_query q1 companies years metrics)
  = map Terms.outline
      (QueryDecomposer.decompose_cross_company_query q2 companies years
         metrics).
Proof.
  unfold QueryDecomposer.decompose_cross_company_query.
  rewrite !map_app, !map_map. reflexivity.
Qed.

End OutlineFacts.

(** X9: the companies and the metrics found in a query and the keyword
    tests of the classification are those of its lower-case form; the
    years are read from the query as written, and whenever the
    lower-case form shows the same years it is decomposed alike: same
    query type and calculation type, and sub-queries of the same kinds
    for the same companies, years and metrics. *)
Theorem decompose_query_ignores_case :
  forall query : string,
    let dq := QueryDecomposer.decompose_query query in
    let dl := QueryDecomposer.decompose_query (PyStr.lower query) in
    QueryDecomposer.extract_companies (PyStr.lower query)
    = QueryDecomposer.extract_companies query
    /\ QueryDecomposer.extract_metrics (PyStr.lower query)
       = QueryDecomposer.extract_metrics query
    /\ (forall companies years,
          QueryDecomposer.classify_query_type (PyStr.lower query) companies
            years
          = QueryDecomposer.classify_query_type query companies years)
    /\ (QueryDecomposer.extract_years (PyStr.lower query)
        = QueryDecomposer.extract_years query ->
        QueryDecomposer.dq_query_type dl = QueryDecomposer.dq_query_type dq
        /\ QueryDecomposer.requires_calculation dl
           = QueryDecomposer.requires_calculation dq
        /\ QueryDecomposer.calculation_type dl
           = QueryDecomposer.calculation_type dq
        /\ map Terms.outline (QueryDecomposer.sub_queries dl)
           = map Terms.outline (QueryDecomposer.sub_queries dq)).
Proof.
  intros query dq dl. subst dq dl.
  split; [apply extract_companies_lower |].
  split; [apply extract_metrics_lower |].
  split; [intros companies years; apply classify_lower |].
  intros Hyears.
  unfold QueryDecomposer.decompose_query.
  rewrite extract_companies_lower, Hyears, extract_metrics_lower,
    classify_lower, lower_idem.
  destruct (QueryDecomposer.classify_query_type _ _ _); dq_simpl;
    (split; [reflexivity |]); (split; [reflexivity |]);
    (split; [reflexivity |]).
  - apply simple_outline.
  - reflexivity.
  - apply cross_company_outline.
  - apply simple_outline.
  - apply simple_outline.
Qed.

(** X9 at "MICROSOFT Revenue Growth from 2022 to 2023": its lower-case
    form shows the same years, and has the same query type and
    sub-queries of the same kinds. *)
Lemma decompose_query_ignores_case_witness :
  QueryDecomposer.extract_years
    (PyStr.lower "MICROSOFT Revenue Growth from 2022 to 2023")
  = QueryDecomposer.extract_years "MICROSOFT Revenue Growth from 2022 to 2023"
  /\ QueryDecomposer.dq_query_type
       (QueryDecomposer.decompose_query
          (PyStr.lower "MICROSOFT Revenue Growth from 2022 to 2023"))
     = QueryDecomposer.dq_query_type
         (QueryDecomposer.decompose_query
            "MICROSOFT Revenue Growth from 2022 to 2023")
  /\ map Terms.outline
       (QueryDecomposer.sub_queries
          (QueryDecomposer.decompose_query
             (PyStr.lower "MICROSOFT Revenue Growth from 2022 to 2023")))
     = map Terms.outline
         (QueryDecomposer.sub_queries
            (QueryDecomposer.decompose_query
               "MICROSOFT Revenue Growth from 2022 to 2023")).
Proof.
  destruct (decompose_query_ignores_case
              "MICROSOFT Revenue Growth from 2022 to 2023")
    as [_ [_ [_ Hsame]]].
  assert (Hyears :
            QueryDecomposer.extract_years
              (PyStr.lower "MICROSOFT Revenue Growth from 2022 to 2023")
            = QueryDecomposer.extract_years
                "MICROSOFT Revenue Growth from 2022 to 2023")
    by (vm_compute; reflexivity).
  destruct (Hsame Hyears) as [Htype [_ [_ Houtline]]].
  exact (conj Hyears (conj Htype Houtline)).
Defined.

(** X10: of the example queries that the decomposer lists, those under
    "Simple Direct" are classified SIMPLE_DIRECT and those under
    "Comparative" COMPARATIVE; under "Cross-Company" the first and the
    third are classified CROSS_COMPANY, while "Compare revenue across
    all three companies in 2024" is classified COMPARATIVE and is the
    one example whose decomposition has no sub-query. *)
Theorem query_examples_classified :
  Terms.classified Examples.get_query_examples
  = [ ("Simple Direct",
       [ QueryDecomposer.SIMPLE_DIRECT; QueryDecomposer.SIMPLE_DIRECT;
         QueryDecomposer.SIMPLE_DIRECT ]);
      ("Comparative",
       [ QueryDecomposer.COMPARATIVE; QueryDecomposer.COMPARATIVE;
         QueryDecomposer.COMPARATIVE ]);
      ("Cross-Company",
       [ QueryDecomposer.CROSS_COMPANY; QueryDecomposer.COMPARATIVE;
         QueryDecomposer.CROSS_COMPANY ]) ]
  /\ Forall (fun query =>
              QueryDecomposer.sub_queries
                (QueryDecomposer.decompose_query query) = []
              <-> query = "Compare revenue across all three companies in 2024")
            (concat (map snd Examples.get_query_examples)).
Proof.
  split; [vm_compute; reflexivity |].
  unfold Examples.get_query_examples. cbn [map snd concat app].
  repeat match goal with
         | |- Forall _ (_ :: _) => constructor
         | |- Forall _ [] => constructor
         end;
    split; intros H;
    match goal with
    | |- QueryDecomposer.sub_queries _ = [] =>
        first [discriminate H | vm_compute; reflexivity]
    | |- _ => vm_compute in H; first [discriminate H | reflexivity]
    end.
Qed.

(** ** Further properties of the retrieval *)

Section RetrievalFacts.

Import Exn QueryDecomposer VectorStore Retriever.

Lemma retrieve_sub_queries_results (b : Backend) (sqs : list SubQuery) :
  exists results,
    retrieve_sub_queries b sqs = Ok results
    /\ map sub_query results = List.filter Terms.retrievable sqs
    /\ Forall (Terms.search_of b) results.
Proof.
  induction sqs as [|sq sqs [results [IH [Hsq Hall]]]]; simpl.
  - exists []. repeat split. constructor.
  - unfold Terms.retrievable at 1.
    destruct (QueryType_eqb (query_type sq) CALCULATION); simpl.
    + exists results. auto.
    + unfold retrieve_for_sub_query.
      destruct (similarity_search_total b (text sq) default_top_k (company sq)
                  (year sq) (section_hint sq)) as [chunks H].
      rewrite H, IH. simpl.
      eexists. split; [reflexivity |]. simpl. split; [now rewrite Hsq |].
      constructor; [| exact Hall]. split; [exact H | reflexivity].
Qed.

End RetrievalFacts.

(** X11: multi-step retrieval never raises; it returns one result for
    each sub-query that is not a CALCULATION, in the order of the
    sub-queries, holding what the search for that sub-query returned and
    the scores of those chunks. *)
Theorem retrieve_multi_step_results :
  forall (b : VectorStore.Backend) (dq : QueryDecomposer.DecomposedQuery),
    exists results,
      Retriever.retrieve_multi_step b dq = Exn.Ok results
      /\ map Retriever.sub_query results
         = List.filter Terms.retrievable (QueryDecomposer.sub_queries dq)
      /\ Forall (Terms.search_of b) results.
Proof.
  intros b dq. unfold Retriever.retrieve_multi_step.
  destruct (retrieve_sub_queries_results b (QueryDecomposer.sub_queries dq))
    as [results H].
  exists results. exact H.
Qed.

(** X12: when the embedding model raises, or returns no embedding, the
    search returns an empty list and the retrieval of the sub-query a
    result without chunks. *)
Theorem encoder_failure_is_empty_result :
  forall (b : VectorStore.Backend) (sq : QueryDecomposer.SubQuery) (top_k : Z),
    (exists e, VectorStore.encode b [QueryDecomposer.text sq] = Exn.Raise e)
    \/ VectorStore.encode b [QueryDecomposer.text sq] = Exn.Ok [] ->
    VectorStore.generate_embeddings b [QueryDecomposer.text sq] = []
    /\ VectorStore.similarity_search b (QueryDecomposer.text sq) top_k
         (QueryDecomposer.company sq) (QueryDecomposer.year sq)
         (QueryDecomposer.section_hint sq)
       = Exn.Ok []
    /\ Retriever.retrieve_for_sub_query b sq top_k
       = Exn.Ok (Retriever.mkRetrievalResult sq [] []).
Proof.
  intros b sq top_k H.
  assert (Hg : VectorStore.generate_embeddings b [QueryDecomposer.text sq]
               = []).
  { unfold VectorStore.generate_embeddings.
    destruct H as [[e ->] | ->]; reflexivity. }
  split; [exact Hg |].
  unfold Retriever.retrieve_for_sub_query, VectorStore.similarity_search,
    VectorStore.search_body.
  rewrite Hg. split; reflexivity.
Qed.

(** X12, witness. *)
Lemma encoder_failure_is_empty_result_witness :
  VectorStore.generate_embeddings Fixture.broken_encoder
    [QueryDecomposer.text Sample.msft_2023] = []
  /\ VectorStore.similarity_search Fixture.broken_encoder
       (QueryDecomposer.text Sample.msft_2023) 5
       (QueryDecomposer.company Sample.msft_2023)
       (QueryDecomposer.year Sample.msft_2023)
       (QueryDecomposer.section_hint Sample.msft_2023)
     = Exn.Ok []
  /\ Retriever.retrieve_for_sub_query Fixture.broken_encoder Sample.msft_2023 5
     = Exn.Ok (Retriever.mkRetrievalResult Sample.msft_2023 [] []).
Proof.
  apply (encoder_failure_is_empty_result Fixture.broken_encoder
           Sample.msft_2023 5).
  left. exists "model not loaded". reflexivity.
Defined.

(** X13: a filter that is [None], the empty string or the year 0 is not
    applied: the search filter is [None] exactly when no filter is
    truthy, and an empty string or a zero gives the filter that [None]
    gives. *)
Theorem build_filter_ignores_falsy :
  forall (company_filter : option string) (year_filter : option Z)
         (section_filter : option string),
    (VectorStore.build_filter company_filter year_filter section_filter = None
     <-> PyStr.truthy_str company_filter = false
         /\ PyStr.truthy_int year_filter = false
         /\ PyStr.truthy_str section_filter = false)
    /\ VectorStore.build_filter (Some EmptyString) year_filter section_filter
       = VectorStore.build_filter None year_filter section_filter
    /\ VectorStore.build_filter company_filter (Some 0) section_filter
       = VectorStore.build_filter company_filter None section_filter
    /\ VectorStore.build_filter company_filter year_filter (Some EmptyString)
       = VectorStore.build_filter company_filter year_filter None
    /\ (forall conditions,
          VectorStore.build_filter company_filter year_filter section_filter
          = Some conditions ->
          sublist (map VectorStore.fc_key conditions)
                  ["company"; "year"; "section"]).
Proof.
  intros c y s. unfold VectorStore.build_filter.
  change (PyStr.truthy_str (Some EmptyString)) with false.
  change (PyStr.truthy_int (Some 0)) with false.
  change (PyStr.truthy_str None) with false.
  change (PyStr.truthy_int None) with false.
  split; [| split; [reflexivity | split; [reflexivity | split;
                                                          [reflexivity |]]]].
  - destruct (PyStr.truthy_str c), (PyStr.truthy_int y), (PyStr.truthy_str s);
      simpl; split; (discriminate || tauto || (intros [? [? ?]]; discriminate)
                     || auto).
  - intros conditions.
    destruct (PyStr.truthy_str c), (PyStr.truthy_int y), (PyStr.truthy_str s);
      simpl; intros [= <-]; simpl;
      repeat (first [ apply sublist_nil
                    | apply sublist_skip
                    | apply sublist_cons ]).
Qed.

Section DigitFacts.

Import Exn Retriever.

Lemma digit_not_dollar (c : ascii) :
  PyStr.is_digit c = true -> Ascii.eqb c "$" = false.
Proof.
  intros H. apply Ascii.eqb_neq. intros ->. vm_compute in H. discriminate.
Qed.

Lemma match_here_without_digit (s : string) :
  Terms.has_digit s = false -> match_here s = None.
Proof.
  destruct s as [|c s]; [reflexivity |]. cbn [Terms.has_digit].
  intros H. apply orb_false_iff in H as [Hc Hs]. unfold match_here.
  destruct (Ascii.eqb c "$").
  - destruct s as [|d r]; [reflexivity |]. cbn [Terms.has_digit] in Hs.
    apply orb_false_iff in Hs as [Hd _]. cbn [digits_upto]. now rewrite Hd.
  - cbn [digits_upto]. now rewrite Hc.
Qed.

Lemma digits_upto_at_digit (n : nat) (c : ascii) (s : string) :
  PyStr.is_digit c = true ->
  digits_upto (S n) (String c s)
  = (String c (fst (digits_upto n s)), snd (digits_upto n s)).
Proof.
  intros Hc. cbn [digits_upto]. rewrite Hc.
  now destruct (digits_upto n s).
Qed.

Lemma match_here_at_digit (c : ascii) (s : string) :
  PyStr.is_digit c = true -> match_here (String c s) <> None.
Proof.
  intros Hc. unfold match_here. rewrite (digit_not_dollar c Hc).
  rewrite (digits_upto_at_digit 2 c s Hc).
  destruct (comma_groups _) as [groups s3].
  destruct (decimal_part s3) as [frac s4].
  destruct (span PyStr.is_space s4) as [spaces s5].
  destruct (unit_part s5) as [unit_text rest]. discriminate.
Qed.

Lemma finditer_without_digit (s : string) :
  forall pos skip, Terms.has_digit s = false -> finditer pos skip s = [].
Proof.
  induction s as [|c s IH]; intros pos skip H; [reflexivity |].
  cbn [finditer]. destruct skip as [|k].
  - rewrite (match_here_without_digit _ H). apply IH.
    cbn [Terms.has_digit] in H. now apply orb_false_iff in H as [_ H].
  - apply IH. cbn [Terms.has_digit] in H.
    now apply orb_false_iff in H as [_ H].
Qed.

Lemma finditer_with_digit (s : string) :
  forall pos, Terms.has_digit s = true -> finditer pos 0 s <> [].
Proof.
  induction s as [|c s IH]; intros pos H; [discriminate |].
  cbn [finditer].
  destruct (match_here (String c s)) as [[[g0 g1] g2]|] eqn:Hm;
    [discriminate |].
  apply IH. cbn [Terms.has_digit] in H.
  destruct (PyStr.is_digit c) eqn:Hc; [| exact H].
  exfalso. now apply (match_here_at_digit c s Hc).
Qed.

Lemma number_of_every_match (text : string) :
  Forall (fun m => exists n, number_of_match text m = Ok n)
         (finditer 0 0 text).
Proof.
  apply finditer_matches. intros s g0 g1 g2 a b Hm.
  pose proof (match_here_groups s g0 g1 g2 Hm) as Hdec.
  unfold number_of_match, float_of_str. cbn [group1].
  rewrite Hdec. eexists. reflexivity.
Qed.

Lemma numbers_length (text : string) (metric : option string) :
  length (_extract_numbers_from_text text metric)
  = length (finditer 0 0 text).
Proof.
  unfold _extract_numbers_from_text.
  pose proof (number_of_every_match text) as H.
  induction H as [|m ms [n Hn] _ IH]; [reflexivity |].
  cbn [flat_map]. rewrite Hn. cbn [app length]. now rewrite IH.
Qed.

End DigitFacts.

(** X14: number extraction yields one number for every match of the
    pattern, and none exactly when the text holds no decimal digit. *)
Theorem numbers_iff_digits :
  forall (text : string) (metric : option string),
    length (Retriever._extract_numbers_from_text text metric)
    = length (Retriever.finditer 0 0 text)
    /\ (Retriever._extract_numbers_from_text text metric = []
        <-> Terms.has_digit text = false).
Proof.
  intros text metric. split; [apply numbers_length |].
  rewrite <- length_zero_iff_nil, numbers_length, length_zero_iff_nil.
  split.
  - intros H. destruct (Terms.has_digit text) eqn:Hd; [| reflexivity].
    exfalso. now apply (finditer_with_digit text 0%nat Hd).
  - apply finditer_without_digit.
Qed.

(** ** Entries of the calculation data *)

Section EntryFacts.

Import Exn QueryDecomposer VectorStore Retriever.

Lemma default_nonempty {A : Type} (l : list A) :
  default [] (Terms.nonempty l) = l.
Proof. now destruct l. Qed.

Lemma nonempty_app {A : Type} (l : list A) (x : A) (k : list A) :
  Terms.nonempty (l ++ x :: k)%list = Some (l ++ x :: k)%list.
Proof. now destruct l. Qed.

Lemma fold_record_numbers (metric : option string) (chunks : list Chunk) :
  forall (e : Entry) (N : option string -> list Number),
    (forall mt, entry_metrics e !! mt = Terms.nonempty (N mt)) ->
    let e' := fold_left (record_numbers metric) chunks e in
    entry_company e' = entry_company e
    /\ entry_year e' = entry_year e
    /\ entry_chunks e' = entry_chunks e
    /\ forall mt,
         entry_metrics e' !! mt
         = Terms.nonempty
             (N mt ++ if bool_decide (metric = mt)
                      then Terms.numbers_of_chunks metric chunks
                      else [])%list.
Proof.
  induction chunks as [|chunk chunks IH]; intros e N HN; cbn [fold_left].
  - repeat split. intros mt. rewrite HN.
    destruct (bool_decide (metric = mt)); now rewrite app_nil_r.
  - cbv zeta in IH |- *.
    unfold Terms.numbers_of_chunks. cbn [flat_map].
    fold (Terms.numbers_of_chunks metric chunks).
    unfold record_numbers at 2 4 6 8.
    destruct (_extract_numbers_from_text (chunk_content chunk) metric)
      as [|n ns] eqn:Hn.
    + apply (IH e N HN).
    + set (e1 := mkEntry _ _ _ _).
      destruct (IH e1
                  (fun mt => (N mt ++ if bool_decide (metric = mt)
                                      then n :: ns else [])%list))
        as [Hc [Hy [Hk Hm]]].
      { intros mt. subst e1. cbn [entry_metrics].
        destruct (bool_decide (metric = mt)) eqn:Hd.
        - apply bool_decide_eq_true in Hd. subst mt.
          rewrite lookup_insert_eq, HN, default_nonempty.
          now rewrite nonempty_app.
        - apply bool_decide_eq_false in Hd.
          rewrite lookup_insert_ne by exact Hd.
          now rewrite app_nil_r. }
      split; [exact Hc |]. split; [exact Hy |]. split; [exact Hk |].
      intros mt. rewrite Hm.
      destruct (bool_decide (metric = mt)); rewrite <- app_assoc;
        reflexivity.
Qed.

Lemma chunks_filed_snoc (key : string) (done : list RetrievalResult)
  (r : RetrievalResult) :
  Terms.chunks_filed key (done ++ [r])
  = (Terms.chunks_filed key done
     ++ if bool_decide (Spec.contribution_key r = Some key)
        then retrieved_chunks r else [])%list.
Proof.
  unfold Terms.chunks_filed. rewrite List.filter_app, flat_map_app.
  cbn [List.filter].
  destruct (bool_decide (Spec.contribution_key r = Some key));
    cbn [flat_map]; now rewrite ?app_nil_r.
Qed.

Lemma numbers_filed_snoc (key : string) (mt : option string)
  (done : list RetrievalResult) (r : RetrievalResult) :
  Terms.numbers_filed key mt (done ++ [r])
  = (Terms.numbers_filed key mt done
     ++ if bool_decide (Spec.contribution_key r = Some key)
           && bool_decide (metric (sub_query r) = mt)
        then Terms.numbers_of_result r else [])%list.
Proof.
  unfold Terms.numbers_filed. rewrite List.filter_app, flat_map_app.
  cbn [List.filter].
  destruct (bool_decide (Spec.contribution_key r = Some key)
            && bool_decide (metric (sub_query r) = mt));
    cbn [flat_map]; now rewrite ?app_nil_r.
Qed.

Lemma nothing_filed (key : string) (done : list RetrievalResult) :
  (forall r, In r done -> Spec.contribution_key r <> Some key) ->
  Terms.chunks_filed key done = []
  /\ forall mt, Terms.numbers_filed key mt done = [].
Proof.
  intros H. unfold Terms.chunks_filed, Terms.numbers_filed.
  induction done as [|r done IH]; [split; reflexivity |].
  cbn [List.filter].
  rewrite (bool_decide_eq_false_2 _ (H r (or_introl eq_refl))).
  cbn [andb]. apply IH. intros r' Hr'. apply H. now right.
Qed.

(** What [add_result] stores for a result that has a key. *)
Lemma add_result_entry (m : gmap string Entry) (r : RetrievalResult)
  (key : string) :
  Spec.contribution_key r = Some key ->
  exists c y,
    key = data_key c y /\ c <> EmptyString /\ y <> 0
    /\ add_result m r
       = <[key :=
             let e0 := default (new_entry c y) (m !! key) in
             fold_left (record_numbers (metric (sub_query r)))
               (retrieved_chunks r)
               (mkEntry (entry_company e0) (entry_year e0)
                  (entry_chunks e0 ++ retrieved_chunks r)
                  (entry_metrics e0))]> m.
Proof.
  intros Hk. pose proof Hk as Hk'.
  apply contribution_key_Some in Hk' as [c [y [Hc [Hy [Hcn [Hyn ->]]]]]].
  exists c, y. repeat split; try assumption.
  unfold add_result. rewrite Hc, Hy. cbn [PyStr.truthy_str PyStr.truthy_int].
  destruct (String.eqb_spec c EmptyString); [contradiction |].
  destruct (Z.eqb_spec y 0); [contradiction |]. reflexivity.
Qed.

Lemma add_result_invariant (m : gmap string Entry)
  (done : list RetrievalResult) (r : RetrievalResult) :
  Inv.calculation_data m done ->
  Inv.calculation_data (add_result m r) (done ++ [r]).
Proof.
  intros Hinv key. specialize (Hinv key) as Hkey.
  destruct (Spec.contribution_key r) as [k|] eqn:Hk.
  - destruct (add_result_entry m r k Hk) as [c [y [-> [Hc [Hy ->]]]]].
    destruct (decide (data_key c y = key)) as [<- | Hne].
    + rewrite lookup_insert_eq. cbv zeta.
      set (e0 := default (new_entry c y) (m !! data_key c y)).
      assert (He0 : data_key c y = data_key (entry_company e0) (entry_year e0)
                    /\ entry_company e0 <> EmptyString
                    /\ entry_year e0 <> 0
                    /\ entry_chunks e0
                       = Terms.chunks_filed (data_key c y) done
                    /\ forall mt,
                         entry_metrics e0 !! mt
                         = Terms.nonempty
                             (Terms.numbers_filed (data_key c y) mt done)).
      { subst e0. destruct (m !! data_key c y) as [e|]; [exact Hkey |].
        destruct (nothing_filed _ _ Hkey) as [Hch Hnum].
        cbn [default new_entry entry_company entry_year entry_chunks
             entry_metrics].
        repeat split; try assumption; [now rewrite Hch |].
        intros mt. now rewrite Hnum, lookup_empty. }
      destruct He0 as [Hd [Hcn [Hyn [Hch Hnum]]]].
      destruct (fold_record_numbers (metric (sub_query r)) (retrieved_chunks r)
                  (mkEntry (entry_company e0) (entry_year e0)
                     (entry_chunks e0 ++ retrieved_chunks r)
                     (entry_metrics e0))
                  (fun mt => Terms.numbers_filed (data_key c y) mt done)
                  Hnum)
        as [Fc [Fy [Fk Fm]]].
      cbn [entry_company entry_year entry_chunks] in Fc, Fy, Fk.
      rewrite Fc, Fy, Fk. repeat split; try assumption.
      * rewrite chunks_filed_snoc, Hk, bool_decide_eq_true_2 by reflexivity.
        now rewrite Hch.
      * intros mt. rewrite Fm, numbers_filed_snoc, Hk.
        rewrite (bool_decide_eq_true_2 (Some (data_key c y)
                                        = Some (data_key c y)))
          by reflexivity.
        reflexivity.
    + rewrite lookup_insert_ne by exact Hne.
      assert (Hno : Some (data_key c y) <> Some key) by congruence.
      destruct (m !! key) as [e|].
      * destruct Hkey as [Hd [Hcn [Hyn [Hch Hnum]]]].
        repeat split; try assumption.
        -- rewrite chunks_filed_snoc, Hk, bool_decide_eq_false_2 by exact Hno.
           now rewrite app_nil_r.
        -- intros mt. rewrite numbers_filed_snoc, Hk.
           rewrite (bool_decide_eq_false_2 _ Hno). cbn [andb].
           now rewrite app_nil_r.
      * intros r' Hr'. apply in_app_iff in Hr' as [Hr' | [<- | []]];
          [now apply Hkey | congruence].
  - rewrite (add_result_without_key m r Hk).
    destruct (m !! key) as [e|].
    + destruct Hkey as [Hd [Hcn [Hyn [Hch Hnum]]]].
      repeat split; try assumption.
      * rewrite chunks_filed_snoc, Hk, bool_decide_eq_false_2 by discriminate.
        now rewrite app_nil_r.
      * intros mt. rewrite numbers_filed_snoc, Hk.
        rewrite bool_decide_eq_false_2 by discriminate. cbn [andb].
        now rewrite app_nil_r.
    + intros r' Hr'. apply in_app_iff in Hr' as [Hr' | [<- | []]];
        [now apply Hkey | congruence].
Qed.

Lemma fold_add_result_invariant (rs : list RetrievalResult) :
  forall (m : gmap string Entry) (done : list RetrievalResult),
    Inv.calculation_data m done ->
    Inv.calculation_data (fold_left add_result rs m) (done ++ rs).
Proof.
  induction rs as [|r rs IH]; intros m done H; cbn [fold_left].
  - now rewrite app_nil_r.
  - replace (done ++ r :: rs)%list with ((done ++ [r]) ++ rs)%list
      by now rewrite <- app_assoc.
    apply IH. now apply add_result_invariant.
Qed.

Lemma extract_financial_data_invariant (results : list RetrievalResult)
  (dq : DecomposedQuery) :
  Inv.calculation_data (extract_financial_data results dq)
    (if requires_calculation dq then results else []).
Proof.
  unfold extract_financial_data.
  destruct (requires_calculation dq); cbn [negb].
  - apply (fold_add_result_invariant results ∅ []).
    intros key. rewrite lookup_empty. intros r [].
  - intros key. rewrite lookup_empty. intros r [].
Qed.

End EntryFacts.

(** X15: an entry of the calculation data is filed under the key made of
    its own company and year, which are not empty and not zero, and its
    chunks are the chunks of the retrieval results with that key, in
    retrieval order. *)
Theorem financial_data_entry :
  forall (results : list Retriever.RetrievalResult)
         (dq : QueryDecomposer.DecomposedQuery) (key : string)
         (e : Retriever.Entry),
    Retriever.extract_financial_data results dq !! key = Some e ->
    QueryDecomposer.requires_calculation dq = true
    /\ key = Retriever.data_key (Retriever.entry_company e)
               (Retriever.entry_year e)
    /\ Retriever.entry_company e <> EmptyString
    /\ Retriever.entry_year e <> 0
    /\ Retriever.entry_chunks e = Terms.chunks_filed key results.
Proof.
  intros results dq key e He.
  pose proof (extract_financial_data_invariant results dq key) as H.
  rewrite He in H. destruct H as [Hd [Hc [Hy [Hch _]]]].
  destruct (QueryDecomposer.requires_calculation dq) eqn:Hr.
  - repeat split; assumption.
  - unfold Retriever.extract_financial_data in He. rewrite Hr in He.
    cbn [negb] in He. rewrite lookup_empty in He. discriminate.
Qed.

(** X15, witness. *)
Lemma financial_data_entry_witness :
  exists e,
    Retriever.extract_financial_data Fixture.filed_results Fixture.growth_query
      !! "MSFT_2023" = Some e
    /\ QueryDecomposer.requires_calculation Fixture.growth_query = true
    /\ "MSFT_2023" = Retriever.data_key (Retriever.entry_company e)
                       (Retriever.entry_year e)
    /\ Retriever.entry_company e <> EmptyString
    /\ Retriever.entry_year e <> 0
    /\ Retriever.entry_chunks e
       = Terms.chunks_filed "MSFT_2023" Fixture.filed_results.
Proof.
  destruct (Retriever.extract_financial_data Fixture.filed_results
              Fixture.growth_query !! "MSFT_2023") as [e|] eqn:He.
  - exists e. split; [reflexivity |].
    apply (financial_data_entry Fixture.filed_results Fixture.growth_query
             "MSFT_2023" e He).
  - vm_compute in He. discriminate.
Defined.

(** X16: the metrics of an entry of the calculation data map each metric
    to the numbers found in the chunks of the results with the key of
    the entry and that metric, in retrieval order; a metric without such
    a number has no entry, so no list of numbers is empty. *)
Theorem financial_data_metrics :
  forall (results : list Retriever.RetrievalResult)
         (dq : QueryDecomposer.DecomposedQuery) (key : string)
         (e : Retriever.Entry),
    Retriever.extract_financial_data results dq !! key = Some e ->
    (forall mt,
       Retriever.entry_metrics e !! mt
       = Terms.nonempty (Terms.numbers_filed key mt results))
    /\ (forall mt numbers,
          Retriever.entry_metrics e !! mt = Some numbers -> numbers <> []).
Proof.
  intros results dq key e He.
  pose proof (extract_financial_data_invariant results dq key) as H.
  rewrite He in H. destruct H as [_ [_ [_ [_ Hm]]]].
  assert (Hr : QueryDecomposer.requires_calculation dq = true).
  { destruct (QueryDecomposer.requires_calculation dq) eqn:Hr; [reflexivity |].
    unfold Retriever.extract_financial_data in He. rewrite Hr in He.
    cbn [negb] in He. rewrite lookup_empty in He. discriminate. }
  rewrite Hr in Hm. split; [exact Hm |].
  intros mt numbers Hn. rewrite Hm in Hn.
  destruct (Terms.numbers_filed key mt results); [discriminate |].
  injection Hn as <-. discriminate.
Qed.

(** X16, witness. *)
Lemma financial_data_metrics_witness :
  exists e,
    Retriever.extract_financial_data Fixture.filed_results Fixture.growth_query
      !! "MSFT_2023" = Some e
    /\ (forall mt,
          Retriever.entry_metrics e !! mt
          = Terms.nonempty
              (Terms.numbers_filed "MSFT_2023" mt Fixture.filed_results))
    /\ (forall mt numbers,
          Retriever.entry_metrics e !! mt = Some numbers -> numbers <> []).
Proof.
  destruct (Retriever.extract_financial_data Fixture.filed_results
              Fixture.growth_query !! "MSFT_2023") as [e|] eqn:He.
  - exists e. split; [reflexivity |].
    apply (financial_data_metrics Fixture.filed_results Fixture.growth_query
             "MSFT_2023" e He).
  - vm_compute in He. discriminate.
Defined.

(** X17: processing a query never raises; it returns the decomposition,
    at most six retrieval results, the context synthesized from them,
    and calculation data exactly when the query is not SIMPLE_DIRECT; a
    decomposition without sub-queries gives no retrieval result and a
    context that holds only the two header lines. *)
Theorem process_query_fields :
  forall (b : VectorStore.Backend) (query : string),
    let dq := QueryDecomposer.decompose_query query in
    exists results,
      Retriever.retrieve_multi_step b dq = Exn.Ok results
      /\ Retriever.process_query b query
         = Exn.Ok
             (Retriever.mkContextSynthesis query dq results
                (Retriever.synthesize_context results dq)
                (QueryDecomposer.requires_calculation dq)
                (if QueryDecomposer.requires_calculation dq
                 then Some (Retriever.extract_financial_data results dq)
                 else None))
      /\ (length results <= 6)%nat
      /\ ((if QueryDecomposer.requires_calculation dq
           then Some (Retriever.extract_financial_data results dq)
           else None) = None
          <-> QueryDecomposer.dq_query_type dq = QueryDecomposer.SIMPLE_DIRECT)
      /\ (QueryDecomposer.sub_queries dq = [] ->
          results = []
          /\ Retriever.synthesize_context results dq
             = Terms.context_header dq).
Proof.
  intros b query dq.
  destruct (retrieve_sub_queries_results b (QueryDecomposer.sub_queries dq))
    as [results [Hres [Hsq _]]].
  exists results. split; [exact Hres |].
  split.
  { unfold Retriever.process_query. fold dq.
    unfold Retriever.retrieve_multi_step in Hres |- *. rewrite Hres.
    reflexivity. }
  split.
  { destruct (sub_queries_split query)
      as [retrieval [calculation [Heq [Hr [Hlen Hc]]]]].
    fold dq in Heq. rewrite Heq, (retrievable_split _ _ Hr Hc) in Hsq.
    rewrite <- (length_map Retriever.sub_query), Hsq. exact Hlen. }
  split.
  { pose proof (requires_calculation_iff query) as H.
    fold dq in H. rewrite <- H.
    destruct (QueryDecomposer.requires_calculation dq);
      split; (reflexivity || discriminate). }
  intros Hnil. rewrite Hnil in Hsq. cbn [List.filter] in Hsq.
  apply map_eq_nil in Hsq. subst results. split; [reflexivity |].
  unfold Retriever.synthesize_context, Retriever.context_parts,
    Retriever.rendered_chunks, Retriever.ranked_chunks,
    Retriever.dedup_chunks, Terms.context_header.
  cbn. now rewrite string_append_nil_r.
Qed.

(** ** Search with several queries *)

Section MultiSearchFacts.

Import Exn QueryDecomposer VectorStore Retriever MultiSearch.

Lemma found_search (b : Backend) (top_k : Z) (cf : option string)
  (yf : option Z) (query : string) :
  similarity_search b query top_k cf yf None
  = Ok (Terms.found b top_k cf yf query).
Proof.
  unfold Terms.found.
  destruct (similarity_search_total b query top_k cf yf None) as [chunks H].
  now rewrite H.
Qed.

Lemma dedup_chunk_steps (query : string) (chunks : list Chunk) :
  forall st,
    fold_left (dedup_chunk query) chunks st
    = fold_left Aux.dedup_step
        (map (fun chunk => mkTaggedChunk chunk query) chunks) st.
Proof. induction chunks as [|c cs IH]; intros st; simpl; auto. Qed.

Lemma search_queries_steps (b : Backend) (top_k : Z) (cf : option string)
  (yf : option Z) (queries : list string) :
  forall st,
    search_queries b queries top_k cf yf st
    = Ok (fold_left Aux.dedup_step (Terms.query_hits b top_k cf yf queries)
            st).
Proof.
  induction queries as [|q qs IH]; intros st; [reflexivity |].
  cbn [search_queries]. rewrite found_search.
  unfold Terms.query_hits. cbn [flat_map]. rewrite fold_left_app.
  fold (Terms.query_hits b top_k cf yf qs).
  rewrite <- dedup_chunk_steps. apply IH.
Qed.

Lemma multi_query_search_sorted (b : Backend) (top_k : Z)
  (cf : option string) (yf : option Z) (queries : list string) :
  multi_query_search b queries top_k cf yf
  = Ok (sort_by_score
          (fst (Aux.dedup_tagged (Terms.query_hits b top_k cf yf queries)))).
Proof.
  unfold multi_query_search. rewrite search_queries_steps. reflexivity.
Qed.

Lemma retrieve_queries (b : Backend) (cf : option string) (yf : option Z)
  (queries : list string) :
  exists results,
    retrieve_sub_queries b (map (Terms.query_sub_query cf yf) queries)
    = Ok results
    /\ Spec.tagged_chunks results
       = Terms.query_hits b default_top_k cf yf queries.
Proof.
  induction queries as [|q qs [results [IH Htag]]].
  - exists []. split; reflexivity.
  - cbn [map retrieve_sub_queries Terms.query_sub_query query_type
         QueryType_eqb].
    unfold retrieve_for_sub_query.
    cbn [text company year section_hint].
    rewrite found_search. fold (Terms.query_sub_query cf yf q).
    change (map (λ query : string,
                   mkSubQuery query SIMPLE_DIRECT cf yf None None) qs)
      with (map (Terms.query_sub_query cf yf) qs).
    rewrite IH. eexists. split; [reflexivity |].
    unfold Spec.tagged_chunks, Terms.query_hits in Htag |- *.
    cbn [flat_map retrieved_chunks sub_query text Terms.query_sub_query].
    now rewrite Htag.
Qed.

End MultiSearchFacts.

(** X18: a search with several queries never raises; of the chunks the
    searches return it keeps, for every chunk id, the first chunk in
    search order, tagged with the query that found it, and returns these
    sorted by score. *)
Theorem multi_query_search_first_hits :
  forall (b : VectorStore.Backend) (queries : list string) (top_k : Z)
         (company_filter : option string) (year_filter : option Z),
    exists kept,
      MultiSearch.multi_query_search b queries top_k company_filter year_filter
      = Exn.Ok (Retriever.sort_by_score kept)
      /\ Spec.first_occurrences
           (Terms.query_hits b top_k company_filter year_filter queries) kept
      /\ Forall (fun query =>
                   VectorStore.similarity_search b query top_k company_filter
                     year_filter None
                   = Exn.Ok (Terms.found b top_k company_filter year_filter
                               query))
                queries.
Proof.
  intros b queries top_k cf yf.
  exists (fst (Aux.dedup_tagged (Terms.query_hits b top_k cf yf queries))).
  split; [apply multi_query_search_sorted |].
  split; [apply dedup_tagged_first_occurrences |].
  apply Forall_forall. intros q _. apply found_search.
Qed.

(** X19: the result of a search with several queries holds no chunk id
    twice and only chunks that a search returned, and its scores descend
    when no score is a NaN. *)
Theorem multi_query_search_ranking :
  forall (b : VectorStore.Backend) (queries : list string) (top_k : Z)
         (company_filter : option string) (year_filter : option Z),
    exists hits,
      MultiSearch.multi_query_search b queries top_k company_filter year_filter
      = Exn.Ok hits
      /\ NoDup (map Spec.tc_id hits)
      /\ (forall hit, In hit hits ->
            In hit (Terms.query_hits b top_k company_filter year_filter
                      queries))
      /\ (Forall (fun c => PrimFloat.is_nan (Retriever.tc_score c) = false)
                 (Terms.query_hits b top_k company_filter year_filter queries)
          -> Spec.descending hits).
Proof.
  intros b queries top_k cf yf.
  set (all := Terms.query_hits b top_k cf yf queries).
  set (kept := fst (Aux.dedup_tagged all)).
  destruct (dedup_tagged_first_occurrences all) as [Hnd [Hsub _]].
  fold kept in Hnd, Hsub.
  exists (Retriever.sort_by_score kept).
  split; [apply multi_query_search_sorted |].
  split.
  { rewrite (sort_by_score_perm kept). exact Hnd. }
  split.
  { intros hit Hin.
    apply (Permutation_in _ (sort_by_score_perm kept)) in Hin.
    apply list_elem_of_In. eapply elem_of_sublist; [| exact Hsub].
    now apply list_elem_of_In. }
  intros Hnan. apply sort_by_score_descending.
  apply Forall_forall. intros c Hc.
  rewrite Forall_forall in Hnan. apply Hnan.
  eapply elem_of_sublist; [exact Hc | exact Hsub].
Qed.

(** X20: with five hits per query, a search with several queries
    returns the chunks that multi-step retrieval and context synthesis
    rank for the same queries taken as sub-queries. *)
Theorem multi_query_search_as_retrieval :
  forall (b : VectorStore.Backend) (queries : list string)
         (company_filter : option string) (year_filter : option Z),
    exists results,
      Retriever.retrieve_sub_queries b
        (map (Terms.query_sub_query company_filter year_filter) queries)
      = Exn.Ok results
      /\ MultiSearch.multi_query_search b queries Retriever.default_top_k
           company_filter year_filter
         = Exn.Ok (Retriever.ranked_chunks results).
Proof.
  intros b queries cf yf.
  destruct (retrieve_queries b cf yf queries) as [results [Hres Htag]].
  exists results. split; [exact Hres |].
  rewrite multi_query_search_sorted. unfold Retriever.ranked_chunks.
  now rewrite dedup_chunks_tagged, Htag.
Qed.

(** ** Collection management *)

Ltac eff_unfold :=
  unfold mbind, eff_bind, Eff.bind, mret, eff_ret, Eff.ret, Eff.try_except,
    Eff.lift.

Section CollectionFacts.

Import Exn PyVal VectorStore Collection.

Context {W : Type}.

(** A [try] whose handler returns a value never raises. *)
Lemma try_except_returns {A : Type} (body : Eff.M W A) (a0 : A) (w : W) :
  exists a w', Eff.try_except body (fun _ => mret a0) w = (Ok a, w').
Proof.
  eff_unfold. destruct (body w) as [[a | e] w']; eauto.
Qed.

Lemma create_collection_cases (self : Store W) (w : W) :
  create_collection self w
  = match get_collections (client self) w with
    | (Ok names, w1) =>
        if PyStr.mem (collection_name self) names then (Ok false, w1)
        else
          match client_create_collection (client self) (collection_name self)
                  (embedding_dim self) COSINE w1 with
          | (Ok _, w2) => (Ok true, w2)
          | (Raise _, w2) => (Ok false, w2)
          end
    | (Raise _, w1) => (Ok false, w1)
    end.
Proof.
  unfold create_collection. eff_unfold.
  destruct (get_collections (client self) w) as [[names | e] w1];
    [| reflexivity].
  destruct (PyStr.mem (collection_name self) names); cbn [negb];
    [reflexivity |].
  destruct (client_create_collection _ _ _ _ w1) as [[[] | e] w2];
    reflexivity.
Qed.

Lemma delete_collection_cases (self : Store W) (w : W) :
  delete_collection self w
  = match client_delete_collection (client self) (collection_name self) w with
    | (Ok _, w1) => (Ok true, w1)
    | (Raise _, w1) => (Ok false, w1)
    end.
Proof.
  unfold delete_collection. eff_unfold.
  destruct (client_delete_collection _ _ w) as [[[] | e] w1]; reflexivity.
Qed.

End CollectionFacts.

(** X21: creating and deleting the collection never raise.  Creation
    lists the collections first: a name that is listed is not created
    again, and the result is [True] only when the name was not listed and
    the client created it.  Deletion returns [True] exactly when the
    client call returns. *)
Theorem create_and_delete_collection :
  forall (W : Type) (self : Collection.Store W) (w : W),
    (exists ok w', Collection.create_collection self w = (Exn.Ok ok, w'))
    /\ (forall names w1,
          Collection.get_collections (Collection.client self) w
          = (Exn.Ok names, w1) ->
          In (Collection.collection_name self) names ->
          Collection.create_collection self w = (Exn.Ok false, w1))
    /\ (forall w',
          Collection.create_collection self w = (Exn.Ok true, w') ->
          exists names w1,
            Collection.get_collections (Collection.client self) w
            = (Exn.Ok names, w1)
            /\ ~ In (Collection.collection_name self) names
            /\ Collection.client_create_collection (Collection.client self)
                 (Collection.collection_name self)
                 (Collection.embedding_dim self) Collection.COSINE w1
               = (Exn.Ok tt, w'))
    /\ (exists ok w', Collection.delete_collection self w = (Exn.Ok ok, w'))
    /\ (forall w',
          Collection.delete_collection self w = (Exn.Ok true, w')
          <-> Collection.client_delete_collection (Collection.client self)
                (Collection.collection_name self) w
              = (Exn.Ok tt, w')).
Proof.
  intros W self w.
  split; [apply try_except_returns |].
  split.
  { intros names w1 Hg Hin. rewrite create_collection_cases, Hg.
    apply mem_iff in Hin. now rewrite Hin. }
  split.
  { intros w'. rewrite create_collection_cases.
    destruct (Collection.get_collections _ w) as [[names | e] w1];
      [| discriminate].
    destruct (PyStr.mem _ names) eqn:Hm; [discriminate |].
    destruct (Collection.client_create_collection _ _ _ _ w1)
      as [[[] | e] w2] eqn:Hc; [| discriminate].
    intros [= <-]. exists names, w1. split; [reflexivity |].
    split; [| exact Hc].
    intros Hin. apply mem_iff in Hin. congruence. }
  split; [apply try_except_returns |].
  intros w'. rewrite delete_collection_cases.
  destruct (Collection.client_delete_collection _ _ w) as [[[] | e] w1].
  - split; intros [= <-]; reflexivity.
  - split; discriminate.
Qed.

Section BatchFacts.

Import Exn PyVal VectorStore Collection.

Lemma range_len_bounds (n : nat) :
  let m := Z.to_nat (range_len 0 (Z.of_nat n) batch_size) in
  (n <= 100 * m)%nat
  /\ (forall k, (k < m)%nat -> (100 * k < n)%nat)
  /\ Z.of_nat m = (Z.of_nat n + 99) / 100.
Proof.
  unfold range_len, batch_size.
  destruct (0 <? Z.of_nat n) eqn:Hn.
  - apply Z.ltb_lt in Hn. cbv zeta.
    assert (Hm : 0 <= 1 + (Z.of_nat n - 1 - 0) / 100).
    { Z.div_mod_to_equations. lia. }
    split; [| split].
    + apply Nat2Z.inj_le. rewrite Nat2Z.inj_mul, Z2Nat.id by exact Hm.
      Z.div_mod_to_equations. lia.
    + intros k Hk. apply Nat2Z.inj_lt in Hk. rewrite Z2Nat.id in Hk by exact Hm.
      apply Nat2Z.inj_lt. rewrite Nat2Z.inj_mul.
      revert Hk. Z.div_mod_to_equations. lia.
    + rewrite Z2Nat.id by exact Hm. Z.div_mod_to_equations. lia.
  - apply Z.ltb_ge in Hn. cbv zeta. cbn [Z.to_nat].
    assert (n = 0%nat) as -> by lia.
    split; [lia | split; [intros k Hk; lia | reflexivity]].
Qed.

Lemma batches_by_index {A : Type} (l : list A) (m : nat) :
  map (fun i => slice l i (i + batch_size))
      (map (fun k => 0 + Z.of_nat k * batch_size) (seq 0 m))
  = map (fun k => take 100 (drop (100 * k) l)) (seq 0 m).
Proof.
  rewrite map_map. apply map_ext. intros k. unfold slice, batch_size.
  f_equal; [lia |]. f_equal. lia.
Qed.

Lemma concat_batches {A : Type} (m : nat) :
  forall l : list A,
    (length l <= 100 * m)%nat ->
    concat (map (fun k => take 100 (drop (100 * k) l)) (seq 0 m)) = l.
Proof.
  induction m as [|m IH]; intros l Hl.
  - destruct l; [reflexivity | simpl in Hl; lia].
  - cbn [seq map concat]. rewrite <- seq_shift, map_map.
    change (drop (100 * 0) l) with l.
    transitivity (take 100 l ++ drop 100 l)%list; [| apply take_drop].
    f_equal. etransitivity; [| apply (IH (drop 100 l))].
    + f_equal. apply map_ext. intros k. f_equal. rewrite drop_drop.
      f_equal. lia.
    + rewrite length_drop. lia.
Qed.

Lemma batch_sizes {A : Type} (l : list A) (m : nat) :
  (forall k, (k < m)%nat -> (100 * k < length l)%nat) ->
  Forall (fun batch : list A => (1 <= length batch <= 100)%nat)
         (map (fun k => take 100 (drop (100 * k) l)) (seq 0 m)).
Proof.
  intros H. apply Forall_map, Forall_forall. intros k Hk.
  apply list_elem_of_In, in_seq in Hk.
  rewrite length_take, length_drop. specialize (H k). lia.
Qed.

End BatchFacts.

(** X22: the batches that [store_chunks] upserts hold every point once,
    in order; each batch holds between 1 and 100 points, and there are
    as many batches as the hundreds needed for the points. *)
Theorem batches_partition :
  forall points : list Collection.PointStruct,
    concat (Collection.batches points) = points
    /\ Forall (fun batch : list Collection.PointStruct =>
                 (1 <= length batch <= 100)%nat)
              (Collection.batches points)
    /\ Z.of_nat (length (Collection.batches points))
       = (Z.of_nat (length points) + 99) / 100.
Proof.
  intros points. unfold Collection.batches, Collection.py_range.
  destruct (range_len_bounds (length points)) as [Hle [Hlt Hm]].
  cbv zeta in Hle, Hlt, Hm. rewrite batches_by_index.
  split; [now apply concat_batches |].
  split; [now apply batch_sizes |].
  now rewrite length_map, length_seq.
Qed.

Section StoreFacts.

Import Exn PyVal VectorStore Collection.

Context {W : Type}.

Lemma make_points_fields (cl : Client W)
  (pairs : list (DocumentChunker.DocumentChunk * Embedding)) :
  forall w points w',
    make_points cl pairs w = (Ok points, w') ->
    map payload points = map (fun ce => payload_of_chunk (fst ce)) pairs
    /\ map vector points = map snd pairs.
Proof.
  induction pairs as [|[chunk embedding] pairs IH]; intros w points w'.
  - cbn [make_points]. eff_unfold. intros [= <- <-]. split; reflexivity.
  - cbn [make_points]. eff_unfold.
    destruct (uuid4 cl w) as [[new_id | e] w1]; [| discriminate].
    specialize (IH w1).
    destruct (make_points cl pairs w1) as [[rest | e] w2]; [| discriminate].
    intros [= <- <-]. destruct (IH rest w2 eq_refl) as [Hp Hv].
    cbn [map payload vector fst snd]. now rewrite Hp, Hv.
Qed.

Lemma store_chunks_cases (self : Store W)
  (chunks : list DocumentChunker.DocumentChunk) (w : W) :
  let embeddings :=
    generate_embeddings (embedding_model self)
      (map DocumentChunker.content chunks) in
  store_chunks self chunks w
  = match chunks with
    | [] => (Ok true, w)
    | _ =>
        if negb (length embeddings =? length chunks)%nat then (Ok false, w)
        else
          match make_points (client self) (zip chunks embeddings) w with
          | (Ok points, w1) =>
              match upsert_batches self (batches points) w1 with
              | (Ok _, w2) => (Ok true, w2)
              | (Raise _, w2) => (Ok false, w2)
              end
          | (Raise _, w1) => (Ok false, w1)
          end
    end.
Proof.
  cbv zeta. unfold store_chunks. eff_unfold.
  destruct chunks as [|chunk chunks]; [reflexivity |].
  destruct (negb (_ =? _)%nat); [reflexivity |].
  destruct (make_points _ _ w) as [[points | e] w1]; [| reflexivity].
  destruct (upsert_batches _ _ w1) as [[[] | e] w2]; reflexivity.
Qed.

End StoreFacts.

(** X23: storing chunks never raises.  Without chunks it returns [True]
    and makes no call; when the embedding model does not return one
    embedding per chunk, for instance because it raises, it returns
    [False] and makes no call; it returns [True] only when every batch
    was upserted, the points carrying the payload of each chunk and its
    embedding, in order. *)
Theorem store_chunks_outcomes :
  forall (W : Type) (self : Collection.Store W)
         (chunks : list DocumentChunker.DocumentChunk) (w : W),
    let embeddings :=
      VectorStore.generate_embeddings (Collection.embedding_model self)
        (map DocumentChunker.content chunks) in
    (exists ok w', Collection.store_chunks self chunks w = (Exn.Ok ok, w'))
    /\ (chunks = [] -> Collection.store_chunks self chunks w = (Exn.Ok true, w))
    /\ (chunks <> [] ->
        length embeddings <> length chunks ->
        Collection.store_chunks self chunks w = (Exn.Ok false, w))
    /\ (forall e,
          chunks <> [] ->
          VectorStore.encode (Collection.embedding_model self)
            (map DocumentChunker.content chunks) = Exn.Raise e ->
          Collection.store_chunks self chunks w = (Exn.Ok false, w))
    /\ (forall w',
          chunks <> [] ->
          Collection.store_chunks self chunks w = (Exn.Ok true, w') ->
          exists points w1,
            Collection.make_points (Collection.client self)
              (zip chunks embeddings) w = (Exn.Ok points, w1)
            /\ Collection.upsert_batches self (Collection.batches points) w1
               = (Exn.Ok tt, w')
            /\ map Collection.payload points
               = map Collection.payload_of_chunk chunks
            /\ map Collection.vector points = embeddings).
Proof.
  intros W self chunks w embeddings.
  assert (Hmis : chunks <> [] ->
                 length embeddings <> length chunks ->
                 Collection.store_chunks self chunks w = (Exn.Ok false, w)).
  { intros Hne Hlen. rewrite store_chunks_cases. fold embeddings.
    destruct chunks as [|chunk chunks]; [contradiction |].
    apply Nat.eqb_neq in Hlen. now rewrite Hlen. }
  split; [apply try_except_returns |].
  split; [intros ->; reflexivity |].
  split; [exact Hmis |].
  split.
  { intros e Hne He. apply Hmis; [exact Hne |]. subst embeddings.
    unfold VectorStore.generate_embeddings. rewrite He.
    destruct chunks; [contradiction | discriminate]. }
  intros w' Hne. rewrite store_chunks_cases. fold embeddings.
  destruct chunks as [|chunk chunks]; [contradiction |].
  destruct (length embeddings =? length (chunk :: chunks))%nat eqn:Hlen;
    cbn [negb]; [| discriminate].
  apply Nat.eqb_eq in Hlen.
  destruct (Collection.make_points _ _ w) as [[points | e] w1] eqn:Hmake;
    [| discriminate].
  destruct (Collection.upsert_batches _ _ w1) as [[[] | e] w2] eqn:Hup;
    [| discriminate].
  intros [= <-]. exists points, w1.
  split; [reflexivity |]. split; [exact Hup |].
  destruct (make_points_fields _ _ _ _ _ Hmake) as [Hp Hv].
  split.
  - rewrite Hp, <- (map_map fst Collection.payload_of_chunk).
    f_equal. apply fst_zip. lia.
  - rewrite Hv. apply snd_zip. lia.
Qed.

Section SpyFacts.

Import Exn PyVal VectorStore Collection Fixture.

Lemma spy_make_points
  (pairs : list (DocumentChunker.DocumentChunk * Embedding)) :
  forall w,
    make_points spy_client pairs w
    = (Ok (spy_points (next_id w) pairs),
       mkSpy (next_id w + length pairs) (upserts w)).
Proof.
  induction pairs as [|[chunk embedding] pairs IH]; intros w.
  - cbn [make_points spy_points length]. eff_unfold.
    rewrite Nat.add_0_r. now destruct w.
  - cbn [make_points spy_points length]. eff_unfold.
    cbn [uuid4 spy_client]. rewrite IH. cbn [next_id upserts].
    f_equal. f_equal. lia.
Qed.

Lemma spy_upsert_batches (self : Store Spy) (bs : list (list PointStruct)) :
  client self = spy_client ->
  forall w,
    upsert_batches self bs w
    = (Ok tt,
       mkSpy (next_id w)
         (upserts w ++ map (pair (collection_name self)) bs)).
Proof.
  intros Hcl. induction bs as [|batch bs IH]; intros w.
  - cbn [upsert_batches map]. eff_unfold. rewrite app_nil_r. now destruct w.
  - cbn [upsert_batches map]. eff_unfold. rewrite Hcl.
    cbn [upsert spy_client]. rewrite IH. cbn [next_id upserts].
    now rewrite <- app_assoc.
Qed.

End SpyFacts.

(** X24: on a client that accepts every call and records the upserts, a
    store of chunks that got one embedding per chunk returns [True],
    takes one identifier per chunk and makes one upsert call per batch on
    the collection of the store; the batches, put end to end, are one
    point per chunk, in the order of the chunks, with the payload of the
    chunk and its embedding. *)
Theorem store_chunks_upserts_every_chunk :
  forall (name : string) (dim : Z) (b : VectorStore.Backend)
         (chunks : list DocumentChunker.DocumentChunk) (w : Fixture.Spy),
    let embeddings :=
      VectorStore.generate_embeddings b (map DocumentChunker.content chunks) in
    length embeddings = length chunks ->
    exists w' bs,
      Collection.store_chunks
        (Collection.mkStore name dim b Fixture.spy_client) chunks w
      = (Exn.Ok true, w')
      /\ Fixture.next_id w' = (Fixture.next_id w + length chunks)%nat
      /\ Fixture.upserts w' = (Fixture.upserts w ++ map (pair name) bs)%list
      /\ concat bs
         = Fixture.spy_points (Fixture.next_id w) (zip chunks embeddings)
      /\ map Collection.payload (concat bs)
         = map Collection.payload_of_chunk chunks
      /\ Forall (fun batch : list Collection.PointStruct =>
                   (1 <= length batch <= 100)%nat) bs.
Proof.
  intros name dim b chunks w embeddings Hlen.
  set (self := Collection.mkStore name dim b Fixture.spy_client).
  set (points := Fixture.spy_points (Fixture.next_id w)
                   (zip chunks embeddings)).
  assert (Hcat : concat (Collection.batches points) = points
                 /\ Forall (fun batch : list Collection.PointStruct =>
                              (1 <= length batch <= 100)%nat)
                           (Collection.batches points)).
  { unfold Collection.batches, Collection.py_range.
    destruct (range_len_bounds (length points)) as [Hle [Hlt _]].
    cbv zeta in Hle, Hlt. rewrite batches_by_index.
    split; [now apply concat_batches | now apply batch_sizes]. }
  destruct Hcat as [Hcat Hsize].
  assert (Hpay : map Collection.payload points
                 = map Collection.payload_of_chunk chunks).
  { pose proof (spy_make_points (zip chunks embeddings) w) as Hmake.
    destruct (make_points_fields _ _ _ _ _ Hmake) as [Hp _].
    subst points. rewrite Hp, <- (map_map fst Collection.payload_of_chunk).
    f_equal. apply fst_zip. lia. }
  destruct chunks as [|chunk chunks].
  - exists w, []. cbn. rewrite Nat.add_0_r, app_nil_r.
    repeat split; constructor.
  - exists (Fixture.mkSpy (Fixture.next_id w + length (chunk :: chunks))
              (Fixture.upserts w
               ++ map (pair name) (Collection.batches points))),
           (Collection.batches points).
    split.
    { rewrite store_chunks_cases.
      cbn [Collection.embedding_model Collection.client self].
      fold embeddings. rewrite Hlen, Nat.eqb_refl. cbn [negb].
      rewrite spy_make_points. fold points.
      rewrite (spy_upsert_batches self _ eq_refl).
      cbn [Fixture.next_id Fixture.upserts Collection.collection_name self].
      rewrite length_zip, Hlen, Nat.min_id. reflexivity. }
    cbn [Fixture.next_id Fixture.upserts].
    split; [reflexivity |]. split; [reflexivity |].
    split; [exact Hcat |]. split; [now rewrite Hcat | exact Hsize].
Qed.

(** X24, witness. *)
Lemma store_chunks_upserts_every_chunk_witness :
  exists w' bs,
    Collection.store_chunks
      (Collection.mkStore "financial_documents" 384 Sample.empty_backend
         Fixture.spy_client)
      [Fixture.document_chunk] (Fixture.mkSpy 0 [])
    = (Exn.Ok true, w')
    /\ Fixture.next_id w' = (0 + 1)%nat
    /\ Fixture.upserts w' = ([] ++ map (pair "financial_documents") bs)%list
    /\ concat bs
       = Fixture.spy_points 0
           (zip [Fixture.document_chunk]
              (VectorStore.generate_embeddings Sample.empty_backend
                 (map DocumentChunker.content [Fixture.document_chunk])))
    /\ map Collection.payload (concat bs)
       = map Collection.payload_of_chunk [Fixture.document_chunk]
    /\ Forall (fun batch : list Collection.PointStruct =>
                 (1 <= length batch <= 100)%nat) bs.
Proof.
  apply (store_chunks_upserts_every_chunk "financial_documents" 384
           Sample.empty_backend [Fixture.document_chunk]
           (Fixture.mkSpy 0 [])).
  reflexivity.
Defined.

(** ** Collection statistics *)

Section StatsFacts.

Import Exn PyVal VectorStore Collection.

Lemma occurrences_snoc (k : Scalar) (vs : list Value) (v : Value) :
  Terms.occurrences k (vs ++ [v])
  = Terms.occurrences k vs + if bool_decide (v = Atom k) then 1 else 0.
Proof.
  unfold Terms.occurrences. rewrite List.filter_app, length_app.
  cbn [List.filter]. destruct (bool_decide (v = Atom k)); cbn [length]; lia.
Qed.

Lemma occurrences_nonneg (k : Scalar) (vs : list Value) :
  0 <= Terms.occurrences k vs.
Proof. unfold Terms.occurrences. lia. Qed.

Lemma default_count_of (k : Scalar) (vs : list Value) :
  default 0 (Terms.count_of k vs) = Terms.occurrences k vs.
Proof.
  unfold Terms.count_of.
  destruct (Z.eqb_spec (Terms.occurrences k vs) 0) as [-> | _]; reflexivity.
Qed.

Lemma tally_counts (counts counts' : gmap Scalar Z) (v : Value)
  (vs : list Value) :
  tally counts v = Ok counts' ->
  Inv.counts_of counts vs -> Inv.counts_of counts' (vs ++ [v]).
Proof.
  unfold tally. destruct v as [a | d]; [| discriminate].
  cbn. intros [= <-] H k.
  unfold Terms.count_of. rewrite occurrences_snoc.
  pose proof (occurrences_nonneg k vs) as Hk.
  destruct (decide (a = k)) as [-> | Hne].
  - rewrite lookup_insert_eq, H, default_count_of.
    rewrite bool_decide_eq_true_2 by reflexivity.
    destruct (Z.eqb_spec (Terms.occurrences k vs + 1) 0); [lia | reflexivity].
  - rewrite lookup_insert_ne by exact Hne.
    rewrite bool_decide_eq_false_2 by congruence.
    rewrite Z.add_0_r. apply H.
Qed.

Lemma payload_get_field (point : ScrolledPoint) (key : string)
  (dflt v : Value) :
  payload_get point key dflt = Ok v ->
  scrolled_payload point <> None /\ v = Terms.field key dflt point.
Proof.
  unfold payload_get, Terms.field.
  destruct (scrolled_payload point); [| discriminate].
  intros [= <-]. split; [discriminate | reflexivity].
Qed.

Lemma analyze_points_counts (points : list ScrolledPoint) :
  forall (acc d : Distributions) (cs ys ss : list Value),
    analyze_points acc points = Ok d ->
    Inv.counts_of (companies acc) cs ->
    Inv.counts_of (years acc) ys ->
    Inv.counts_of (sections acc) ss ->
    Inv.counts_of (companies d) (cs ++ Terms.company_values points)
    /\ Inv.counts_of (years d) (ys ++ Terms.year_values points)
    /\ Inv.counts_of (sections d) (ss ++ Terms.section_values points)
    /\ Forall (fun point => scrolled_payload point <> None) points.
Proof.
  induction points as [|point points IH]; intros acc d cs ys ss.
  - cbn. intros [= <-] Hc Hy Hs. rewrite !app_nil_r. repeat split; auto.
  - cbn [analyze_points]. unfold analyze_point.
    destruct (payload_get point "company" _) as [company | e] eqn:Hpc;
      [| discriminate].
    apply payload_get_field in Hpc as [Hsome ->].
    cbn [mbind result_bind Exn.bind].
    destruct (tally (companies acc) _) as [companies' | e] eqn:Htc;
      [| discriminate].
    cbn [mbind result_bind Exn.bind].
    destruct (payload_get point "year" _) as [year | e] eqn:Hpy;
      [| discriminate].
    apply payload_get_field in Hpy as [_ ->].
    cbn [mbind result_bind Exn.bind].
    destruct (tally (years acc) _) as [years' | e] eqn:Hty; [| discriminate].
    cbn [mbind result_bind Exn.bind].
    destruct (payload_get point "section" _) as [section | e] eqn:Hps;
      [| discriminate].
    apply payload_get_field in Hps as [_ ->].
    cbn [mbind result_bind Exn.bind].
    destruct (truthy (Terms.field "section" (Atom SNone) point)) eqn:Htr.
    + destruct (tally (sections acc) _) as [sections' | e] eqn:Hts;
        [| discriminate].
      cbn [mbind result_bind Exn.bind mret result_ret].
      intros Hd Hc Hy Hs.
      destruct (IH _ d
                  (cs ++ [Terms.field "company" (Atom (SStr "Unknown"))
                            point])%list
                  (ys ++ [Terms.field "year" (Atom (SInt 0)) point])%list
                  (ss ++ [Terms.field "section" (Atom SNone) point])%list
                  Hd)
        as [Ic [Iy [Is Ip]]];
        cbn [companies years sections];
        try (eapply tally_counts; eassumption).
      unfold Terms.company_values, Terms.year_values, Terms.section_values
        in Ic, Iy, Is |- *.
      cbn [map List.filter]. rewrite Htr.
      rewrite <- !app_assoc in Ic, Iy, Is. repeat split; auto.
    + cbn [mbind result_bind Exn.bind mret result_ret].
      intros Hd Hc Hy Hs.
      destruct (IH _ d
                  (cs ++ [Terms.field "company" (Atom (SStr "Unknown"))
                            point])%list
                  (ys ++ [Terms.field "year" (Atom (SInt 0)) point])%list
                  ss Hd)
        as [Ic [Iy [Is Ip]]];
        cbn [companies years sections];
        try (eapply tally_counts; eassumption); try assumption.
      unfold Terms.company_values, Terms.year_values, Terms.section_values
        in Ic, Iy, Is |- *.
      cbn [map List.filter]. rewrite Htr.
      rewrite <- !app_assoc in Ic, Iy. repeat split; auto.
Qed.

End StatsFacts.

Section StoredFacts.

Import Exn PyVal VectorStore Collection.

Lemma stored_company (chunk : DocumentChunker.DocumentChunk) :
  payload_of_chunk chunk !! "company"
  = Some (Atom (SStr (DocumentChunker.company chunk))).
Proof. vm_compute. reflexivity. Qed.

Lemma stored_year (chunk : DocumentChunker.DocumentChunk) :
  payload_of_chunk chunk !! "year"
  = Some (Atom (SInt (DocumentChunker.year chunk))).
Proof. vm_compute. reflexivity. Qed.

Lemma stored_section (chunk : DocumentChunker.DocumentChunk) :
  payload_of_chunk chunk !! "section"
  = Some (of_opt_str (DocumentChunker.section chunk)).
Proof. vm_compute. reflexivity. Qed.

Lemma analyze_stored (chunks : list DocumentChunker.DocumentChunk) :
  forall acc, exists d, analyze_points acc (map Terms.stored chunks) = Ok d.
Proof.
  induction chunks as [|chunk chunks IH]; intros acc.
  - exists acc. reflexivity.
  - cbn [map analyze_points]. unfold analyze_point, payload_get.
    cbn [Terms.stored scrolled_payload].
    rewrite stored_company, stored_year, stored_section.
    unfold tally.
    cbn [default from_option id mbind result_bind Exn.bind hashable mret
         result_ret].
    destruct (DocumentChunker.section chunk) as [s|];
      cbn [of_opt_str truthy negb hashable mbind result_bind Exn.bind mret
           result_ret].
    + destruct (negb (s =? "")%string);
        cbn [hashable mbind result_bind Exn.bind mret result_ret]; apply IH.
    + apply IH.
Qed.

Lemma stored_values (chunks : list DocumentChunker.DocumentChunk) :
  Terms.company_values (map Terms.stored chunks)
  = map (fun chunk => Atom (SStr (DocumentChunker.company chunk))) chunks
  /\ Terms.year_values (map Terms.stored chunks)
     = map (fun chunk => Atom (SInt (DocumentChunker.year chunk))) chunks
  /\ Terms.section_values (map Terms.stored chunks)
     = List.filter truthy
         (map (fun chunk => of_opt_str (DocumentChunker.section chunk)) chunks).
Proof.
  unfold Terms.company_values, Terms.year_values, Terms.section_values.
  rewrite !map_map. repeat split; try f_equal; apply map_ext; intros chunk;
    unfold Terms.field; cbn [Terms.stored scrolled_payload];
    now rewrite ?stored_company, ?stored_year, ?stored_section.
Qed.

End StoredFacts.

(** X25: when the analysis of the scrolled points does not raise, every
    point has a payload, and the three distributions hold, for every
    key, the number of points whose company (or "Unknown"), year (or 0)
    or truthy section is that key; a key that no point has is not in the
    distribution. *)
Theorem analyze_points_tallies :
  forall (points : list Collection.ScrolledPoint)
         (d : Collection.Distributions),
    Collection.analyze_points Collection.no_distributions points = Exn.Ok d ->
    (forall k,
       Collection.companies d !! k
       = Terms.count_of k (Terms.company_values points))
    /\ (forall k,
          Collection.years d !! k
          = Terms.count_of k (Terms.year_values points))
    /\ (forall k,
          Collection.sections d !! k
          = Terms.count_of k (Terms.section_values points))
    /\ Forall (fun point => Collection.scrolled_payload point <> None) points.
Proof.
  intros points d Hd.
  assert (Hempty : Inv.counts_of ∅ []).
  { intros k. rewrite lookup_empty. reflexivity. }
  destruct (analyze_points_counts points Collection.no_distributions d [] [] []
              Hd Hempty Hempty Hempty) as [Hc [Hy [Hs Hp]]].
  repeat split; assumption.
Qed.

(** X25, witness. *)
Lemma analyze_points_tallies_witness :
  exists d,
    Collection.analyze_points Collection.no_distributions
      [Terms.stored Fixture.document_chunk] = Exn.Ok d
    /\ (forall k,
          Collection.companies d !! k
          = Terms.count_of k
              (Terms.company_values [Terms.stored Fixture.document_chunk]))
    /\ (forall k,
          Collection.years d !! k
          = Terms.count_of k
              (Terms.year_values [Terms.stored Fixture.document_chunk]))
    /\ (forall k,
          Collection.sections d !! k
          = Terms.count_of k
              (Terms.section_values [Terms.stored Fixture.document_chunk]))
    /\ Forall (fun point => Collection.scrolled_payload point <> None)
              [Terms.stored Fixture.document_chunk].
Proof.
  destruct (Collection.analyze_points Collection.no_distributions
              [Terms.stored Fixture.document_chunk]) as [d | e] eqn:Hd.
  - exists d. split; [reflexivity |].
    apply (analyze_points_tallies [Terms.stored Fixture.document_chunk] d Hd).
  - vm_compute in Hd. discriminate.
Defined.

(** X26: the payload stored for a chunk holds every key that the search
    reads back, and the analysis of points stored from chunks never
    raises: its distributions count the chunks by company, by year and
    by section, leaving out the chunks without a section. *)
Theorem stats_of_stored_chunks :
  forall chunks : list DocumentChunker.DocumentChunk,
    Forall (fun chunk =>
              Forall (fun key =>
                        is_Some (Collection.payload_of_chunk chunk !! key))
                     Terms.keys_read)
           chunks
    /\ exists d,
         Collection.analyze_points Collection.no_distributions
           (map Terms.stored chunks) = Exn.Ok d
         /\ (forall k,
               Collection.companies d !! k
               = Terms.count_of k
                   (map (fun chunk =>
                           PyVal.Atom
                             (PyVal.SStr (DocumentChunker.company chunk)))
                        chunks))
         /\ (forall k,
               Collection.years d !! k
               = Terms.count_of k
                   (map (fun chunk =>
                           PyVal.Atom (PyVal.SInt (DocumentChunker.year chunk)))
                        chunks))
         /\ (forall k,
               Collection.sections d !! k
               = Terms.count_of k
                   (List.filter PyVal.truthy
                      (map (fun chunk =>
                              PyVal.of_opt_str (DocumentChunker.section chunk))
                           chunks))).
Proof.
  intros chunks. split.
  { apply Forall_forall. intros chunk _.
    repeat constructor; vm_compute; eexists; reflexivity. }
  destruct (analyze_stored chunks Collection.no_distributions) as [d Hd].
  exists d. split; [exact Hd |].
  assert (Hempty : Inv.counts_of ∅ []).
  { intros k. rewrite lookup_empty. reflexivity. }
  destruct (analyze_points_counts _ Collection.no_distributions d [] [] []
              Hd Hempty Hempty Hempty) as [Hc [Hy [Hs _]]].
  destruct (stored_values chunks) as [Vc [Vy Vs]].
  cbn [app] in Hc, Hy, Hs. rewrite Vc in Hc. rewrite Vy in Hy.
  rewrite Vs in Hs. repeat split; assumption.
Qed.

Section StatsOutcomeFacts.

Import Exn PyVal VectorStore Collection.

Context {W : Type}.

Lemma get_collection_stats_cases (self : Store W) (w : W) :
  get_collection_stats self w
  = match get_collection (client self) (collection_name self) w with
    | (Ok info, w1) =>
        match scroll (client self) (collection_name self) SCROLL_LIMIT w1 with
        | (Ok points, w2) =>
            match analyze_points no_distributions points with
            | Ok d =>
                (Ok (Some (mkStats (points_count info) (vectors_size info)
                             (vectors_distance info) (companies d) (years d)
                             (sections d))), w2)
            | Raise _ => (Ok None, w2)
            end
        | (Raise _, w2) => (Ok None, w2)
        end
    | (Raise _, w1) => (Ok None, w1)
    end.
Proof.
  unfold get_collection_stats. eff_unfold.
  destruct (get_collection _ _ w) as [[info | e] w1]; [| reflexivity].
  destruct (scroll _ _ _ w1) as [[points | e] w2]; [| reflexivity].
  destruct (analyze_points no_distributions points); reflexivity.
Qed.

End StatsOutcomeFacts.

(** X27: collection statistics never raise.  When the client cannot
    give the collection info or the points, or a point cannot be
    analysed, the result is the empty dictionary; otherwise the total is
    the point count of the collection info and the distributions are
    those of the analysis of the scrolled points, at most the first 1000
    the client returns. *)
Theorem get_collection_stats_outcomes :
  forall (W : Type) (self : Collection.Store W) (w : W),
    (exists stats w',
       Collection.get_collection_stats self w = (Exn.Ok stats, w'))
    /\ (forall e w1,
          Collection.get_collection (Collection.client self)
            (Collection.collection_name self) w = (Exn.Raise e, w1) ->
          Collection.get_collection_stats self w = (Exn.Ok None, w1))
    /\ (forall stats w',
          Collection.get_collection_stats self w = (Exn.Ok (Some stats), w') ->
          exists info w1 points d,
            Collection.get_collection (Collection.client self)
              (Collection.collection_name self) w = (Exn.Ok info, w1)
            /\ Collection.scroll (Collection.client self)
                 (Collection.collection_name self) 1000 w1
               = (Exn.Ok points, w')
            /\ Collection.analyze_points Collection.no_distributions points
               = Exn.Ok d
            /\ Collection.total_points stats = Collection.points_count info
            /\ Collection.company_distribution stats = Collection.companies d
            /\ Collection.year_distribution stats = Collection.years d
            /\ Collection.section_distribution stats = Collection.sections d).
Proof.
  intros W self w.
  split; [apply try_except_returns |].
  split.
  { intros e w1 H. now rewrite get_collection_stats_cases, H. }
  intros stats w'. rewrite get_collection_stats_cases.
  destruct (Collection.get_collection _ _ w) as [[info | e] w1];
    [| discriminate].
  change Collection.SCROLL_LIMIT with 1000.
  destruct (Collection.scroll _ _ _ w1) as [[points | e] w2] eqn:Hs;
    [| discriminate].
  destruct (Collection.analyze_points _ points) as [d | e] eqn:Hd;
    [| discriminate].
  intros [= <- <-]. exists info, w1, points, d.
  split; [reflexivity |]. split; [exact Hs |]. split; [exact Hd |].
  repeat split.
Qed.

(** ** Setting up and resetting the assistant *)

Section LifecycleFacts.

Import Exn PyVal VectorStore Collection Assistant Lifecycle.

Context {W : Type}.

Lemma create_collection_returns (vs : Store W) (w : W) :
  exists ok w', create_collection vs w = (Ok ok, w').
Proof. apply try_except_returns. Qed.

Lemma store_chunks_returns (vs : Store W)
  (chunks : list DocumentChunker.DocumentChunk) (w : W) :
  exists ok w', store_chunks vs chunks w = (Ok ok, w').
Proof. apply try_except_returns. Qed.

Lemma get_collection_stats_returns (vs : Store W) (w : W) :
  exists stats w', get_collection_stats vs w = (Ok stats, w').
Proof. apply try_except_returns. Qed.

Lemma delete_collection_returns (vs : Store W) (w : W) :
  exists ok w', delete_collection vs w = (Ok ok, w').
Proof. apply try_except_returns. Qed.

Lemma setup_vector_database_cases (self : System W) (w : W) :
  setup_vector_database self w
  = let w1 := snd (create_collection (vector_store self) w) in
    match document_chunks self with
    | [] => (Ok (false, self), w1)
    | _ =>
        match store_chunks (vector_store self) (document_chunks self) w1 with
        | (Ok true, w2) =>
            (Ok (true, set_initialized self true),
             snd (get_collection_stats (vector_store self) w2))
        | (_, w2) => (Ok (false, self), w2)
        end
    end.
Proof.
  unfold setup_vector_database. eff_unfold.
  destruct (create_collection_returns (vector_store self) w)
    as [created [w1 ->]].
  cbn [snd]. destruct (document_chunks self) as [|chunk chunks];
    [reflexivity |].
  destruct (store_chunks_returns (vector_store self) (chunk :: chunks) w1)
    as [[] [w2 ->]]; [| reflexivity].
  destruct (get_collection_stats_returns (vector_store self) w2)
    as [stats [w3 ->]].
  reflexivity.
Qed.

Lemma reset_system_cases (self : System W) (w : W) :
  reset_system self w
  = (Ok (true,
         mkSystem (mkAssistant (retriever (assistant self)) false)
                  (vector_store self) [] []),
     if is_initialized (assistant self)
     then snd (delete_collection (vector_store self) w) else w).
Proof.
  unfold reset_system. eff_unfold.
  destruct (is_initialized (assistant self)); [| reflexivity].
  destruct (delete_collection_returns (vector_store self) w)
    as [ok [w1 ->]].
  reflexivity.
Qed.

End LifecycleFacts.

(** X28: setting up the vector database never raises.  It returns
    [True] exactly when there are chunks and storing them returned
    [True], and only then marks the assistant as initialized; it changes
    nothing else of the assistant, and without chunks nothing is
    stored. *)
Theorem setup_vector_database_outcomes :
  forall (W : Type) (self : Lifecycle.System W) (w : W),
    exists ok self' w',
      Lifecycle.setup_vector_database self w = (Exn.Ok (ok, self'), w')
      /\ (ok = true
          <-> Lifecycle.document_chunks self <> []
              /\ exists w1 w2,
                   w1 = snd (Collection.create_collection
                               (Lifecycle.vector_store self) w)
                   /\ Collection.store_chunks (Lifecycle.vector_store self)
                        (Lifecycle.document_chunks self) w1
                      = (Exn.Ok true, w2))
      /\ self'
         = (if ok then Lifecycle.set_initialized self true else self)
      /\ Assistant.is_initialized (Lifecycle.assistant self')
         = Assistant.is_initialized (Lifecycle.assistant self) || ok
      /\ (Lifecycle.document_chunks self = [] ->
          w' = snd (Collection.create_collection
                      (Lifecycle.vector_store self) w)).
Proof.
  intros W self w. rewrite setup_vector_database_cases. cbv zeta.
  set (w1 := snd (Collection.create_collection _ w)).
  destruct (Lifecycle.document_chunks self) as [|chunk chunks] eqn:Hch.
  - exists false, self, w1. split; [reflexivity |].
    split; [split; [discriminate | intros [H _]; now contradiction H] |].
    split; [reflexivity |].
    split; [now rewrite orb_false_r | reflexivity].
  - destruct (store_chunks_returns (Lifecycle.vector_store self)
                (chunk :: chunks) w1) as [[] [w2 Hs]]; rewrite Hs.
    + eexists true, _, _. split; [reflexivity |].
      split.
      { split; [intros _ | reflexivity].
        split; [discriminate |]. exists w1, w2.
        split; [reflexivity | exact Hs]. }
      split; [reflexivity |].
      split; [cbn; now rewrite orb_true_r | discriminate].
    + exists false, self, w2. split; [reflexivity |].
      split.
      { split; [discriminate |]. intros [_ [w1' [w2' [-> H]]]].
        fold w1 in H. rewrite Hs in H. discriminate. }
      split; [reflexivity |].
      split; [now rewrite orb_false_r | discriminate].
Qed.

(** X29: resetting never raises and returns [True]; it deletes the
    collection only when the assistant was initialized, leaves no
    documents and no chunks, and afterwards every query is answered with
    the message that the system is not initialized; a second reset makes
    no call. *)
Theorem reset_system_outcomes :
  forall (W : Type) (self : Lifecycle.System W) (w : W),
    exists self' w',
      Lifecycle.reset_system self w = (Exn.Ok (true, self'), w')
      /\ w' = (if Assistant.is_initialized (Lifecycle.assistant self)
               then snd (Collection.delete_collection
                           (Lifecycle.vector_store self) w)
               else w)
      /\ Lifecycle.processed_documents self' = []
      /\ Lifecycle.document_chunks self' = []
      /\ Assistant.is_initialized (Lifecycle.assistant self') = false
      /\ Assistant.retriever (Lifecycle.assistant self')
         = Assistant.retriever (Lifecycle.assistant self)
      /\ (forall query,
            Assistant.answer_query (Lifecycle.assistant self') query
            = Exn.Ok Assistant.not_initialized_message)
      /\ Lifecycle.reset_system self' w' = (Exn.Ok (true, self'), w').
Proof.
  intros W self w. rewrite reset_system_cases.
  eexists _, _. split; [reflexivity |].
  split; [reflexivity |].
  cbn [Lifecycle.processed_documents Lifecycle.document_chunks
       Lifecycle.assistant Assistant.is_initialized Assistant.retriever].
  split; [reflexivity |]. split; [reflexivity |].
  split; [reflexivity |]. split; [reflexivity |].
  split; [intros query; reflexivity |].
  rewrite reset_system_cases. reflexivity.
Qed.

(** ** File names of the filings *)

Section FileNameFacts.

Import SECExtractor DocumentChunker.

Lemma split_char_nonempty (sep : ascii) (s : string) :
  split_char sep s <> [].
Proof.
  destruct s as [|c s]; cbn [split_char]; [discriminate |].
  destruct (Ascii.eqb c sep); [discriminate |].
  destruct (split_char sep s); discriminate.
Qed.

Lemma last_item_cons (x : string) (l : list string) :
  l <> [] -> last_item (x :: l) = last_item l.
Proof. destruct l; [contradiction | reflexivity]. Qed.

Lemma split_without (s : string) :
  Terms.no_slash s = true -> split_char "/" s = [s].
Proof.
  unfold Terms.no_slash. induction s as [|c s IH]; [reflexivity |].
  cbn [Aux.string_forallb split_char]. intros H.
  apply andb_true_iff in H as [Hc Hs]. apply negb_true_iff in Hc.
  now rewrite Hc, (IH Hs).
Qed.

Lemma split_after_length (a b : string) :
  (2 <= length (split_char "/" (a ++ String "/" b)))%nat.
Proof.
  induction a as [|c a IH].
  - change (EmptyString ++ String "/" b) with (String "/" b).
    cbn [split_char]. rewrite Ascii.eqb_refl. cbn [length].
    pose proof (split_char_nonempty "/" b).
    destruct (split_char "/" b); [contradiction | cbn [length]; lia].
  - rewrite string_app_cons. cbn [split_char].
    destruct (Ascii.eqb c "/"); [cbn [length]; lia |].
    destruct (split_char "/" (a ++ String "/" b)); cbn [length] in *; lia.
Qed.

Lemma last_split_after (a b : string) :
  last_item (split_char "/" (a ++ String "/" b))
  = last_item (split_char "/" b).
Proof.
  induction a as [|c a IH].
  - change (EmptyString ++ String "/" b) with (String "/" b).
    cbn [split_char]. rewrite Ascii.eqb_refl.
    apply last_item_cons, split_char_nonempty.
  - rewrite string_app_cons. cbn [split_char].
    destruct (Ascii.eqb c "/").
    + rewrite last_item_cons by apply split_char_nonempty. exact IH.
    + pose proof (split_after_length a b) as Hlen.
      destruct (split_char "/" (a ++ String "/" b)) as [|field [|f fs]];
        cbn [length] in Hlen; try lia.
      rewrite last_item_cons in IH |- * by discriminate. exact IH.
Qed.

Lemma ends_with_app (c : ascii) (s : string) :
  ends_with c s = true -> exists a, s = a ++ String c EmptyString.
Proof.
  induction s as [|x s IH]; [discriminate |].
  cbn [ends_with]. destruct s as [|y s].
  - intros H. apply Ascii.eqb_eq in H. subst x. now exists EmptyString.
  - intros H. destruct (IH H) as [a Ha]. exists (String x a).
    now rewrite string_app_cons, <- Ha.
Qed.

(** The last component of a joined path is the file name. *)
Lemma basename_path_join (dir name : string) :
  Terms.no_slash name = true ->
  last_item (split_char "/" (path_join dir name)) = name.
Proof.
  intros Hn. unfold path_join.
  assert (Hs : starts_with "/" name = false).
  { destruct name as [|c name]; [reflexivity |].
    unfold Terms.no_slash in Hn. cbn [Aux.string_forallb] in Hn.
    apply andb_true_iff in Hn as [Hc _]. now apply negb_true_iff in Hc. }
  rewrite Hs.
  destruct (String.eqb_spec dir EmptyString) as [-> | Hd]; cbn [orb].
  - change (EmptyString ++ name) with name.
    now rewrite (split_without name Hn).
  - destruct (ends_with "/" dir) eqn:He.
    + destruct (ends_with_app _ _ He) as [a ->].
      rewrite string_append_assoc, string_app_cons.
      change (EmptyString ++ name) with name.
      now rewrite last_split_after, (split_without name Hn).
    + change ("/" ++ name) with (String "/" name).
      now rewrite last_split_after, (split_without name Hn).
Qed.

Lemma string_forallb_impl (p q : ascii -> bool) (s : string) :
  (forall c, p c = true -> q c = true) ->
  Aux.string_forallb p s = true -> Aux.string_forallb q s = true.
Proof.
  intros Hpq. induction s as [|c s IH]; [reflexivity |].
  cbn [Aux.string_forallb]. intros H. apply andb_true_iff in H as [Hc Hs].
  now rewrite (Hpq c Hc), (IH Hs).
Qed.

Lemma capital_not_slash (c : ascii) :
  PyStr.is_upper_ascii c = true -> negb (Ascii.eqb c "/") = true.
Proof.
  intros H. apply negb_true_iff, Ascii.eqb_neq. intros ->.
  vm_compute in H. discriminate.
Qed.

Lemma digit_not_slash (c : ascii) :
  PyStr.is_digit c = true -> negb (Ascii.eqb c "/") = true.
Proof.
  intros H. apply negb_true_iff, Ascii.eqb_neq. intros ->.
  vm_compute in H. discriminate.
Qed.

Lemma four_digits_years (y : Z) :
  1000 <= y <= 9999 -> Terms.four_digits y = true.
Proof.
  intros Hy.
  assert (Hall : forallb Terms.four_digits
                   (map (fun k => 1000 + Z.of_nat k)
                      (seq 0 (Z.to_nat 9000))) = true).
  { vm_compute. reflexivity. }
  rewrite forallb_forall in Hall. apply Hall, in_map_iff.
  exists (Z.to_nat (y - 1000)). split; [lia |]. apply in_seq. lia.
Qed.

Lemma filename_without_slash (ticker : string) (year : Z) :
  Terms.capitals ticker = true -> Terms.four_digits year = true ->
  Terms.no_slash (filing_filename ticker year) = true.
Proof.
  intros Ht Hy. unfold Terms.four_digits in Hy.
  apply andb_true_iff in Hy as [Hy _]. apply andb_true_iff in Hy as [_ Hd].
  unfold Terms.no_slash, filing_filename.
  rewrite !string_forallb_app, !andb_true_iff. repeat split.
  - exact (string_forallb_impl _ _ _ capital_not_slash Ht).
  - exact (string_forallb_impl _ _ _ digit_not_slash Hd).
Qed.

Lemma drop_append (a b : string) :
  PyStr.drop (String.length a) (a ++ b) = b.
Proof.
  induction a as [|c a IH]; [now destruct b |].
  rewrite string_app_cons. exact IH.
Qed.

Lemma match_filename (ticker digits : string) :
  ticker <> EmptyString -> Terms.capitals ticker = true ->
  String.length digits = 4%nat ->
  Aux.string_forallb PyStr.is_digit digits = true ->
  match_10k_here (ticker ++ "_10K_" ++ digits ++ ".html")
  = Some (ticker, digits).
Proof.
  intros Hne Ht Hlen Hd. unfold match_10k_here.
  assert (E : "_10K_" ++ digits ++ ".html"
              = String "_" ("10K_" ++ digits ++ ".html")) by reflexivity.
  rewrite E.
  rewrite (span_stop PyStr.is_upper_ascii ticker "_" _ Ht eq_refl).
  destruct ticker as [|c t]; [contradiction |].
  cbv beta iota zeta. rewrite <- E.
  assert (Hp : String.prefix "_10K_" ("_10K_" ++ digits ++ ".html") = true).
  { apply prefix_iff. now exists (digits ++ ".html"). }
  rewrite Hp.
  change 5%nat with (String.length "_10K_"). rewrite drop_append.
  destruct digits as [|d1 [|d2 [|d3 [|d4 [|d5 ds]]]]]; try discriminate.
  cbn [Aux.string_forallb] in Hd.
  apply andb_true_iff in Hd as [H1 Hd]. apply andb_true_iff in Hd as [H2 Hd].
  apply andb_true_iff in Hd as [H3 Hd]. apply andb_true_iff in Hd as [H4 _].
  rewrite !string_app_cons. cbn [Retriever.digits_upto].
  rewrite H1, H2, H3, H4. reflexivity.
Qed.

End FileNameFacts.

(** X30: the chunker reads back the company and the year from the path
    under which the extractor saves a filing, for every save directory,
    every ticker made of capital letters and every year of four
    digits. *)
Theorem filing_path_round_trip :
  forall (save_dir ticker : string) (year : Z),
    ticker <> EmptyString ->
    Terms.capitals ticker = true ->
    1000 <= year <= 9999 ->
    DocumentChunker.extract_company_year
      (SECExtractor.filing_path save_dir ticker year)
    = (ticker, year).
Proof.
  intros save_dir ticker year Hne Ht Hy.
  pose proof (four_digits_years year Hy) as H4.
  unfold DocumentChunker.extract_company_year, SECExtractor.filing_path.
  rewrite (basename_path_join save_dir _
             (filename_without_slash ticker year Ht H4)).
  unfold Terms.four_digits in H4.
  apply andb_true_iff in H4 as [H4 Hval].
  apply andb_true_iff in H4 as [Hlen Hd].
  apply Nat.eqb_eq in Hlen. apply Z.eqb_eq in Hval.
  unfold SECExtractor.filing_filename.
  pose proof (match_filename ticker (PyStr.str_of_int year) Hne Ht Hlen Hd)
    as Hm.
  destruct ticker as [|c t]; [contradiction |].
  rewrite string_app_cons in Hm |- *.
  cbn [DocumentChunker.search_10k]. rewrite Hm. now rewrite Hval.
Qed.

(** X30, witness. *)
Lemma filing_path_round_trip_witness :
  DocumentChunker.extract_company_year
    (SECExtractor.filing_path "/workspace/data/sec_filings" "MSFT" 2023)
  = ("MSFT", 2023).
Proof.
  apply (filing_path_round_trip "/workspace/data/sec_filings" "MSFT" 2023).
  - discriminate.
  - reflexivity.
  - lia.
Defined.
